(** * Solder Reflow Hot Plate controller: a shallow embedding of [main.cpp]

    The development embeds the firmware's thermal control core
    (thermistor fault detection, the reflow state machine, the two PID
    loops, parameter editing and EEPROM persistence, the encoder
    interrupt handlers, and the [loop()] body that drives them) as Rocq
    functions over a record of the program's global variables, and
    proves or refutes properties of it.

    Conventions.
    - [uint8_t] values are [Z] reduced modulo 256 ([u8]); [int] is the
      16-bit AVR [int], reduced with [i16]; [unsigned long] is reduced
      modulo 2^32 ([u32]).  Signed overflow and out-of-range
      conversions, undefined in C++, wrap around as avr-gcc makes them.
    - [double] values are exact rationals ([Q]).  Statements about them
      use the setoid equality [==].  The rounding of the binary
      floating-point arithmetic of the target, and its infinities and
      NaN, are not modelled: properties are stated where they depend on
      neither.
    - Hardware inputs (the push button, [millis()], the converted
      thermistor temperatures) are arguments of the functions that read
      them.  The conversion of ADC counts to degrees in [readThermistor]
      goes through the floating-point logarithm and is not modelled: the
      converted temperature is the input of the fault logic.
    - A local variable read before it is written (the two failure
      counters of [readThermistor]) is an input as well.
    - Display-only variables ([curPos], [T1Disp], [T2Disp]), the drawing
      calls and the busy-wait delays are left out.
    - The EEPROM is a function from addresses to bytes.  Properties of
      the array routines are stated for cells inside the 1024 bytes of
      the ATmega328P.
    - Each function keeps the name it has in the source.  Bodies of
      [if] blocks that the proofs treat one at a time are named
      separately ([calcReflowProfile], [confirmYes], [startRun], ...)
      next to the function they belong to. *)

From Stdlib Require Import ZArith QArith List Bool Lia.
From Stdlib Require Import Qfield Lqa.
Import ListNotations.

Set Implicit Arguments.
Open Scope Z_scope.

(* ================================================================== *)
(** ** Machine integers and rationals *)
(* ================================================================== *)

Definition u8 (z : Z) : Z := z mod 256.
Definition i16 (z : Z) : Z := (z + 32768) mod 65536 - 32768.
Definition u32 (z : Z) : Z := z mod 4294967296.

(** [x < y] on rationals, as a boolean. *)
Definition Qlt_bool (x y : Q) : bool := negb (Qle_bool y x).

(** Conversion of a [double] to an integer: truncation toward zero. *)
Definition Qtrunc (q : Q) : Z := Z.quot (Qnum q) (Zpos (Qden q)).

(** Conversion of a [double] to the 16-bit [int]. *)
Definition double_to_int (q : Q) : Z := i16 (Qtrunc q).

(** C arrays of a fixed size: reads outside the array are undefined in
    the source and return the default here; writes outside the array
    are undefined in the source and do nothing here. *)
Definition arr_get {A} (d : A) (l : list A) (i : Z) : A :=
  if (0 <=? i) && (i <? Z.of_nat (length l)) then nth (Z.to_nat i) l d else d.

Fixpoint list_set {A} (l : list A) (n : nat) (v : A) : list A :=
  match l, n with
  | [], _ => []
  | _ :: t, O => v :: t
  | h :: t, S n' => h :: list_set t n' v
  end.

Definition arr_set {A} (l : list A) (i : Z) (v : A) : list A :=
  if (0 <=? i) && (i <? Z.of_nat (length l)) then list_set l (Z.to_nat i) v else l.

(* ================================================================== *)
(** ** The Arduino PID library ([#include <PID_v1.h>])

    [main.cpp] instantiates two [PID] objects of the Arduino PID library
    (version 1).  The library is an external dependency of the sketch;
    the module below follows its [PID_v1.cpp].  The object's three
    pointers ([myInput], [myOutput], [mySetpoint]) are modelled by
    passing the pointed-to values in and returning the new output. *)
(* ================================================================== *)

Module PID.

Local Open Scope Q_scope.

Record t : Type := mk {
  kp : Q; ki : Q; kd : Q;
  dispKp : Q; dispKi : Q; dispKd : Q;
  pOnE : bool;
  reverse : bool;            (* controllerDirection == REVERSE *)
  outMin : Q; outMax : Q;
  inAuto : bool;
  SampleTime : Z;            (* unsigned long, milliseconds *)
  lastTime : Z;              (* unsigned long *)
  outputSum : Q;
  lastInput : Q
}.

Definition clamp (p : t) (x : Q) : Q :=
  if Qlt_bool (outMax p) x then outMax p
  else if Qlt_bool x (outMin p) then outMin p
  else x.

(** [PID::SetTunings(Kp, Ki, Kd, POn)] *)
Definition SetTunings (Kp Ki Kd : Q) (POnE : bool) (p : t) : t :=
  if Qlt_bool Kp 0 || Qlt_bool Ki 0 || Qlt_bool Kd 0 then p
  else
    let SampleTimeInSec := inject_Z (SampleTime p) / 1000 in
    let kp' := Kp in
    let ki' := Ki * SampleTimeInSec in
    let kd' := Kd / SampleTimeInSec in
    mk (if reverse p then 0 - kp' else kp')
       (if reverse p then 0 - ki' else ki')
       (if reverse p then 0 - kd' else kd')
       Kp Ki Kd POnE (reverse p) (outMin p) (outMax p) (inAuto p)
       (SampleTime p) (lastTime p) (outputSum p) (lastInput p).

(** [PID::SetSampleTime(NewSampleTime)] *)
Definition SetSampleTime (NewSampleTime : Z) (p : t) : t :=
  if (0 <? NewSampleTime)%Z then
    let ratio := inject_Z NewSampleTime / inject_Z (SampleTime p) in
    mk (kp p) (ki p * ratio) (kd p / ratio)
       (dispKp p) (dispKi p) (dispKd p) (pOnE p) (reverse p)
       (outMin p) (outMax p) (inAuto p)
       NewSampleTime (lastTime p) (outputSum p) (lastInput p)
  else p.

(** [PID::Initialize()]: called on the MANUAL to AUTOMATIC edge. *)
Definition Initialize (input output : Q) (p : t) : t :=
  mk (kp p) (ki p) (kd p) (dispKp p) (dispKi p) (dispKd p) (pOnE p)
     (reverse p) (outMin p) (outMax p) (inAuto p) (SampleTime p)
     (lastTime p) (clamp p output) input.

(** [PID::SetMode(Mode)]; [automatic] is [Mode == AUTOMATIC]. *)
Definition SetMode (automatic : bool) (input output : Q) (p : t) : t :=
  let p1 := if automatic && negb (inAuto p)
            then Initialize input output p else p in
  mk (kp p1) (ki p1) (kd p1) (dispKp p1) (dispKi p1) (dispKd p1)
     (pOnE p1) (reverse p1) (outMin p1) (outMax p1) automatic
     (SampleTime p1) (lastTime p1) (outputSum p1) (lastInput p1).

(** [PID::Compute()]: returns the object and the value of [*myOutput]
    after the call.  [now] is the value of [millis()]. *)
Definition Compute (now : Z) (input setpoint output : Q) (p : t) : t * Q :=
  if negb (inAuto p) then (p, output)
  else
    let timeChange := u32 (now - lastTime p)%Z in
    if (SampleTime p <=? timeChange)%Z then
      let error := setpoint - input in
      let dInput := input - lastInput p in
      let sum1 := outputSum p + ki p * error in
      let sum2 := if pOnE p then sum1 else sum1 - kp p * dInput in
      let sum3 := clamp p sum2 in
      let out0 := if pOnE p then kp p * error else 0 in
      let out1 := out0 + (sum3 - kd p * dInput) in
      let out2 := clamp p out1 in
      (mk (kp p) (ki p) (kd p) (dispKp p) (dispKi p) (dispKd p) (pOnE p)
          (reverse p) (outMin p) (outMax p) (inAuto p) (SampleTime p)
          now sum3 input,
       out2)
    else (p, output).

(** The seven-argument constructor
    [PID(Input, Output, Setpoint, Kp, Ki, Kd, ControllerDirection)]:
    proportional on error, output limits 0..255, sample time 100 ms,
    manual mode.  [now] is [millis()] at construction. *)
Definition construct (now : Z) (Kp Ki Kd : Q) (rev : bool) : t :=
  let p0 := mk 0 0 0 0 0 0 true rev 0 255 false 100%Z 0%Z 0 0 in
  let p1 := SetTunings Kp Ki Kd true p0 in
  mk (kp p1) (ki p1) (kd p1) (dispKp p1) (dispKi p1) (dispKd p1)
     (pOnE p1) (reverse p1) (outMin p1) (outMax p1) (inAuto p1)
     (SampleTime p1) (u32 (now - SampleTime p1)%Z) (outputSum p1)
     (lastInput p1).

End PID.

(* ================================================================== *)
(** ** Global variables of the sketch *)
(* ================================================================== *)

#[projections(primitive)]
Record State : Type := mkState {
  (* thermistors *)
  steinhart1 : Q;
  steinhart2 : Q;
  thermistor1Buffer : Q;
  thermistor2Buffer : Q;
  thermistor1Fail : bool;
  thermistor2Fail : bool;
  (* rotary encoder *)
  interruptsEnabled : bool;          (* the AVR global interrupt flag *)
  menuCounter : Z;
  protectedMenuCounter : Z;
  previousMenuCounter : Z;
  selectCounter : Z;
  encSW : bool;
  (* menu structure *)
  menuIndex : Z;
  selectIndexMax : Z;
  running : bool;
  selectFlag : bool;
  startConfirm : bool;
  (* process variables *)
  wrkInt : Z;
  wrkDouble : Q;
  parametersReflow : list Z;
  parametersPID : list Q;
  parametersPIDint : list Z;
  (* PID variables *)
  pid_Setpoint : Q;
  pid1_Input : Q;
  pid1_Output : Q;
  pid2_Input : Q;
  pid2_Output : Q;
  (* running execution variables *)
  runningBuffer : bool;
  runningState : Z;
  time_now : Z;
  runningSecondCounter : Z;
  initTempSnapshot : Q;
  constTempSP : Z;
  runningMode : bool;
  (* objects and peripherals *)
  hotPlate1PID : PID.t;
  hotPlate2PID : PID.t;
  EEPROM : Z -> Z;                   (* address -> byte *)
  pwm1 : Z;                          (* last analogWrite(pwmPin1, _) *)
  pwm2 : Z                           (* last analogWrite(pwmPin2, _) *)
}.

(** Assignment to one global: the record rebuilt with one field
    replaced.  The setters are generated from the eta-expansion. *)
Definition eta (s : State) : State :=
  mkState (steinhart1 s) (steinhart2 s) (thermistor1Buffer s)
    (thermistor2Buffer s) (thermistor1Fail s) (thermistor2Fail s)
    (interruptsEnabled s) (menuCounter s) (protectedMenuCounter s)
    (previousMenuCounter s) (selectCounter s) (encSW s) (menuIndex s)
    (selectIndexMax s) (running s) (selectFlag s) (startConfirm s)
    (wrkInt s) (wrkDouble s) (parametersReflow s) (parametersPID s)
    (parametersPIDint s) (pid_Setpoint s) (pid1_Input s) (pid1_Output s)
    (pid2_Input s) (pid2_Output s) (runningBuffer s) (runningState s)
    (time_now s) (runningSecondCounter s) (initTempSnapshot s)
    (constTempSP s) (runningMode s) (hotPlate1PID s) (hotPlate2PID s)
    (EEPROM s) (pwm1 s) (pwm2 s).

Ltac setter proj :=
  let v := fresh "v" in
  let s := fresh "s" in
  intros v s;
  let e := eval cbv [eta] in (eta s) in
  match eval pattern (proj s) in e with
  | ?f _ => let r := eval cbv beta in (f v) in exact r
  end.

Definition set_steinhart1 : Q -> State -> State. Proof. setter steinhart1. Defined.
Definition set_steinhart2 : Q -> State -> State. Proof. setter steinhart2. Defined.
Definition set_thermistor1Buffer : Q -> State -> State. Proof. setter thermistor1Buffer. Defined.
Definition set_thermistor2Buffer : Q -> State -> State. Proof. setter thermistor2Buffer. Defined.
Definition set_thermistor1Fail : bool -> State -> State. Proof. setter thermistor1Fail. Defined.
Definition set_thermistor2Fail : bool -> State -> State. Proof. setter thermistor2Fail. Defined.
Definition set_interruptsEnabled : bool -> State -> State. Proof. setter interruptsEnabled. Defined.
Definition set_menuCounter : Z -> State -> State. Proof. setter menuCounter. Defined.
Definition set_protectedMenuCounter : Z -> State -> State. Proof. setter protectedMenuCounter. Defined.
Definition set_previousMenuCounter : Z -> State -> State. Proof. setter previousMenuCounter. Defined.
Definition set_selectCounter : Z -> State -> State. Proof. setter selectCounter. Defined.
Definition set_encSW : bool -> State -> State. Proof. setter encSW. Defined.
Definition set_menuIndex : Z -> State -> State. Proof. setter menuIndex. Defined.
Definition set_selectIndexMax : Z -> State -> State. Proof. setter selectIndexMax. Defined.
Definition set_running : bool -> State -> State. Proof. setter running. Defined.
Definition set_selectFlag : bool -> State -> State. Proof. setter selectFlag. Defined.
Definition set_startConfirm : bool -> State -> State. Proof. setter startConfirm. Defined.
Definition set_wrkInt : Z -> State -> State. Proof. setter wrkInt. Defined.
Definition set_wrkDouble : Q -> State -> State. Proof. setter wrkDouble. Defined.
Definition set_parametersReflow : list Z -> State -> State. Proof. setter parametersReflow. Defined.
Definition set_parametersPID : list Q -> State -> State. Proof. setter parametersPID. Defined.
Definition set_parametersPIDint : list Z -> State -> State. Proof. setter parametersPIDint. Defined.
Definition set_pid_Setpoint : Q -> State -> State. Proof. setter pid_Setpoint. Defined.
Definition set_pid1_Input : Q -> State -> State. Proof. setter pid1_Input. Defined.
Definition set_pid1_Output : Q -> State -> State. Proof. setter pid1_Output. Defined.
Definition set_pid2_Input : Q -> State -> State. Proof. setter pid2_Input. Defined.
Definition set_pid2_Output : Q -> State -> State. Proof. setter pid2_Output. Defined.
Definition set_runningBuffer : bool -> State -> State. Proof. setter runningBuffer. Defined.
Definition set_runningState : Z -> State -> State. Proof. setter runningState. Defined.
Definition set_time_now : Z -> State -> State. Proof. setter time_now. Defined.
Definition set_runningSecondCounter : Z -> State -> State. Proof. setter runningSecondCounter. Defined.
Definition set_initTempSnapshot : Q -> State -> State. Proof. setter initTempSnapshot. Defined.
Definition set_constTempSP : Z -> State -> State. Proof. setter constTempSP. Defined.
Definition set_runningMode : bool -> State -> State. Proof. setter runningMode. Defined.
Definition set_hotPlate1PID : PID.t -> State -> State. Proof. setter hotPlate1PID. Defined.
Definition set_hotPlate2PID : PID.t -> State -> State. Proof. setter hotPlate2PID. Defined.
Definition set_EEPROM : (Z -> Z) -> State -> State. Proof. setter EEPROM. Defined.
Definition set_pwm1 : Z -> State -> State. Proof. setter pwm1. Defined.
Definition set_pwm2 : Z -> State -> State. Proof. setter pwm2. Defined.

(* ================================================================== *)
(** ** Inputs *)
(* ================================================================== *)

(** What one call of [readThermistor] reads from outside the program:
    the two converted temperatures (the values [steinhart1] and
    [steinhart2] hold at line 874), and the values the two local
    counters [thermistor1FailCounter], [thermistor2FailCounter] happen
    to hold on entry: they are declared without an initialiser and are
    not [static], so each call starts from an indeterminate byte. *)
Record Acquisition : Type := mkAcq {
  temp1 : Q;
  temp2 : Q;
  junk1 : Z;
  junk2 : Z
}.

(** What one iteration of [loop()] reads: the push button
    ([!digitalRead(encSW_inp)]), [millis()] as read by the software
    timers and by each [PID::Compute], and the acquisitions consumed by
    the [readThermistor] call made in [loop()] itself and by the one
    made in [reflowRunning]/[constTempRunning]. *)
Record TickInput : Type := mkTick {
  button : bool;
  ms_timer : Z;
  ms_pid1 : Z;
  ms_pid2 : Z;
  acq_loop : Acquisition;
  acq_run : Acquisition
}.

(** [for (i = 0; i < n; i++) body] *)
Fixpoint for_loop {A} (n : nat) (i : Z) (body : Z -> A -> A) (a : A) : A :=
  match n with
  | O => a
  | S n' => for_loop n' (i + 1) body (body i a)
  end.

(* ================================================================== *)
(** ** Interrupt handling routines for the rotary encoder *)
(* ================================================================== *)

(** Both handlers run the same body once [tempCounter] (0 on entry)
    has been stepped up or down. *)
Definition isr_body (tempCounter : Z) (s : State) : State :=
  if selectFlag s then
    set_selectCounter (i16 (selectCounter s + tempCounter)) s
  else if (0 <? tempCounter) && (menuCounter s <? selectIndexMax s) then
    set_menuCounter (i16 (menuCounter s + 1)) s
  else if (tempCounter <? 0) && (1 <? menuCounter s) then
    set_menuCounter (i16 (menuCounter s - 1)) s
  else s.

Definition isrEncCLK (readCLK readDT : bool) (s : State) : State :=
  isr_body (if negb (Bool.eqb readDT readCLK) then 1 else -1) s.

Definition isrEncDT (readCLK readDT : bool) (s : State) : State :=
  isr_body (if Bool.eqb readCLK readDT then 1 else -1) s.

(* ================================================================== *)
(** ** EEPROM read / write handling routines *)
(* ================================================================== *)

(** [EEPROM.update(address, value)]: the value is narrowed to a byte. *)
Definition EEPROM_update (address value : Z) (e : Z -> Z) : Z -> Z :=
  fun a => if a =? address then u8 value else e a.

Definition writeUInt8TArrayIntoEEPROM (address : Z) (numbers : list Z)
    (arraySize : nat) (e : Z -> Z) : Z -> Z :=
  snd (for_loop arraySize 0
         (fun i '(addressIndex, e) =>
            (addressIndex + 1, EEPROM_update addressIndex (arr_get 0 numbers i) e))
         (address, e)).

Definition writeIntArrayIntoEEPROM (address : Z) (numbers : list Z)
    (arraySize : nat) (e : Z -> Z) : Z -> Z :=
  snd (for_loop arraySize 0
         (fun i '(addressIndex, e) =>
            let e := EEPROM_update addressIndex
                       (Z.shiftr (arr_get 0 numbers i) 8) e in
            let e := EEPROM_update (addressIndex + 1)
                       (Z.land (arr_get 0 numbers i) 255) e in
            (addressIndex + 2, e))
         (address, e)).

Definition readUInt8TArrayFromEEPROM (address : Z) (numbers : list Z)
    (arraySize : nat) (e : Z -> Z) : list Z :=
  snd (for_loop arraySize 0
         (fun i '(addressIndex, numbers) =>
            (addressIndex + 1, arr_set numbers i (e addressIndex)))
         (address, numbers)).

Definition readIntArrayFromEEPROM (address : Z) (numbers : list Z)
    (arraySize : nat) (e : Z -> Z) : list Z :=
  snd (for_loop arraySize 0
         (fun i '(addressIndex, numbers) =>
            (addressIndex + 2,
             arr_set numbers i
               (i16 (Z.shiftl (e addressIndex) 8 + e (addressIndex + 1)))))
         (address, numbers)).

(* ================================================================== *)
(** ** Parameter calculations *)
(* ================================================================== *)

Definition commit_clear (s : State) : State :=
  let s := set_selectCounter 0 s in
  let s := set_wrkInt 0 s in
  set_wrkDouble 0%Q s.

(** The body of [if (menuIndex == 3)]: reflow profile. *)
Definition calcReflowProfile (s : State) : State :=
  let s := set_wrkInt
             (u8 (i16 (selectCounter s
                       + arr_get 0 (parametersReflow s) (menuCounter s - 1)))) s in
  if encSW s then
    let s := set_parametersReflow
               (arr_set (parametersReflow s) (menuCounter s - 1) (wrkInt s)) s in
    commit_clear s
  else s.

(** The body of [if (menuIndex == 4)]: PID parameters. *)
Definition calcTuning (s : State) : State :=
  let s := set_wrkDouble
             (inject_Z (selectCounter s) * (1 # 100)
              + arr_get 0 (parametersPID s) (menuCounter s - 1))%Q s in
  let s := set_wrkDouble
             (if Qlt_bool (wrkDouble s) 0 then 0%Q else wrkDouble s) s in
  if encSW s then
    let s := set_parametersPID
               (arr_set (parametersPID s) (menuCounter s - 1) (wrkDouble s)) s in
    commit_clear s
  else s.

(** The body of [if (menuIndex == 98)]: constant temperature setpoint. *)
Definition calcConstTemp (s : State) : State :=
  let s := set_wrkInt (u8 (i16 (selectCounter s + constTempSP s))) s in
  if encSW s then
    let s := set_constTempSP (wrkInt s) s in
    commit_clear s
  else s.

Definition calcParameters (s : State) : State :=
  let s := if menuIndex s =? 3 then calcReflowProfile s else s in
  let s := if menuIndex s =? 4 then calcTuning s else s in
  if menuIndex s =? 98 then calcConstTemp s else s.

(** [analogWrite(pin, value)] takes an [int]. *)
Definition pidLoop1 (now : Z) (s : State) : State :=
  let s := set_pid1_Input (steinhart1 s) s in
  let r := PID.Compute now (pid1_Input s) (pid_Setpoint s) (pid1_Output s)
             (hotPlate1PID s) in
  let s := set_pid1_Output (snd r) (set_hotPlate1PID (fst r) s) in
  set_pwm1 (double_to_int (pid1_Output s)) s.

Definition pidLoop2 (now : Z) (s : State) : State :=
  let s := set_pid2_Input (steinhart2 s) s in
  let r := PID.Compute now (pid2_Input s) (pid_Setpoint s) (pid2_Output s)
             (hotPlate2PID s) in
  let s := set_pid2_Output (snd r) (set_hotPlate2PID (fst r) s) in
  set_pwm2 (double_to_int (pid2_Output s)) s.

(* ================================================================== *)
(** ** Menu navigation and encoder selection handling *)
(* ================================================================== *)

(** [case 5] of [updateCursorPosition]: save the configuration. *)
Definition saveConfiguration (s : State) : State :=
  let s := set_EEPROM
             (writeUInt8TArrayIntoEEPROM 1 (parametersReflow s) 7 (EEPROM s)) s in
  let s := for_loop 6 0
             (fun i s =>
                set_parametersPIDint
                  (arr_set (parametersPIDint s) i
                     (double_to_int (arr_get 0%Q (parametersPID s) i * 100)%Q)) s)
             s in
  let s := set_EEPROM
             (writeIntArrayIntoEEPROM 8 (parametersPIDint s) 6 (EEPROM s)) s in
  let s := set_menuIndex 2 s in
  set_menuCounter 1 s.

Definition toggle_selectFlag (s : State) : State :=
  set_selectFlag (negb (selectFlag s)) s.

(** The run screen a confirmed or continued run returns to. *)
Definition runScreen (s : State) : Z := if runningMode s then 99 else 98.

(** CONFIRM DIALOG, [if (menuCounter == 1)]: the NO selection. *)
Definition confirmNo (s : State) : State :=
  if startConfirm s then
    (* no run yet: fall back to the main menu *)
    let s := set_running false s in
    let s := set_menuIndex 0 s in
    let s := set_menuCounter 1 s in
    set_startConfirm false s
  else
    (* a run is active: back to the running screen *)
    let s := set_running true s in
    let s := set_menuIndex (runScreen s) s in
    set_menuCounter 1 s.

(** CONFIRM DIALOG, [if (menuCounter == 2)]: the YES selection. *)
Definition confirmYes (s : State) : State :=
  if startConfirm s then
    (* start running *)
    let s := set_running true s in
    let s := set_menuIndex (runScreen s) s in
    let s := set_menuCounter 1 s in
    set_startConfirm false s
  else
    (* a run is active: stop it *)
    let s := set_running false s in
    let s := set_menuIndex 0 s in
    set_menuCounter 1 s.

Definition updateCursorPosition (s : State) : State :=
  match menuIndex s with
  | 0 =>                                   (* MAIN MENU *)
      if encSW s then
        let s :=
          if menuCounter s =? 1 then       (* Start Reflow selected *)
            set_menuIndex 1 (set_startConfirm true (set_runningMode true s))
          else if menuCounter s =? 2 then  (* Start Const. Temp selected *)
            set_menuIndex 1 (set_startConfirm true (set_runningMode false s))
          else if menuCounter s =? 3 then
            set_menuIndex 2 s
          else s in
        set_menuCounter 1 s
      else s
  | 1 =>                                   (* CONFIRM DIALOG *)
      if encSW s then
        let s := if menuCounter s =? 1 then confirmNo s else s in
        if menuCounter s =? 2 then confirmYes s else s
      else s
  | 2 =>                                   (* CONFIGURATION MENU *)
      if encSW s then
        if menuCounter s =? 4 then
          set_menuCounter 1 (set_menuIndex 0 s)
        else
          set_menuCounter 1 (set_menuIndex (u8 (menuCounter s + 2)) s)
      else s
  | 3 =>                                   (* REFLOW PROFILE *)
      if encSW s then
        if menuCounter s =? 8 then
          set_menuCounter 1 (set_menuIndex 2 s)
        else toggle_selectFlag s
      else s
  | 4 =>                                   (* PID LOOP TUNING *)
      if encSW s then
        if menuCounter s =? 7 then
          set_menuCounter 1 (set_menuIndex 2 s)
        else toggle_selectFlag s
      else s
  | 5 => saveConfiguration s               (* SAVE CONFIGURATION *)
  | 98 =>                                  (* RUNNING - CONSTANT TEMP *)
      if encSW s then
        if menuCounter s =? 2 then
          set_menuCounter 1 (set_menuIndex 1 (set_startConfirm false s))
        else toggle_selectFlag s
      else s
  | 99 =>                                  (* RUNNING - REFLOW PROFILE *)
      if encSW s then
        set_menuCounter 1 (set_menuIndex 1 (set_startConfirm false s))
      else s
  | _ => s
  end.

(** [updateDisplay] changes one variable of the program: the highest
    selectable index of the menu being drawn, and only while no
    thermistor failure is flagged (the failure message replaces the
    menu). *)
Definition updateDisplay (s : State) : State :=
  if negb (thermistor1Fail s) && negb (thermistor2Fail s) then
    match menuIndex s with
    | 0 => set_selectIndexMax 3 s
    | 1 => set_selectIndexMax 2 s
    | 2 => set_selectIndexMax 4 s
    | 3 => set_selectIndexMax 8 s
    | 4 => set_selectIndexMax 7 s
    | 98 => set_selectIndexMax 2 s
    | 99 => set_selectIndexMax 1 s
    | _ => s
    end
  else s.

(* ================================================================== *)
(** ** Temperature readings and failure flags *)
(* ================================================================== *)

(** [counter = counter++]: the old value is stored back (the
    right-hand side is sequenced before the assignment). *)
Definition assign_post_increment (counter : Z) : Z := counter.

(** The C++ truth value of a [double]. *)
Definition Qtruthy (x : Q) : bool := negb (Qeq_bool x 0).

Definition readThermistor (a : Acquisition) (s : State) : State :=
  (* buffer the previous readings *)
  let s := set_thermistor1Buffer (steinhart1 s) s in
  let s := set_thermistor2Buffer (steinhart2 s) s in
  (* sampling and conversion *)
  let s := set_steinhart1 (temp1 a) s in
  let s := set_steinhart2 (temp2 a) s in
  (* [if (thermistor1Buffer = steinhart1)]: an assignment, whose value
     is the condition *)
  let s := set_thermistor1Buffer (steinhart1 s) s in
  let thermistor1FailCounter :=
    if Qtruthy (thermistor1Buffer s)
    then assign_post_increment (junk1 a) else 0 in
  let s := set_thermistor2Buffer (steinhart2 s) s in
  let thermistor2FailCounter :=
    if Qtruthy (thermistor2Buffer s)
    then assign_post_increment (junk2 a) else 0 in
  let s := set_thermistor1Fail
             (Qlt_bool (steinhart1 s) (-20) || (3 <=? thermistor1FailCounter)) s in
  set_thermistor2Fail
    (Qlt_bool (steinhart2 s) (-20) || (3 <=? thermistor2FailCounter)) s.

(* ================================================================== *)
(** ** Running state logic *)
(* ================================================================== *)

Definition setMode1 (automatic : bool) (s : State) : State :=
  set_hotPlate1PID
    (PID.SetMode automatic (pid1_Input s) (pid1_Output s) (hotPlate1PID s)) s.

Definition setMode2 (automatic : bool) (s : State) : State :=
  set_hotPlate2PID
    (PID.SetMode automatic (pid2_Input s) (pid2_Output s) (hotPlate2PID s)) s.

(** [parametersReflow[i]] cast to [double]. *)
Definition P (s : State) (i : Z) : Q := inject_Z (arr_get 0 (parametersReflow s) i).

(** The [switch (runningState)] of [reflowRunning]. *)
Definition reflowSwitch (s : State) : State :=
  let t := inject_Z (runningSecondCounter s) in
  match runningState s with
  | 1 =>                                   (* RAMP *)
      let s := set_pid_Setpoint
                 (((P s 0 - initTempSnapshot s) / P s 1 - 0) * t
                  + initTempSnapshot s)%Q s in
      if arr_get 0 (parametersReflow s) 1 <=? runningSecondCounter s
      then set_runningState 2 s else s
  | 2 =>                                   (* SOAK *)
      let s := set_pid_Setpoint
                 (((P s 2 - P s 0) / (P s 3 - P s 1)) * (t - P s 1) + P s 0)%Q s in
      if arr_get 0 (parametersReflow s) 3 <=? runningSecondCounter s
      then set_runningState 3 s else s
  | 3 =>                                   (* REFLOW RAMP *)
      let s := set_pid_Setpoint
                 (((P s 4 - P s 2) / (P s 5 - P s 3)) * (t - P s 3) + P s 2)%Q s in
      if arr_get 0 (parametersReflow s) 5 <=? runningSecondCounter s
      then set_runningState 4 s else s
  | 4 =>                                   (* REFLOW *)
      let s := set_pid_Setpoint (P s 4) s in
      if arr_get 0 (parametersReflow s) 5 + arr_get 0 (parametersReflow s) 6
         <=? runningSecondCounter s
      then set_runningState 5 s else s
  | 5 =>                                   (* COOLING / COMPLETE *)
      let s := set_pid_Setpoint 0%Q s in
      let s := setMode1 false s in
      let s := setMode2 false s in
      let s := set_pid1_Output 0%Q s in
      set_pid2_Output 0%Q s
  | _ => s
  end.

(** The second counter of [reflowRunning]: a one-second software timer
    on [millis()], stopped once the COOLING state is reached. *)
Definition secondCounter (now : Z) (s : State) : State :=
  if runningState s <? 5 then
    if 1000 <? u32 (now - time_now s) then
      let s := set_time_now now s in
      set_runningSecondCounter (i16 (runningSecondCounter s + 1)) s
    else s
  else s.

Definition reflowRunning (inp : TickInput) (s : State) : State :=
  let s := readThermistor (acq_run inp) s in
  let s := setMode1 true s in
  let s := setMode2 true s in
  let s := secondCounter (ms_timer inp) s in
  let s := reflowSwitch s in
  let s := pidLoop1 (ms_pid1 inp) s in
  pidLoop2 (ms_pid2 inp) s.

Definition constTempRunning (inp : TickInput) (s : State) : State :=
  let s := readThermistor (acq_run inp) s in
  let s := set_pid_Setpoint (inject_Z (constTempSP s)) s in
  let s := setMode1 true s in
  let s := setMode2 true s in
  let s := set_time_now
             (if 1000 <? u32 (ms_timer inp - time_now s)
              then ms_timer inp else time_now s) s in
  let s := pidLoop1 (ms_pid1 inp) s in
  pidLoop2 (ms_pid2 inp) s.

(* ================================================================== *)
(** ** Setup and loop *)
(* ================================================================== *)

(** The globals as their initialisers and the two [PID] constructors
    leave them, over the given EEPROM contents. *)
Definition power_on (eeprom : Z -> Z) : State :=
  let parametersPID0 := [3.30; 0.02; 3.45; 3.30; 0.02; 3.45]%Q in
  {| steinhart1 := 0; steinhart2 := 0;
     thermistor1Buffer := 0; thermistor2Buffer := 0;
     thermistor1Fail := false; thermistor2Fail := false;
     interruptsEnabled := true;
     menuCounter := 1; protectedMenuCounter := 1; previousMenuCounter := 0;
     selectCounter := 0; encSW := false;
     menuIndex := 0; selectIndexMax := 1;
     running := false; selectFlag := false; startConfirm := false;
     wrkInt := 0; wrkDouble := 0;
     parametersReflow := [115; 100; 145; 155; 185; 180; 35];
     parametersPID := parametersPID0;
     parametersPIDint := [0; 0; 0; 0; 0; 0];
     pid_Setpoint := 0;
     pid1_Input := 0; pid1_Output := 0; pid2_Input := 0; pid2_Output := 0;
     runningBuffer := false; runningState := 0; time_now := 0;
     runningSecondCounter := 0; initTempSnapshot := 25;
     constTempSP := 35; runningMode := false;
     hotPlate1PID :=
       PID.construct 0 (arr_get 0%Q parametersPID0 0)
         (arr_get 0%Q parametersPID0 1) (arr_get 0%Q parametersPID0 2) false;
     hotPlate2PID :=
       PID.construct 0 (arr_get 0%Q parametersPID0 3)
         (arr_get 0%Q parametersPID0 4) (arr_get 0%Q parametersPID0 5) false;
     EEPROM := eeprom;
     pwm1 := 0; pwm2 := 0 |}.

Definition setup (a : Acquisition) (s : State) : State :=
  (* read saved parameter data from EEPROM *)
  let parametersReflowREAD :=
    readUInt8TArrayFromEEPROM 1 [0; 0; 0; 0; 0; 0; 0] 7 (EEPROM s) in
  let s := for_loop 7 0
             (fun i s =>
                set_parametersReflow
                  (arr_set (parametersReflow s) i
                     (arr_get 0 parametersReflowREAD i)) s) s in
  let parametersPIDREAD :=
    readIntArrayFromEEPROM 8 [0; 0; 0; 0; 0; 0] 6 (EEPROM s) in
  let s := for_loop 6 0
             (fun i s =>
                set_parametersPID
                  (arr_set (parametersPID s) i
                     (inject_Z (arr_get 0%Z parametersPIDREAD i) / 100)%Q) s) s in
  (* initialisation of the PID loops *)
  let s := set_hotPlate1PID (PID.SetSampleTime 200 (hotPlate1PID s)) s in
  let s := set_hotPlate2PID (PID.SetSampleTime 200 (hotPlate2PID s)) s in
  let s := set_pid_Setpoint 50%Q s in
  let s := setMode1 false s in
  let s := setMode2 false s in
  readThermistor a s.

(** The body of [if (running == 1 && runningBuffer == 0)]: a run is
    being started. *)
Definition startRun (inp : TickInput) (s : State) : State :=
  let s := set_runningSecondCounter 0 s in
  let s := readThermistor (acq_loop inp) s in
  let s := set_initTempSnapshot ((steinhart1 s + steinhart2 s) / 2)%Q s in
  set_runningState 1 s.

(** The body of [if (!running)]: PID loops forced to manual, outputs
    forced to 0, thermistors read every 10 seconds. *)
Definition notRunning (inp : TickInput) (s : State) : State :=
  let s := set_pid_Setpoint 0%Q s in
  let s := setMode1 false s in
  let s := setMode2 false s in
  let s := set_pid1_Output 0%Q s in
  let s := set_pid2_Output 0%Q s in
  let s := set_pwm1 0 s in
  let s := set_pwm2 0 s in
  let s :=
    if 10000 <? u32 (ms_timer inp - time_now s) then
      let s := set_time_now (ms_timer inp) s in
      readThermistor (acq_loop inp) s
    else s in
  set_initTempSnapshot 0%Q s.

(** Lines 1057-1061: the protected read of [menuCounter]. *)
Definition readMenuCounter (s : State) : State :=
  let s := set_interruptsEnabled false s in           (* noInterrupts() *)
  let s := set_protectedMenuCounter (menuCounter s) s in
  let s := set_interruptsEnabled true s in            (* interrupts() *)
  set_previousMenuCounter (protectedMenuCounter s) s.

Definition loop (inp : TickInput) (s : State) : State :=
  (* poll the encoder push button *)
  let s := set_encSW (button inp) s in
  (* handle rotary encoder rotation *)
  let s := readMenuCounter s in
  (* handle parameter modifications *)
  let s := if selectFlag s then calcParameters s else s in
  (* display handling *)
  let s := updateCursorPosition s in
  let s := updateDisplay s in
  (* initialise the running state when a run is started *)
  let s := if running s && negb (runningBuffer s) then startRun inp s else s in
  (* additional logic when not running *)
  let s := if negb (running s) then notRunning inp s else s in
  (* running state logic *)
  let s :=
    if running s && runningMode s then reflowRunning inp s
    else if running s && negb (runningMode s) then constTempRunning inp s
    else s in
  (* buffer the running flag *)
  set_runningBuffer (running s) s.

(** [loop()] cut in two for the proofs: the operator interface
    (button, encoder, parameter edits, menu, display) and the run logic
    that follows it. *)
Definition uiPhase (inp : TickInput) (s : State) : State :=
  let s := set_encSW (button inp) s in
  let s := readMenuCounter s in
  let s := if selectFlag s then calcParameters s else s in
  let s := updateCursorPosition s in
  updateDisplay s.

(** The state the menu code sees: the button has been polled and a
    pending edit applied. *)
Definition edited (inp : TickInput) (s : State) : State :=
  let s := set_encSW (button inp) s in
  let s := readMenuCounter s in
  if selectFlag s then calcParameters s else s.

Definition runPhase (inp : TickInput) (s : State) : State :=
  let s := if running s && negb (runningBuffer s) then startRun inp s else s in
  let s := if negb (running s) then notRunning inp s else s in
  let s :=
    if running s && runningMode s then reflowRunning inp s
    else if running s && negb (runningMode s) then constTempRunning inp s
    else s in
  set_runningBuffer (running s) s.

(** The state in which [loop()] first runs. *)
Definition boot (eeprom : Z -> Z) (a : Acquisition) : State :=
  setup a (power_on eeprom).

(** What happens to the program, in order: iterations of [loop()] and
    encoder interrupts delivered between them. *)
Inductive Event : Type :=
  | Loop (inp : TickInput)
  | EncCLK (readCLK readDT : bool)
  | EncDT (readCLK readDT : bool).

Definition step (ev : Event) (s : State) : State :=
  match ev with
  | Loop inp => loop inp s
  | EncCLK c d => isrEncCLK c d s
  | EncDT c d => isrEncDT c d s
  end.

Definition exec (evs : list Event) (s : State) : State :=
  fold_left (fun s ev => step ev s) evs s.

(* ================================================================== *)
(** ** Scenarios *)
(* ================================================================== *)

(** An erased EEPROM reads 0xFF at every address. *)
Definition erased : Z -> Z := fun _ => 255.

(** The EEPROM after "Save Configuration" on the factory defaults. *)
Definition saved_defaults : Z -> Z :=
  EEPROM (saveConfiguration (power_on erased)).

(** Both plates at room temperature; the local counters start at 0. *)
Definition room : Acquisition := mkAcq 25 25 0 0.

(** Thermistor 1 disconnected: the divider reads 0 counts and the
    conversion bottoms out at absolute zero. *)
Definition open_circuit1 : Acquisition := mkAcq (-273.15) 25 0 0.

(** One iteration of [loop()] at [millis() = ms] with the button
    pressed or released and one acquisition for all its reads. *)
Definition tick (pressed : bool) (ms : Z) (a : Acquisition) : TickInput :=
  mkTick pressed ms ms ms a a.

Definition press (ms : Z) : Event := Loop (tick true ms room).
Definition release (ms : Z) : Event := Loop (tick false ms room).

(** [n] detents of the encoder, clockwise. *)
Definition turns (n : nat) : list Event := repeat (EncCLK true false) n.

(** Power on with the saved defaults, then "Start Reflow" and YES. *)
Definition start_reflow : list Event :=
  [release 1000; press 1200; release 1400] ++ turns 1 ++ [press 1600].

(** ... one healthy control tick, then thermistor 1 fails. *)
Definition reflow_then_fault : list Event :=
  start_reflow ++ [release 1800; Loop (tick false 2000 open_circuit1)].

(** ... and then reads correctly again; nobody touches the controls. *)
Definition reflow_fault_then_recovery : list Event :=
  reflow_then_fault ++ [release 2200].

(** Power on, Configuration > PID Tuning, select Kp1, turn it up by 100
    steps (+1.00), confirm, leave the menus again, then "Start Const
    Temp" and YES, and one further control tick. *)
Definition edit_Kp1_then_run : list Event :=
  [release 1000] ++ turns 2 ++ [press 1200; release 1400]      (* Configuration *)
  ++ turns 1 ++ [press 1600; release 1800]                     (* PID Tuning *)
  ++ [press 2000; release 2200]                                (* select Kp1 *)
  ++ turns 100 ++ [press 2400; release 2600]                   (* 3.30 -> 4.30, commit *)
  ++ turns 6 ++ [press 2800; release 3000]                     (* Back *)
  ++ turns 3 ++ [press 3200; release 3400]                     (* Back *)
  ++ turns 1 ++ [press 3600; release 3800]                     (* Start Const Temp *)
  ++ turns 1 ++ [press 4000]                                   (* YES *)
  ++ [release 4200].

(** The state with the two PID objects given the tuning constants of
    the Parameter Store ([PID::SetTunings], which the sketch never
    calls). *)
Definition retuned (s : State) : State :=
  let K := arr_get 0%Q (parametersPID s) in
  let s := set_hotPlate1PID
             (PID.SetTunings (K 0) (K 1) (K 2) true (hotPlate1PID s)) s in
  set_hotPlate2PID
    (PID.SetTunings (K 3) (K 4) (K 5) true (hotPlate2PID s)) s.

(** Both plates above every setpoint of the profile. *)
Definition hot : Acquisition := mkAcq 200 200 0 0.

(** A whole reflow run: started as above, then one control tick per
    elapsed timer period, 216 of them, on hot plates. *)
Definition reflow_to_cooling : list Event :=
  start_reflow
  ++ map (fun k => Loop (tick false (1600 + 1001 * Z.of_nat k) hot)) (seq 1 216).

(** Power on with the saved defaults, "Start Reflow", and the cursor
    moved to YES. *)
Definition confirm_reflow : list Event :=
  [release 1000; press 1200; release 1400] ++ turns 1.

(** YES is pressed in the first iteration; from then on the button is
    released and [loop()] iterates every 1001 ms, at room temperature. *)
Definition yes_then_every_second (k : nat) : TickInput :=
  tick (Nat.eqb k 0) (1600 + 1001 * Z.of_nat k) room.

(** A whole reflow run at room temperature, one control tick per
    elapsed timer period, up to the tick in which the hold ends. *)
Definition reflow_enters_cooling : list Event :=
  start_reflow
  ++ map (fun k => Loop (tick false (1600 + 1001 * Z.of_nat k) room)) (seq 1 214).

(** Configuration > Reflow Profile, select T1 (115) and turn it up by
    [n] steps. *)
Definition edit_T1_by (n : nat) : list Event :=
  [release 1000] ++ turns 2 ++ [press 1200; release 1400]      (* Configuration *)
  ++ [press 1600; release 1800]                                (* Reflow Profile *)
  ++ [press 2000; release 2200]                                (* select T1 *)
  ++ turns n.

(** ... by 150 steps; the button is then pressed to commit. *)
Definition edit_T1 : list Event := edit_T1_by 150.

(** The [uint8_t] variable an integer edit is committed to, if any. *)
Definition edit_target (s : State) : option Z :=
  if menuIndex s =? 3 then
    Some (arr_get 0 (parametersReflow s) (menuCounter s - 1))
  else if menuIndex s =? 98 then Some (constTempSP s)
  else None.

(** "Save Configuration", then a power cycle. *)
Definition save_then_load (s : State) (a : Acquisition) : State :=
  boot (EEPROM (saveConfiguration s)) a.

(* ================================================================== *)
(** ** The encoder interrupt against the main program *)
(* ================================================================== *)

(** The statements of [calcParameters] executed for a reflow-profile
    edit with the button pressed (lines 208-214), one function per
    statement.  Line 208 reads [selectCounter]; line 212 clears it. *)
Definition reflow_edit_statements : list (State -> State) :=
  [ (fun s => set_wrkInt
                (u8 (i16 (selectCounter s
                          + arr_get 0 (parametersReflow s) (menuCounter s - 1)))) s);
    (fun s => set_parametersReflow
                (arr_set (parametersReflow s) (menuCounter s - 1) (wrkInt s)) s);
    set_selectCounter 0;
    set_wrkInt 0;
    set_wrkDouble 0%Q ].

(** The statements of the protected read in [loop()] (lines 1058-1061). *)
Definition menu_read_statements : list (State -> State) :=
  [ set_interruptsEnabled false;
    (fun s => set_protectedMenuCounter (menuCounter s) s);
    set_interruptsEnabled true;
    (fun s => set_previousMenuCounter (protectedMenuCounter s) s) ].

Fixpoint run_statements (s : State) (stmts : list (State -> State)) : State :=
  match stmts with
  | [] => s
  | f :: rest => run_statements (f s) rest
  end.

(** The statements run with one encoder edge raised after the first
    [k] of them.  The handler [isr] runs at the first statement boundary
    from there on at which interrupts are enabled: at once if they are,
    after [interrupts()] if the edge falls into a critical section. *)
Fixpoint run_with_edge (isr : State -> State) (s : State)
    (stmts : list (State -> State)) (k : nat) : State :=
  match stmts with
  | [] => if interruptsEnabled s then isr s else s
  | f :: rest =>
      match k with
      | O => if interruptsEnabled s then run_statements (isr s) (f :: rest)
             else run_with_edge isr (f s) rest O
      | S k' => run_with_edge isr (f s) rest k'
      end
  end.

(* ================================================================== *)
(** ** Vocabulary of the properties *)
(* ================================================================== *)

(** The failure test of one channel as [readThermistor] evaluates it:
    on the converted temperature and the entry value of the local
    counter. *)
Definition fault_of (t : Q) (junk : Z) : bool :=
  Qlt_bool t (-20)
  || (3 <=? (if Qtruthy t then assign_post_increment junk else 0)).

(** An acquisition on which neither failure test fires. *)
Definition healthy (a : Acquisition) : Prop :=
  (-20 <= temp1 a)%Q /\ (-20 <= temp2 a)%Q /\ junk1 a < 3 /\ junk2 a < 3.

(** Heaters off: setpoint 0, both PID loops in MANUAL, both PID outputs
    0, both PWM duty cycles 0. *)
Definition heaters_off (s : State) : Prop :=
  (pid_Setpoint s == 0)%Q
  /\ PID.inAuto (hotPlate1PID s) = false
  /\ PID.inAuto (hotPlate2PID s) = false
  /\ (pid1_Output s == 0)%Q
  /\ (pid2_Output s == 0)%Q
  /\ pwm1 s = 0
  /\ pwm2 s = 0.

(** The variables that drive the heaters, apart from the two run
    flags [running] and [runningMode]. *)
Record Control : Type := mkControl {
  c_runningBuffer : bool;
  c_runningState : Z;
  c_runningSecondCounter : Z;
  c_time_now : Z;
  c_initTempSnapshot : Q;
  c_pid_Setpoint : Q;
  c_pid1 : Q * Q * PID.t;
  c_pid2 : Q * Q * PID.t;
  c_pwm : Z * Z;
  c_thermistors : Q * Q * bool * bool
}.

Definition control (s : State) : Control :=
  mkControl (runningBuffer s) (runningState s)
    (runningSecondCounter s) (time_now s) (initTempSnapshot s)
    (pid_Setpoint s)
    (pid1_Input s, pid1_Output s, hotPlate1PID s)
    (pid2_Input s, pid2_Output s, hotPlate2PID s)
    (pwm1 s, pwm2 s)
    (steinhart1 s, steinhart2 s, thermistor1Fail s, thermistor2Fail s).

(** What parameter editing leaves alone. *)
Definition edit_frame (s : State) : Control * (bool * bool * Z * bool) :=
  (control s, (running s, runningMode s, menuIndex s, encSW s)).

(** The failure flags and the run flag. *)
Definition sensed (s : State) : bool * bool * bool :=
  (thermistor1Fail s, thermistor2Fail s, running s).

(** The reflow profile of the default solder paste:
    T1, t1, T2, t2, T3, t3, reflow duration. *)
Definition profile_sn42 : list Z := [115; 100; 145; 155; 185; 180; 35].

(** The default profile, just started from a snapshot of 25 degrees:
    what the run initialisation in [loop()] leaves. *)
Definition run_started (s : State) : Prop :=
  parametersReflow s = profile_sn42
  /\ runningState s = 1
  /\ runningSecondCounter s = 0
  /\ (initTempSnapshot s == 25)%Q.

(** The setpoint as a function of the second counter. *)
Definition setpoint_by_counter (s : State) : Prop :=
  let t := runningSecondCounter s in
  let sp := pid_Setpoint s in
  (t = 0 -> (sp == 25)%Q)
  /\ (t = 100 -> (sp == 115)%Q)
  /\ (t = 155 -> (sp == 145)%Q)
  /\ (t = 180 -> (sp == 185)%Q)
  /\ (180 <= t < 215 -> (sp == 185)%Q).

(** Successive iterations of [loop()]. *)
Fixpoint loops (s : State) (inps : list TickInput) : State :=
  match inps with
  | [] => s
  | inp :: rest => loops (loop inp s) rest
  end.

(** The confirm dialog of "Start Reflow" with the cursor on YES, no run
    active and the default profile in memory. *)
Definition confirming_reflow (s : State) : Prop :=
  menuIndex s = 1 /\ menuCounter s = 2 /\ startConfirm s = true
  /\ runningMode s = true
  /\ running s = false /\ runningBuffer s = false
  /\ parametersReflow s = profile_sn42.

(** The operator presses YES in the first iteration, with the plates at
    a mean of 25 degrees, and leaves the button alone from then on. *)
Definition confirmed_at_25 (sched : nat -> TickInput) : Prop :=
  button (sched O) = true
  /\ ((temp1 (acq_loop (sched O)) + temp2 (acq_loop (sched O))) / 2 == 25)%Q
  /\ forall k, button (sched (S k)) = false.

(** One iteration of [loop()] per elapsed period of the one-second
    timer, from the second iteration on: each of them comes more than
    1000 ms after the iteration before it and after the timer was last
    restarted before the run.  Nothing is assumed of the first
    iteration, which may or may not find the timer elapsed. *)
Definition one_tick_per_second (s0 : State) (sched : nat -> TickInput) : Prop :=
  1000 < u32 (ms_timer (sched 1%nat) - time_now s0)
  /\ forall k, 1000 < u32 (ms_timer (sched (S k)) - ms_timer (sched k)).

(** The state after iteration [t] of [loop()], counted from the
    iteration 0 in which the run is confirmed. *)
Definition state_at (s0 : State) (sched : nat -> TickInput) (t : nat) : State :=
  loops s0 (map sched (seq 0 (S t))).

(** A reflow run that has been active for at least one iteration, on
    its run screen. *)
Definition active_reflow (s : State) : Prop :=
  running s = true /\ runningBuffer s = true /\ runningMode s = true
  /\ menuIndex s = 99.

(** Where the state machine stands for each value of the counter. *)
Definition stage_ok (s : State) : Prop :=
  let c := runningSecondCounter s in
  match runningState s with
  | 1 => 0 <= c <= 99
  | 2 => 100 <= c <= 154
  | 3 => 155 <= c <= 179
  | 4 => 180 <= c <= 214
  | 5 => c = 215
  | _ => False
  end.

(** The variables of the reflow state machine. *)
Definition prof (s : State) : list Z * Q * Z * Z * Z * Q :=
  (parametersReflow s, initTempSnapshot s, runningState s,
   runningSecondCounter s, time_now s, pid_Setpoint s).

(** Whether a control tick finds the one-second timer elapsed. *)
Definition fired (inp : TickInput) (s : State) : bool :=
  1000 <? u32 (ms_timer inp - time_now s).

(** The second counter after a tick that finds the timer running. *)
Definition counted (inp : TickInput) (s : State) : Z :=
  if fired inp s then i16 (runningSecondCounter s + 1)
  else runningSecondCounter s.

Definition restarted (inp : TickInput) (s : State) : Z :=
  if fired inp s then ms_timer inp else time_now s.

(** The invariant of a run of the default profile. *)
Definition run_inv (s : State) : Prop :=
  parametersReflow s = profile_sn42
  /\ (initTempSnapshot s == 25)%Q
  /\ stage_ok s.

(** A run of the default profile as [loop()] starts it, both plates at
    25 degrees. *)
Definition started : State := startRun (tick false 0 room) (power_on erased).

(* ================================================================== *)
(** ** Vocabulary of the further properties *)
(* ================================================================== *)

(** Values of the C types of the two kinds of array kept in EEPROM. *)
Definition is_uint8 (z : Z) : Prop := 0 <= z < 256.
Definition is_int16 (z : Z) : Prop := -32768 <= z < 32768.

(** The EEPROM of the ATmega328P holds 1024 bytes.  [bytes] cells from
    [address] on exist. *)
Definition EEPROM_size : Z := 1024.
Definition in_EEPROM (address bytes : Z) : Prop :=
  0 <= address /\ address + bytes <= EEPROM_size.

(** The cursor stands on an item of the menu being shown. *)
Definition on_menu (s : State) : Prop :=
  1 <= menuCounter s <= selectIndexMax s.

(** The navigation state of the menus: the screen, the cursor, the edit
    mode, and the run flags that the confirm dialog sets. *)
Definition nav (s : State) : Z * Z * bool * bool * bool * bool :=
  (menuIndex s, menuCounter s, selectFlag s, startConfirm s, running s,
   runningMode s).

(** The navigation state and the number of items of the screen. *)
Definition cursor (s : State) : Z * Z * bool * bool * bool * bool * Z :=
  (nav s, selectIndexMax s).

(** The parameters in memory and the pending edit. *)
Definition params (s : State) : list Z * list Q * Z * Z :=
  (parametersReflow s, parametersPID s, constTempSP s, selectCounter s).

(** The parameters in memory and in EEPROM. *)
Definition store (s : State) : list Z * list Q * Z * (Z -> Z) :=
  (parametersReflow s, parametersPID s, constTempSP s, EEPROM s).

(** What the run logic leaves alone: the operator's side of the
    program. *)
Definition operator_vars (s : State) :=
  (nav s, selectIndexMax s, store s, selectCounter s).

(** What drawing the display leaves alone. *)
Definition shown (s : State) := (nav s, store s, selectCounter s).

(** What a parameter edit leaves alone on the operator's side. *)
Definition screen_vars (s : State) := (cursor s, EEPROM s).

(** What an edit leaves alone while the button is released. *)
Definition staged (s : State) := (params s, EEPROM s).

(** [updateCursorPosition] as a function of the navigation state: the
    screen, the cursor, the edit mode and the run flags after the call,
    from their values before it and the button. *)
Definition nav_step (pressed : bool) (n : Z * Z * bool * bool * bool * bool)
    : Z * Z * bool * bool * bool * bool :=
  let '(index, counter, sel, confirm, run, mode) := n in
  let screen := if mode then 99 else 98 in
  match index with
  | 0 =>
      if pressed then
        if counter =? 1 then (1, 1, sel, true, run, true)
        else if counter =? 2 then (1, 1, sel, true, run, false)
        else if counter =? 3 then (2, 1, sel, confirm, run, mode)
        else (0, 1, sel, confirm, run, mode)
      else n
  | 1 =>
      if pressed then
        if counter =? 1 then
          if confirm then (0, 1, sel, false, false, mode)
          else (screen, 1, sel, confirm, true, mode)
        else if counter =? 2 then
          if confirm then (screen, 1, sel, false, true, mode)
          else (0, 1, sel, confirm, false, mode)
        else n
      else n
  | 2 =>
      if pressed then
        if counter =? 4 then (0, 1, sel, confirm, run, mode)
        else (u8 (counter + 2), 1, sel, confirm, run, mode)
      else n
  | 3 =>
      if pressed then
        if counter =? 8 then (2, 1, sel, confirm, run, mode)
        else (index, counter, negb sel, confirm, run, mode)
      else n
  | 4 =>
      if pressed then
        if counter =? 7 then (2, 1, sel, confirm, run, mode)
        else (index, counter, negb sel, confirm, run, mode)
      else n
  | 5 => (2, 1, sel, confirm, run, mode)
  | 98 =>
      if pressed then
        if counter =? 2 then (1, 1, sel, false, run, mode)
        else (index, counter, negb sel, confirm, run, mode)
      else n
  | 99 =>
      if pressed then (1, 1, sel, false, run, mode) else n
  | _ => n
  end.

(** A screen number that no [case] of [updateCursorPosition] matches. *)
Definition no_screen (i : Z) : Prop :=
  forall (A : Type) (a0 a1 a2 a3 a4 a5 a98 a99 d : A),
    match i with
    | 0 => a0 | 1 => a1 | 2 => a2 | 3 => a3 | 4 => a4 | 5 => a5
    | 98 => a98 | 99 => a99 | _ => d
    end = d.

(** One heater channel within its limits: the PID object with the
    output limits 0 and 255 of its constructor, the PID output within
    them, and the duty cycle written to the pin an 8-bit value. *)
Definition plate_ok (p : PID.t) (out : Q) (pwm : Z) : Prop :=
  PID.outMin p = 0%Q /\ PID.outMax p = 255%Q
  /\ (0 <= out)%Q /\ (out <= 255)%Q
  /\ 0 <= pwm <= 255.

Definition drive_inv (s : State) : Prop :=
  plate_ok (hotPlate1PID s) (pid1_Output s) (pwm1 s)
  /\ plate_ok (hotPlate2PID s) (pid2_Output s) (pwm2 s).

(** No iteration of [loop()] among the events finds the button
    pressed. *)
Definition released (ev : Event) : bool :=
  match ev with
  | Loop inp => negb (button inp)
  | _ => true
  end.

(** PID Tuning > Kp1 selected and turned down by [n] steps. *)
Definition edit_Kp1_down (n : nat) : list Event :=
  [release 1000] ++ turns 2 ++ [press 1200; release 1400]  (* Configuration *)
  ++ turns 1 ++ [press 1600; release 1800]                 (* PID Tuning *)
  ++ [press 2000; release 2200]                            (* select Kp1 *)
  ++ repeat (EncCLK true true) n.

(** The ramp that a heating state of the reflow state machine follows:
    its start (seconds, degrees) and its end, read from the profile and
    the temperature snapshot of the start of the run.  The hold state
    REFLOW and COOLING follow no ramp. *)
Definition segment (s : State) : option (Z * Q * Z * Q) :=
  let p := arr_get 0 (parametersReflow s) in
  match runningState s with
  | 1 => Some (0, initTempSnapshot s, p 1, P s 0)
  | 2 => Some (p 1, P s 0, p 3, P s 2)
  | 3 => Some (p 3, P s 2, p 5, P s 4)
  | _ => None
  end.

(** No ramp of the profile in memory has the duration zero: t1,
    t2 - t1 and t3 - t2 are the divisors of the three ramps of
    [reflowRunning]. *)
Definition ramps_timed (s : State) : bool :=
  let p := arr_get 0 (parametersReflow s) in
  negb (p 1 =? 0) && negb (p 3 =? p 1) && negb (p 5 =? p 3).

(** A test that holds in every state of an execution. *)
Fixpoint always (ok : State -> bool) (s : State) (evs : list Event) : bool :=
  match evs with
  | [] => ok s
  | ev :: rest => ok s && always ok (step ev s) rest
  end.

(** The variables of the reflow state machine that only the state
    machine itself and the run initialisation write. *)
Definition machine (s : State) : list Z * Q * Z :=
  (parametersReflow s, initTempSnapshot s, runningState s).

(** The screen numbers that [updateCursorPosition] and [updateDisplay]
    know. *)
Definition is_screen (i : Z) : bool :=
  existsb (Z.eqb i) [0; 1; 2; 3; 4; 5; 98; 99].

(** Thermistor 1 fails while the reflow-profile screen is shown with
    the cursor on "Back"; the operator goes back to the configuration
    menu, turns the encoder four steps and presses. *)
Definition back_under_fault : list Event :=
  [release 1000] ++ turns 2 ++ [press 1200; release 1400] (* Configuration *)
  ++ [press 1600; release 1800]                           (* Reflow Profile *)
  ++ turns 7                                              (* cursor on Back *)
  ++ [Loop (tick false 12000 open_circuit1)]              (* failure flagged *)
  ++ [Loop (tick true 12200 open_circuit1);               (* Back *)
      Loop (tick false 12400 open_circuit1)]
  ++ turns 4                                              (* cursor on 5 *)
  ++ [Loop (tick true 12600 open_circuit1)].

(** The plates read 30 and 50 degrees when the run is confirmed. *)
Definition uneven : Acquisition := mkAcq 30 50 0 0.

(* ================================================================== *)
(** * Properties *)
(* ================================================================== *)

(** ** Machine arithmetic and arrays *)

Lemma u8_i16 (z : Z) : u8 (i16 z) = z mod 256.
Proof.
  unfold u8, i16.
  rewrite (Z.mod_eq (z + 32768) 65536) by lia.
  replace (z + 32768 - 65536 * ((z + 32768) / 65536) - 32768)
    with (z + (- 256 * ((z + 32768) / 65536)) * 256) by lia.
  apply Z_mod_plus_full.
Qed.

Lemma i16_id (z : Z) : -32768 <= z < 32768 -> i16 z = z.
Proof. intros H. unfold i16. rewrite Z.mod_small; lia. Qed.

Lemma u8_id (z : Z) : 0 <= z < 256 -> u8 z = z.
Proof. intros H. unfold u8. apply Z.mod_small; lia. Qed.

Lemma list_set_length {A} (l : list A) (n : nat) (v : A) :
  length (list_set l n v) = length l.
Proof.
  revert n. induction l as [|h t IH]; intros [|n]; simpl; auto.
Qed.

Lemma nth_list_set_eq {A} (l : list A) (n : nat) (v d : A) :
  (n < length l)%nat -> nth n (list_set l n v) d = v.
Proof.
  revert n. induction l as [|h t IH]; intros [|n] H; simpl in *;
    try lia; auto. apply IH. lia.
Qed.

Lemma arr_set_length {A} (l : list A) (i : Z) (v : A) :
  length (arr_set l i v) = length l.
Proof.
  unfold arr_set. destruct (_ && _); auto using list_set_length.
Qed.

Lemma arr_get_set_eq {A} (d : A) (l : list A) (i : Z) (v : A) :
  0 <= i < Z.of_nat (length l) -> arr_get d (arr_set l i v) i = v.
Proof.
  intros H. unfold arr_get. rewrite arr_set_length. unfold arr_set.
  replace ((0 <=? i) && (i <? Z.of_nat (length l))) with true
    by (symmetry; apply andb_true_iff; split; [apply Z.leb_le | apply Z.ltb_lt]; lia).
  apply nth_list_set_eq. lia.
Qed.

(** ** Reading fields through assignments *)

Ltac st :=
  cbv beta iota zeta delta
    [set_steinhart1 set_steinhart2 set_thermistor1Buffer
     set_thermistor2Buffer set_thermistor1Fail set_thermistor2Fail
     set_interruptsEnabled set_menuCounter set_protectedMenuCounter
     set_previousMenuCounter set_selectCounter set_encSW set_menuIndex
     set_selectIndexMax set_running set_selectFlag set_startConfirm
     set_wrkInt set_wrkDouble set_parametersReflow set_parametersPID
     set_parametersPIDint set_pid_Setpoint set_pid1_Input set_pid1_Output
     set_pid2_Input set_pid2_Output set_runningBuffer set_runningState
     set_time_now set_runningSecondCounter set_initTempSnapshot
     set_constTempSP set_runningMode set_hotPlate1PID set_hotPlate2PID
     set_EEPROM set_pwm1 set_pwm2
     steinhart1 steinhart2 thermistor1Buffer thermistor2Buffer
     thermistor1Fail thermistor2Fail interruptsEnabled menuCounter
     protectedMenuCounter previousMenuCounter selectCounter encSW
     menuIndex selectIndexMax running selectFlag startConfirm wrkInt
     wrkDouble parametersReflow parametersPID parametersPIDint
     pid_Setpoint pid1_Input pid1_Output pid2_Input pid2_Output
     runningBuffer runningState time_now runningSecondCounter
     initTempSnapshot constTempSP runningMode hotPlate1PID hotPlate2PID
     EEPROM pwm1 pwm2
     commit_clear toggle_selectFlag setMode1 setMode2 fst snd] in *;
  cbn [Z.eqb Pos.eqb Z.ltb Z.leb Z.compare Pos.compare Pos.compare_cont
       negb andb orb] in *.

Ltac break_cond :=
  match goal with
  | |- context [if ?c then _ else _] => destruct c
  | |- context [match ?x with _ => _ end] => destruct x
  end.

(** ** Frame lemmas: what the menu code leaves alone *)

Ltac block_frame :=
  let s := fresh "s" in
  intros s; destruct s; st; repeat (break_cond; st); reflexivity.

Lemma calcReflowProfile_frame :
  forall s, edit_frame (calcReflowProfile s) = edit_frame s.
Proof. unfold calcReflowProfile. block_frame. Qed.

Lemma calcTuning_frame :
  forall s, edit_frame (calcTuning s) = edit_frame s.
Proof. unfold calcTuning. block_frame. Qed.

Lemma calcConstTemp_frame :
  forall s, edit_frame (calcConstTemp s) = edit_frame s.
Proof. unfold calcConstTemp. block_frame. Qed.

Lemma calcParameters_frame (s : State) :
  edit_frame (calcParameters s) = edit_frame s.
Proof.
  unfold calcParameters. cbv zeta.
  repeat break_cond;
    rewrite ?calcConstTemp_frame, ?calcTuning_frame, ?calcReflowProfile_frame;
    reflexivity.
Qed.

Lemma saveConfiguration_control :
  forall s, control (saveConfiguration s) = control s.
Proof. unfold saveConfiguration. cbn [for_loop]. block_frame. Qed.

Lemma updateDisplay_frame (s : State) :
  control (updateDisplay s) = control s
  /\ running (updateDisplay s) = running s
  /\ runningMode (updateDisplay s) = runningMode s.
Proof.
  revert s. unfold updateDisplay.
  repeat split; revert s; block_frame.
Qed.

Lemma confirmNo_control : forall s, control (confirmNo s) = control s.
Proof. unfold confirmNo. block_frame. Qed.

Lemma confirmYes_control : forall s, control (confirmYes s) = control s.
Proof. unfold confirmYes. block_frame. Qed.

Lemma updateCursorPosition_control (s : State) :
  control (updateCursorPosition s) = control s.
Proof.
  unfold updateCursorPosition. cbv zeta.
  repeat break_cond;
    rewrite ?confirmYes_control, ?confirmNo_control, ?saveConfiguration_control;
    try reflexivity.
Qed.

Lemma updateCursorPosition_released :
  forall s, encSW s = false -> running (updateCursorPosition s) = running s.
Proof.
  intros s H. unfold updateCursorPosition. cbv zeta. rewrite H.
  repeat break_cond; reflexivity.
Qed.

Lemma confirmNo_runningMode : forall s, runningMode (confirmNo s) = runningMode s.
Proof. unfold confirmNo. block_frame. Qed.

Lemma confirmYes_runningMode : forall s, runningMode (confirmYes s) = runningMode s.
Proof. unfold confirmYes. block_frame. Qed.

Lemma updateCursorPosition_runningMode (s : State) :
  menuIndex s <> 0 -> runningMode (updateCursorPosition s) = runningMode s.
Proof.
  intros H. unfold updateCursorPosition. cbv zeta.
  destruct (menuIndex s); [congruence | | reflexivity].
  repeat break_cond;
    rewrite ?confirmYes_runningMode, ?confirmNo_runningMode;
    reflexivity.
Qed.

Lemma loop_phases (inp : TickInput) (s : State) :
  loop inp s = runPhase inp (uiPhase inp s).
Proof. unfold loop, runPhase, uiPhase. cbv zeta. reflexivity. Qed.

Lemma readMenuCounter_frame :
  forall s, edit_frame (readMenuCounter s) = edit_frame s.
Proof. unfold readMenuCounter. block_frame. Qed.

Lemma edited_frame (inp : TickInput) (s : State) :
  control (edited inp s) = control s
  /\ running (edited inp s) = running s
  /\ runningMode (edited inp s) = runningMode s
  /\ menuIndex (edited inp s) = menuIndex s
  /\ encSW (edited inp s) = button inp.
Proof.
  assert (H : edit_frame (edited inp s)
              = edit_frame (set_encSW (button inp) s)).
  { unfold edited. cbv zeta.
    break_cond; rewrite ?calcParameters_frame; apply readMenuCounter_frame. }
  unfold edit_frame in H. injection H. intros.
  unfold control. repeat split; congruence.
Qed.

Lemma uiPhase_edited (inp : TickInput) (s : State) :
  uiPhase inp s = updateDisplay (updateCursorPosition (edited inp s)).
Proof. reflexivity. Qed.

Lemma uiPhase_control (inp : TickInput) (s : State) :
  control (uiPhase inp s) = control s.
Proof.
  rewrite uiPhase_edited.
  destruct (updateDisplay_frame (updateCursorPosition (edited inp s)))
    as (-> & _).
  rewrite updateCursorPosition_control. apply edited_frame.
Qed.

Lemma uiPhase_runningMode (inp : TickInput) (s : State) :
  menuIndex s <> 0 -> runningMode (uiPhase inp s) = runningMode s.
Proof.
  intros H. rewrite uiPhase_edited.
  destruct (edited_frame inp s) as (_ & _ & Hm & Hi & _).
  destruct (updateDisplay_frame (updateCursorPosition (edited inp s)))
    as (_ & _ & ->).
  rewrite updateCursorPosition_runningMode by (rewrite Hi; exact H).
  exact Hm.
Qed.

Lemma uiPhase_released (inp : TickInput) (s : State) :
  button inp = false -> running (uiPhase inp s) = running s.
Proof.
  intros H. rewrite uiPhase_edited.
  destruct (edited_frame inp s) as (_ & Hr & _ & _ & Hb).
  destruct (updateDisplay_frame (updateCursorPosition (edited inp s)))
    as (_ & -> & _).
  rewrite updateCursorPosition_released by (rewrite Hb; exact H).
  exact Hr.
Qed.

(** ** The running state logic *)

Lemma sensed_eq (s : State) (a b c : bool) :
  sensed s = (a, b, c) ->
  thermistor1Fail s = a /\ thermistor2Fail s = b /\ running s = c.
Proof. unfold sensed. intros H. injection H. auto. Qed.

Lemma readThermistor_flags (a : Acquisition) (s : State) :
  thermistor1Fail (readThermistor a s) = fault_of (temp1 a) (junk1 a)
  /\ thermistor2Fail (readThermistor a s) = fault_of (temp2 a) (junk2 a).
Proof. split; reflexivity. Qed.

Lemma Qlt_bool_false (x y : Q) : (y <= x)%Q -> Qlt_bool x y = false.
Proof.
  intros H. unfold Qlt_bool. apply Qle_bool_iff in H. rewrite H. reflexivity.
Qed.

Lemma healthy_no_fault (a : Acquisition) :
  healthy a ->
  fault_of (temp1 a) (junk1 a) = false /\ fault_of (temp2 a) (junk2 a) = false.
Proof.
  intros (H1 & H2 & H3 & H4). unfold fault_of, assign_post_increment.
  rewrite !Qlt_bool_false by assumption. cbn [orb].
  split; break_cond; apply Z.leb_gt; lia.
Qed.

Lemma pidLoop1_sensed : forall now s, sensed (pidLoop1 now s) = sensed s.
Proof. reflexivity. Qed.

Lemma pidLoop2_sensed : forall now s, sensed (pidLoop2 now s) = sensed s.
Proof. reflexivity. Qed.

Lemma secondCounter_sensed : forall now s, sensed (secondCounter now s) = sensed s.
Proof. intros now. unfold secondCounter. block_frame. Qed.

Lemma reflowSwitch_sensed : forall s, sensed (reflowSwitch s) = sensed s.
Proof. unfold reflowSwitch. block_frame. Qed.

Lemma reflowRunning_sensed (inp : TickInput) (s : State) :
  sensed (reflowRunning inp s)
  = (fault_of (temp1 (acq_run inp)) (junk1 (acq_run inp)),
     fault_of (temp2 (acq_run inp)) (junk2 (acq_run inp)),
     running s).
Proof.
  unfold reflowRunning. cbv zeta.
  rewrite pidLoop2_sensed, pidLoop1_sensed, reflowSwitch_sensed,
    secondCounter_sensed.
  reflexivity.
Qed.

Lemma constTempRunning_sensed (inp : TickInput) (s : State) :
  sensed (constTempRunning inp s)
  = (fault_of (temp1 (acq_run inp)) (junk1 (acq_run inp)),
     fault_of (temp2 (acq_run inp)) (junk2 (acq_run inp)),
     running s).
Proof.
  unfold constTempRunning. cbv zeta.
  rewrite pidLoop2_sensed, pidLoop1_sensed.
  reflexivity.
Qed.

Lemma runPhase_sensed (inp : TickInput) (s : State) :
  running s = true ->
  sensed (runPhase inp s)
  = (fault_of (temp1 (acq_run inp)) (junk1 (acq_run inp)),
     fault_of (temp2 (acq_run inp)) (junk2 (acq_run inp)),
     true).
Proof.
  intros H. unfold runPhase.
  set (s1 := if running s && negb (runningBuffer s) then startRun inp s else s).
  assert (H1 : running s1 = true).
  { subst s1. break_cond; exact H. }
  cbv zeta. rewrite H1. cbn [negb]. cbv iota. rewrite H1. cbn [andb].
  destruct (runningMode s1); cbn [negb]; cbv iota.
  - change (sensed (reflowRunning inp s1) = 
      (fault_of (temp1 (acq_run inp)) (junk1 (acq_run inp)),
       fault_of (temp2 (acq_run inp)) (junk2 (acq_run inp)), true)).
    rewrite reflowRunning_sensed, H1. reflexivity.
  - change (sensed (constTempRunning inp s1) = 
      (fault_of (temp1 (acq_run inp)) (junk1 (acq_run inp)),
       fault_of (temp2 (acq_run inp)) (junk2 (acq_run inp)), true)).
    rewrite constTempRunning_sensed, H1. reflexivity.
Qed.

(** C3 (as amended). A raised failure flag is not latched.  On every
    control tick of an active run [readThermistor] recomputes both flags
    from that tick's acquisition alone: with no operator action, a tick
    whose readings are not below -20 degrees and whose match counters
    are below 3 leaves both flags cleared, whatever they were. *)
Theorem loop_fault_flags_not_latched (inp : TickInput) (s : State) :
  running s = true ->
  button inp = false ->
  healthy (acq_run inp) ->
  thermistor1Fail (loop inp s) = false
  /\ thermistor2Fail (loop inp s) = false.
Proof.
  intros Hrun Hb Hh. rewrite loop_phases.
  assert (H : running (uiPhase inp s) = true)
    by (rewrite uiPhase_released; assumption).
  pose proof (runPhase_sensed inp _ H) as Hs.
  destruct (healthy_no_fault Hh) as (E1 & E2). rewrite E1, E2 in Hs.
  destruct (sensed_eq Hs) as (F1 & F2 & _). split; assumption.
Qed.

(** ** COOLING *)

Lemma Compute_manual (now : Z) (input setpoint output : Q) (p : PID.t) :
  PID.inAuto p = false ->
  PID.Compute now input setpoint output p = (p, output).
Proof. intros H. unfold PID.Compute. rewrite H. reflexivity. Qed.

Lemma double_to_int_zero (q : Q) : (q == 0)%Q -> double_to_int q = 0.
Proof.
  destruct q as [n d]. unfold Qeq, double_to_int, Qtrunc. cbn.
  intros H. replace n with 0 by lia. reflexivity.
Qed.

Lemma pidLoops_manual (now1 now2 : Z) (s : State) :
  PID.inAuto (hotPlate1PID s) = false ->
  PID.inAuto (hotPlate2PID s) = false ->
  (pid_Setpoint s == 0)%Q ->
  (pid1_Output s == 0)%Q ->
  (pid2_Output s == 0)%Q ->
  heaters_off (pidLoop2 now2 (pidLoop1 now1 s)).
Proof.
  destruct s. st. intros H1 H2 Hsp Ho1 Ho2.
  unfold heaters_off, pidLoop1, pidLoop2. st.
  rewrite !Compute_manual by assumption. st.
  repeat split; try assumption; apply double_to_int_zero; assumption.
Qed.

Lemma secondCounter_cooling (now : Z) (s : State) :
  runningState s = 5 -> secondCounter now s = s.
Proof. intros H. unfold secondCounter. rewrite H. reflexivity. Qed.

Lemma reflowRunning_cooling (inp : TickInput) (s : State) :
  runningState s = 5 -> heaters_off (reflowRunning inp s).
Proof.
  intros H. unfold reflowRunning. cbv zeta.
  rewrite secondCounter_cooling by exact H.
  apply pidLoops_manual;
    unfold reflowSwitch; cbv zeta;
    change (runningState (setMode2 true (setMode1 true
              (readThermistor (acq_run inp) s)))) with (runningState s);
    rewrite H; reflexivity.
Qed.

Lemma notRunning_off (inp : TickInput) (s : State) :
  heaters_off (notRunning inp s)
  /\ running (notRunning inp s) = running s.
Proof.
  unfold notRunning, heaters_off. cbv zeta.
  break_cond; repeat split; reflexivity.
Qed.

Lemma heaters_off_set_runningBuffer (b : bool) (s : State) :
  heaters_off s -> heaters_off (set_runningBuffer b s).
Proof. intros H. exact H. Qed.

Lemma runPhase_cooling (inp : TickInput) (s : State) :
  runningBuffer s = true ->
  runningState s = 5 ->
  runningMode s = true ->
  heaters_off (runPhase inp s).
Proof.
  intros Hb Hs Hm. unfold runPhase. cbv zeta.
  rewrite Hb. rewrite andb_false_r. cbv iota.
  apply heaters_off_set_runningBuffer.
  destruct (running s) eqn:Hr; cbn [negb]; cbv iota.
  - rewrite Hr, Hm. cbn [andb]. cbv iota.
    apply reflowRunning_cooling. exact Hs.
  - destruct (notRunning_off inp s) as (Hoff & Hrun).
    rewrite Hrun, Hr. cbn [andb]. cbv iota. exact Hoff.
Qed.

(** C5 (as amended). Every control tick that starts in the COOLING
    state ends with the heaters off: setpoint 0, both PID loops in
    MANUAL, both PID outputs 0 and both PWM duty cycles written as 0,
    for all input temperatures, clock readings and operator actions.
    The tick in which COOLING is entered is the last tick of the hold
    and is not covered.  The hypotheses say that the tick starts in the
    COOLING state of a reflow run: [runningState] is 5, the run was
    already active on the previous tick, reflow mode is selected and
    the main menu (from which the mode is chosen) is not the screen
    shown. *)
Theorem loop_cooling_heaters_off (inp : TickInput) (s : State) :
  runningState s = 5 ->
  runningBuffer s = true ->
  runningMode s = true ->
  menuIndex s <> 0 ->
  heaters_off (loop inp s).
Proof.
  intros Hs Hb Hm Hi. rewrite loop_phases.
  pose proof (uiPhase_control inp s) as Hc.
  apply runPhase_cooling.
  - apply (f_equal c_runningBuffer) in Hc. exact (eq_trans Hc Hb).
  - apply (f_equal c_runningState) in Hc. exact (eq_trans Hc Hs).
  - rewrite uiPhase_runningMode; assumption.
Qed.

(** ** Parameter edits *)

(** C10. A committed edit of a reflow-profile field, or of the
    constant-temperature setpoint, stores (old value + selectCounter)
    modulo 256: the working value [wrkInt] is a [uint8_t], so an edit
    past 255 or below 0 wraps around instead of saturating or being
    rejected. *)
Theorem calcParameters_commit_wraps (s : State) (old : Z) :
  encSW s = true ->
  1 <= menuCounter s <= Z.of_nat (length (parametersReflow s)) ->
  edit_target s = Some old ->
  edit_target (calcParameters s) = Some ((old + selectCounter s) mod 256).
Proof.
  destruct s. unfold edit_target. st. intros -> Hc.
  destruct (menuIndex0 =? 3) eqn:E3; [|destruct (menuIndex0 =? 98) eqn:E98];
    intros H; inversion H; subst old; clear H.
  - apply Z.eqb_eq in E3. subst menuIndex0.
    unfold calcParameters. st. unfold calcReflowProfile. st.
    rewrite arr_get_set_eq by lia. rewrite u8_i16. do 2 f_equal. lia.
  - apply Z.eqb_eq in E98. subst menuIndex0.
    unfold calcParameters. st. unfold calcConstTemp. st.
    rewrite u8_i16. do 2 f_equal. lia.
Qed.

(** The edit of T1 by 150 steps: 115 + 150 is committed as 9. *)
Lemma calcParameters_commit_wraps_witness :
  edit_target (set_encSW true (exec edit_T1 (boot saved_defaults room)))
  = Some 115
  /\ edit_target
       (calcParameters (set_encSW true (exec edit_T1 (boot saved_defaults room))))
     = Some ((115 + 150) mod 256).
Proof.
  split; [vm_compute; reflexivity|].
  apply (@calcParameters_commit_wraps
           (set_encSW true (exec edit_T1 (boot saved_defaults room))) 115).
  - vm_compute; reflexivity.
  - vm_compute. split; discriminate.
  - vm_compute; reflexivity.
Defined.

(** ** Sensor failure during a run *)

(** C1 (the code at the failing input). A reflow run is started; on its
    third control tick thermistor 1 reads open circuit.  The tick raises
    the failure flag and, in the same tick, drives plate 1 at full duty:
    the run stays active, PID loop 1 stays in AUTOMATIC and 255 is
    written to the PWM output. *)
Theorem fault_does_not_cut_outputs :
  let before := exec (removelast reflow_then_fault) (boot saved_defaults room) in
  let after := exec reflow_then_fault (boot saved_defaults room) in
  running before = true /\ thermistor1Fail before = false
  /\ thermistor1Fail after = true
  /\ running after = true
  /\ PID.inAuto (hotPlate1PID after) = true
  /\ pwm1 after = 255.
Proof. vm_compute. repeat split. Qed.

(** C2 (the code at the failing input). After power-on both channels
    read 25 degrees four times in a row, each reading identical to the
    one before it, and neither flag is raised; a fifth reading of 26
    degrees on channel 1, different from its predecessor and far above
    -20, raises flag 1 because the uninitialised local counter happened
    to hold 3. *)
Theorem stuck_reading_not_flagged :
  let s3 := readThermistor room
              (readThermistor room
                 (readThermistor room (boot erased room))) in
  thermistor1Fail s3 = false
  /\ thermistor2Fail s3 = false
  /\ thermistor1Fail (readThermistor (mkAcq 26 25 3 0) s3) = true.
Proof. vm_compute. repeat split. Qed.

(** C3 (counterexample). The failure flag raised in the scenario of C1
    is cleared by the next control tick, on which the sensor reads
    correctly again and the operator does nothing: the run is still
    active and PID loop 1 is in AUTOMATIC. *)
Lemma fault_flag_clears_itself :
  let faulted := exec reflow_then_fault (boot saved_defaults room) in
  let next := exec reflow_fault_then_recovery (boot saved_defaults room) in
  running faulted = true /\ thermistor1Fail faulted = true
  /\ thermistor1Fail next = false
  /\ running next = true
  /\ PID.inAuto (hotPlate1PID next) = true.
Proof. vm_compute. repeat split. Qed.

Lemma healthy_room : healthy room.
Proof. unfold healthy, room, Qle. cbn. lia. Qed.

(** The tick after the failure of thermistor 1 in the run above. *)
Lemma loop_fault_flags_not_latched_witness :
  thermistor1Fail
    (loop (tick false 2200 room)
       (exec reflow_then_fault (boot saved_defaults room))) = false
  /\ thermistor2Fail
       (loop (tick false 2200 room)
          (exec reflow_then_fault (boot saved_defaults room))) = false.
Proof.
  apply loop_fault_flags_not_latched.
  - vm_compute; reflexivity.
  - reflexivity.
  - exact healthy_room.
Defined.

(** C5 (counterexample). The control tick in which the hold of a reflow
    run ends leaves the state machine in COOLING with the heaters on:
    the setpoint is still the 185 degrees of the hold, both PID loops
    are in AUTOMATIC and both PWM outputs are written at full duty. *)
Lemma cooling_entered_with_heaters_on :
  let s := exec reflow_enters_cooling (boot saved_defaults room) in
  runningState s = 5
  /\ (pid_Setpoint s == 185)%Q
  /\ PID.inAuto (hotPlate1PID s) = true
  /\ PID.inAuto (hotPlate2PID s) = true
  /\ pwm1 s = 255
  /\ pwm2 s = 255
  /\ ~ heaters_off s.
Proof.
  vm_compute. repeat split. intros (H & _). discriminate H.
Qed.

(** A control tick of a reflow run that has run into COOLING. *)
Lemma loop_cooling_heaters_off_witness :
  heaters_off
    (loop (tick false 300000 room)
       (exec reflow_to_cooling (boot saved_defaults room))).
Proof.
  apply loop_cooling_heaters_off.
  - vm_compute; reflexivity.
  - vm_compute; reflexivity.
  - vm_compute; reflexivity.
  - vm_compute; discriminate.
Defined.

(** ** PID tuning constants *)

(** C6 (the code at the failing input). Kp1 is edited from 3.30 to 4.30
    in the PID tuning menu and committed; a constant-temperature run at
    35 degrees is then started with both plates at 25 degrees.  The
    Parameter Store holds 4.30, the PID object still holds 3.30, and the
    third control tick of the run writes the duty cycle 33 that Kp = 3.30
    gives; with the stored constants applied to the PID objects the same
    tick writes 43. *)
Theorem committed_tuning_not_used :
  let s := exec edit_Kp1_then_run (boot saved_defaults room) in
  running s = true
  /\ (arr_get 0 (parametersPID s) 0 == 4.30)%Q
  /\ (PID.kp (hotPlate1PID s) == 3.30)%Q
  /\ pwm1 (loop (tick false 4400 room) s) = 33
  /\ pwm1 (loop (tick false 4400 room) (retuned s)) = 43.
Proof. vm_compute. repeat split. Qed.

(** ** Persistence *)

(** C7 (counterexample). First boot on an erased EEPROM: the profile and
    the tuning constants are the erased bytes, not the built-in
    defaults. *)
Lemma first_boot_adopts_erased_bytes :
  parametersReflow (boot erased room) = [255; 255; 255; 255; 255; 255; 255]
  /\ parametersReflow (boot erased room) <> parametersReflow (power_on erased)
  /\ parametersPID (boot erased room)
     = [-0.01; -0.01; -0.01; -0.01; -0.01; -0.01]%Q.
Proof. vm_compute. repeat split. discriminate. Qed.

(** C7 (as amended). [setup()] has no fallback: whatever the EEPROM
    holds replaces the built-in defaults.  Profile field [i] becomes the
    byte at address [1 + i]; tuning constant [i] becomes the signed
    16-bit big-endian value at addresses [8 + 2 i], [9 + 2 i], divided
    by 100. *)
Theorem boot_adopts_EEPROM (e : Z -> Z) (a : Acquisition) :
  parametersReflow (boot e a) = map e [1; 2; 3; 4; 5; 6; 7]
  /\ parametersPID (boot e a)
     = map (fun k => inject_Z (i16 (Z.shiftl (e k) 8 + e (k + 1))%Z) / 100)%Q
         [8; 10; 12; 14; 16; 18].
Proof. split; reflexivity. Qed.

(** Two bytes hold a non-negative 16-bit [int], high byte first. *)
Lemma int_bytes_roundtrip (n : Z) :
  0 <= n < 32768 ->
  i16 (Z.shiftl (u8 (Z.shiftr n 8)) 8 + u8 (Z.land n 255)) = n.
Proof.
  intros H.
  rewrite Z.shiftr_div_pow2, Z.shiftl_mul_pow2 by lia.
  change 255 with (Z.ones 8). rewrite Z.land_ones by lia.
  change (2 ^ 8) with 256.
  unfold u8. rewrite (Z.mod_small (n / 256)) by
    (split; [apply Z.div_pos; lia | apply Z.div_lt_upper_bound; lia]).
  rewrite Z.mod_mod by lia.
  rewrite Z.mul_comm, <- Z.div_mod by lia.
  apply i16_id. lia.
Qed.

(** Fixed-point storage of a tuning constant: [value * 100] truncated. *)
Lemma fixed_point_bounds (k : Q) :
  (0 <= k)%Q -> (k < 327.68)%Q ->
  0 <= Qtrunc (k * 100) < 32768
  /\ (0 <= k - inject_Z (Qtrunc (k * 100)) / 100)%Q
  /\ (k - inject_Z (Qtrunc (k * 100)) / 100 < 1 # 100)%Q.
Proof.
  destruct k as [n d]. unfold Qle, Qlt, Qtrunc. cbn.
  intros H0 H1.
  assert (Hn : 0 <= n) by lia.
  rewrite Z.quot_div_nonneg by lia.
  pose proof (Z.div_mod (n * 100) (Z.pos (d * 1)) ltac:(lia)) as Hdm.
  pose proof (Z.mod_pos_bound (n * 100) (Z.pos (d * 1)) ltac:(lia)) as Hmb.
  set (q := n * 100 / Z.pos (d * 1)) in *.
  set (r := (n * 100) mod Z.pos (d * 1)) in *.
  assert (Hd : Z.pos (d * 1) = Z.pos d) by lia.
  rewrite Hd in *.
  split; [|split].
  - split; [subst q; apply Z.div_pos; lia|].
    subst q. apply Z.div_lt_upper_bound; lia.
  - nia.
  - nia.
Qed.

Lemma Forall_7 {A} (Pr : A -> Prop) (l : list A) :
  length l = 7%nat -> Forall Pr l ->
  exists a b c d e f g,
    l = [a; b; c; d; e; f; g]
    /\ Pr a /\ Pr b /\ Pr c /\ Pr d /\ Pr e /\ Pr f /\ Pr g.
Proof.
  intros Hl Hf.
  do 7 (destruct l as [|? l]; [discriminate|]).
  destruct l; [|discriminate].
  repeat match goal with
         | H : Forall _ (_ :: _) |- _ => inversion H; clear H; subst
         end.
  do 7 eexists. repeat split; eassumption.
Qed.

Lemma Forall_6 {A} (Pr : A -> Prop) (l : list A) :
  length l = 6%nat -> Forall Pr l ->
  exists a b c d e f,
    l = [a; b; c; d; e; f] /\ Pr a /\ Pr b /\ Pr c /\ Pr d /\ Pr e /\ Pr f.
Proof.
  intros Hl Hf.
  do 6 (destruct l as [|? l]; [discriminate|]).
  destruct l; [|discriminate].
  repeat match goal with
         | H : Forall _ (_ :: _) |- _ => inversion H; clear H; subst
         end.
  do 6 eexists. repeat split; eassumption.
Qed.

Lemma tuning_roundtrip (k : Q) :
  (0 <= k)%Q /\ (k < 327.68)%Q ->
  let stored := double_to_int (k * 100) in
  let loaded :=
    (inject_Z (i16 (Z.shiftl (u8 (Z.shiftr stored 8)) 8
                    + u8 (Z.land stored 255))%Z) / 100)%Q in
  (0 <= k - loaded)%Q /\ (k - loaded < 1 # 100)%Q.
Proof.
  intros (H0 & H1). cbv zeta.
  destruct (fixed_point_bounds H0 H1) as (Hr & Hlo & Hhi).
  unfold double_to_int. rewrite (@i16_id (Qtrunc (k * 100))) by lia.
  rewrite int_bytes_roundtrip by exact Hr.
  split; assumption.
Qed.

Lemma int_bytes_signed (n : Z) :
  i16 (Z.shiftl (u8 (Z.shiftr n 8)) 8 + u8 (Z.land n 255)) = i16 n.
Proof.
  rewrite Z.shiftr_div_pow2, Z.shiftl_mul_pow2 by lia.
  change 255 with (Z.ones 8). rewrite Z.land_ones by lia.
  change (2 ^ 8) with 256.
  unfold u8. rewrite Z.mod_mod by lia. unfold i16. f_equal.
  pose proof (Z.div_mod n 256 ltac:(lia)) as H1.
  pose proof (Z.div_mod (n / 256) 256 ltac:(lia)) as H2.
  replace (n / 256 mod 256 * 256 + n mod 256 + 32768)
    with (n + 32768 + (- (n / 256 / 256)) * 65536) by lia.
  apply Z_mod_plus_full.
Qed.

Lemma i16_range (z : Z) : -32768 <= i16 z < 32768.
Proof.
  unfold i16. pose proof (Z.mod_pos_bound (z + 32768) 65536 ltac:(lia)). lia.
Qed.

(** The two bytes written for a converted tuning constant read back as
    the 16-bit integer they were split from. *)
Lemma stored_bytes_roundtrip (q : Q) :
  i16 (Z.shiftl (u8 (Z.shiftr (double_to_int q) 8)) 8
       + u8 (Z.land (double_to_int q) 255))
  = double_to_int q.
Proof.
  rewrite int_bytes_signed. unfold double_to_int.
  apply i16_id. apply i16_range.
Qed.

Lemma save_then_load_eq (s : State) (a : Acquisition)
    (r0 r1 r2 r3 r4 r5 r6 : Z) (k0 k1 k2 k3 k4 k5 : Q)
    (i0 i1 i2 i3 i4 i5 : Z) :
  parametersReflow s = [r0; r1; r2; r3; r4; r5; r6] ->
  parametersPID s = [k0; k1; k2; k3; k4; k5] ->
  parametersPIDint s = [i0; i1; i2; i3; i4; i5] ->
  let stored k := double_to_int (k * 100) in
  let loaded k :=
    (inject_Z (i16 (Z.shiftl (u8 (Z.shiftr (stored k) 8)) 8
                    + u8 (Z.land (stored k) 255))%Z) / 100)%Q in
  parametersReflow (save_then_load s a)
  = [u8 r0; u8 r1; u8 r2; u8 r3; u8 r4; u8 r5; u8 r6]
  /\ parametersPID (save_then_load s a)
     = [loaded k0; loaded k1; loaded k2; loaded k3; loaded k4; loaded k5]
  /\ parametersPIDint (saveConfiguration s)
     = [stored k0; stored k1; stored k2; stored k3; stored k4; stored k5].
Proof.
  destruct s. st. intros -> -> ->.
  unfold save_then_load, boot, setup, saveConfiguration, power_on.
  repeat split; reflexivity.
Qed.

Lemma tuning_close (k : Q) :
  (0 <= k)%Q /\ (k <= 327.67)%Q ->
  let stored := double_to_int (k * 100) in
  let loaded :=
    (inject_Z (i16 (Z.shiftl (u8 (Z.shiftr stored 8)) 8
                    + u8 (Z.land stored 255))%Z) / 100)%Q in
  (- (2 # 100) < k - loaded)%Q /\ (k - loaded < 2 # 100)%Q.
Proof.
  intros (H0 & H1).
  assert (H2 : (k < 327.68)%Q) by lra.
  pose proof (@tuning_roundtrip k (conj H0 H2)) as H. cbv zeta in *.
  destruct H as (Hlo & Hhi). split; lra.
Qed.

(** C8 (counterexample). A tuning constant of 700 does not survive:
    70000 does not fit the 16-bit integer the constant is stored in. *)
Lemma large_tuning_constant_not_restored :
  let s := set_parametersPID [700; 0.02; 3.45; 3.30; 0.02; 3.45]%Q
             (power_on erased) in
  (arr_get 0 (parametersPID (save_then_load s room)) 0 == 44.64)%Q
  /\ ~ (700 - arr_get 0 (parametersPID (save_then_load s room)) 0 <= 1 # 100)%Q.
Proof.
  vm_compute. split; [reflexivity | intros H; apply H; reflexivity].
Qed.

(** C8 (as amended). For every profile of seven bytes and every tuning
    set whose constants lie between 0 and 327.67, so that their
    hundredths fit the 16-bit [int] they are stored in, "Save
    Configuration" followed by a power cycle restores every profile
    field exactly and every tuning constant as the number of hundredths
    that was stored for it, divided by 100.  The restored constant lies
    within 0.02 of the original: 0.01 for the truncation to hundredths,
    the rest for the rounding of the floating-point conversions, which
    are exact here. *)
Theorem save_load_roundtrip (s : State) (a : Acquisition) :
  length (parametersReflow s) = 7%nat ->
  Forall (fun r => 0 <= r < 256) (parametersReflow s) ->
  length (parametersPID s) = 6%nat ->
  Forall (fun k => 0 <= k /\ k <= 327.67)%Q (parametersPID s) ->
  length (parametersPIDint s) = 6%nat ->
  parametersReflow (save_then_load s a) = parametersReflow s
  /\ parametersPID (save_then_load s a)
     = map (fun n => inject_Z n / 100)%Q (parametersPIDint (saveConfiguration s))
  /\ Forall2 (fun k k' => - (2 # 100) < k - k' /\ k - k' < 2 # 100)%Q
       (parametersPID s) (parametersPID (save_then_load s a)).
Proof.
  intros Lr Fr Lk Fk Li.
  destruct (Forall_7 Lr Fr)
    as (r0 & r1 & r2 & r3 & r4 & r5 & r6 & Er & R0 & R1 & R2 & R3 & R4 & R5 & R6).
  destruct (Forall_6 Lk Fk)
    as (k0 & k1 & k2 & k3 & k4 & k5 & Ek & K0 & K1 & K2 & K3 & K4 & K5).
  destruct (Forall_6 (Pr := fun _ => True) Li)
    as (i0 & i1 & i2 & i3 & i4 & i5 & Ei & _).
  { clear. induction (parametersPIDint s); constructor; auto. }
  destruct (@save_then_load_eq s a _ _ _ _ _ _ _ _ _ _ _ _ _ _ _ _ _ _ _
              Er Ek Ei) as (-> & -> & ->).
  rewrite Er, Ek. split; [|split].
  - rewrite !u8_id by assumption. reflexivity.
  - cbn [map]. rewrite !stored_bytes_roundtrip. reflexivity.
  - repeat constructor; apply tuning_close; assumption.
Qed.

(** The factory defaults survive a save and a power cycle. *)
Lemma save_load_roundtrip_witness :
  parametersReflow (save_then_load (power_on erased) room)
  = parametersReflow (power_on erased)
  /\ parametersPID (save_then_load (power_on erased) room)
     = map (fun n => inject_Z n / 100)%Q
         (parametersPIDint (saveConfiguration (power_on erased)))
  /\ Forall2 (fun k k' => - (2 # 100) < k - k' /\ k - k' < 2 # 100)%Q
       (parametersPID (power_on erased))
       (parametersPID (save_then_load (power_on erased) room)).
Proof.
  apply save_load_roundtrip.
  - reflexivity.
  - repeat constructor; discriminate.
  - reflexivity.
  - repeat constructor; discriminate.
  - reflexivity.
Defined.

(** ** The reflow state machine on the default profile *)

Lemma reflowRunning_prof (inp : TickInput) (s : State) :
  prof (reflowRunning inp s)
  = prof (reflowSwitch
            (secondCounter (ms_timer inp)
               (setMode2 true (setMode1 true (readThermistor (acq_run inp) s))))).
Proof. reflexivity. Qed.

Ltac stage_tac :=
  let s := fresh "s" in
  intros ? s; rewrite reflowRunning_prof; destruct s; st;
  intros; subst;
  unfold counted, restarted, fired, readThermistor, secondCounter; st;
  break_cond; unfold reflowSwitch, P; st;
  repeat match goal with
         | |- context [arr_get 0 profile_sn42 ?k] =>
             let v := eval vm_compute in (arr_get 0 profile_sn42 k) in
             change (arr_get 0 profile_sn42 k) with v
         end;
  cbn [Z.add Pos.add Pos.succ];
  try break_cond; reflexivity.

Lemma tick_ramp : forall inp s,
  parametersReflow s = profile_sn42 -> runningState s = 1 ->
  prof (reflowRunning inp s)
  = (profile_sn42, initTempSnapshot s,
     (if 100 <=? counted inp s then 2 else 1),
     counted inp s, restarted inp s,
     (((inject_Z 115 - initTempSnapshot s) / inject_Z 100 - 0)
      * inject_Z (counted inp s) + initTempSnapshot s)%Q).
Proof. stage_tac. Qed.

Lemma tick_soak : forall inp s,
  parametersReflow s = profile_sn42 -> runningState s = 2 ->
  prof (reflowRunning inp s)
  = (profile_sn42, initTempSnapshot s,
     (if 155 <=? counted inp s then 3 else 2),
     counted inp s, restarted inp s,
     (((inject_Z 145 - inject_Z 115) / (inject_Z 155 - inject_Z 100))
      * (inject_Z (counted inp s) - inject_Z 100) + inject_Z 115)%Q).
Proof. stage_tac. Qed.

Lemma tick_reflow_ramp : forall inp s,
  parametersReflow s = profile_sn42 -> runningState s = 3 ->
  prof (reflowRunning inp s)
  = (profile_sn42, initTempSnapshot s,
     (if 180 <=? counted inp s then 4 else 3),
     counted inp s, restarted inp s,
     (((inject_Z 185 - inject_Z 145) / (inject_Z 180 - inject_Z 155))
      * (inject_Z (counted inp s) - inject_Z 155) + inject_Z 145)%Q).
Proof. stage_tac. Qed.

Lemma tick_reflow : forall inp s,
  parametersReflow s = profile_sn42 -> runningState s = 4 ->
  prof (reflowRunning inp s)
  = (profile_sn42, initTempSnapshot s,
     (if 215 <=? counted inp s then 5 else 4),
     counted inp s, restarted inp s, inject_Z 185).
Proof. stage_tac. Qed.

Lemma tick_cooling : forall inp s,
  parametersReflow s = profile_sn42 -> runningState s = 5 ->
  prof (reflowRunning inp s)
  = (profile_sn42, initTempSnapshot s, 5,
     runningSecondCounter s, time_now s, 0%Q).
Proof.
  intros inp s. rewrite reflowRunning_prof. destruct s. st.
  intros; subst. unfold readThermistor, secondCounter. st.
  unfold reflowSwitch. st. reflexivity.
Qed.

Lemma prof_inv (s : State) p i st c tn sp :
  prof s = (p, i, st, c, tn, sp) ->
  parametersReflow s = p /\ initTempSnapshot s = i /\ runningState s = st
  /\ runningSecondCounter s = c /\ time_now s = tn /\ pid_Setpoint s = sp.
Proof. unfold prof. intros H. injection H. auto 10. Qed.

Lemma counted_small (inp : TickInput) (s : State) :
  0 <= runningSecondCounter s <= 300 ->
  counted inp s
  = if fired inp s then runningSecondCounter s + 1 else runningSecondCounter s.
Proof.
  intros H. unfold counted. destruct (fired inp s); auto.
  apply i16_id. lia.
Qed.

Ltac closed_Qeq := vm_compute; reflexivity.

(** Setpoint goals: the counter is pinned to a number by the context,
    the snapshot to 25 by [Hi]. *)
Ltac solve_sp s Hi :=
  match goal with
  | |- (_ == _)%Q =>
      first
        [ reflexivity
        | match goal with
          | |- context [inject_Z ?c] =>
              lazymatch c with
              | context [runningSecondCounter s] => idtac
              end;
              first [ match goal with
                      | H : _ = ?n |- _ => replace c with n by lia
                      end
                    | replace c with 180 by lia ];
              rewrite ?Hi; closed_Qeq
          end ]
  end.

Ltac stage_step s Hi :=
  rewrite counted_small by lia;
  cbn [Z.ltb Z.compare Pos.compare Pos.compare_cont];
  destruct (fired _ s);
  match goal with
  | |- context [if ?a <=? ?b then _ else _] => destruct (Z.leb_spec a b)
  end;
  repeat split; intros; try lia; try assumption; try discriminate;
  solve_sp s Hi.

Lemma stage_cases (s : State) :
  stage_ok s ->
  let c := runningSecondCounter s in
  (runningState s = 1 /\ 0 <= c <= 99)
  \/ (runningState s = 2 /\ 100 <= c <= 154)
  \/ (runningState s = 3 /\ 155 <= c <= 179)
  \/ (runningState s = 4 /\ 180 <= c <= 214)
  \/ (runningState s = 5 /\ c = 215).
Proof.
  unfold stage_ok. cbv zeta.
  intros H.
  repeat match type of H with
         | match ?p with _ => _ end => destruct p; try contradiction
         end;
    auto 10.
Qed.

Lemma tick_step (inp : TickInput) (s : State) :
  run_inv s ->
  let s' := reflowRunning inp s in
  run_inv s'
  /\ setpoint_by_counter s'
  /\ runningSecondCounter s'
     = (if runningState s <? 5 then
          if fired inp s then runningSecondCounter s + 1
          else runningSecondCounter s
        else runningSecondCounter s)
  /\ time_now s'
     = (if runningState s <? 5 then restarted inp s else time_now s)
  /\ (runningState s = 5 -> runningState s' = 5 /\ (pid_Setpoint s' == 0)%Q).
Proof.
  intros (Hp & Hi & Hst). cbv zeta.
  pose proof (stage_cases s Hst) as Hc. cbv zeta in Hc.
  unfold run_inv, stage_ok, setpoint_by_counter.
  destruct Hc as [(Es & Hc)|[(Es & Hc)|[(Es & Hc)|[(Es & Hc)|(Es & Hc)]]]];
    rewrite Es.
  - (* RAMP *)
    destruct (prof_inv (tick_ramp inp s Hp Es))
      as (-> & -> & -> & -> & -> & ->).
    stage_step s Hi.
  - (* SOAK *)
    destruct (prof_inv (tick_soak inp s Hp Es))
      as (-> & -> & -> & -> & -> & ->).
    stage_step s Hi.
  - (* REFLOW RAMP *)
    destruct (prof_inv (tick_reflow_ramp inp s Hp Es))
      as (-> & -> & -> & -> & -> & ->).
    stage_step s Hi.
  - (* REFLOW *)
    destruct (prof_inv (tick_reflow inp s Hp Es))
      as (-> & -> & -> & -> & -> & ->).
    stage_step s Hi.
  - (* COOLING *)
    destruct (prof_inv (tick_cooling inp s Hp Es))
      as (-> & -> & -> & -> & -> & ->).
    cbn. repeat split; intros; try lia; try assumption; reflexivity.
Qed.

Lemma run_started_inv (s : State) : run_started s -> run_inv s.
Proof.
  intros (Hp & Hs & Hc & Hi). unfold run_inv, stage_ok.
  rewrite Hs, Hc. repeat split; auto; lia.
Qed.

(** The run initialisation of [loop()] establishes [run_started]. *)
Lemma startRun_run_started (inp : TickInput) (s : State) :
  parametersReflow s = profile_sn42 ->
  ((temp1 (acq_loop inp) + temp2 (acq_loop inp)) / 2 == 25)%Q ->
  run_started (startRun inp s).
Proof.
  intros Hp Ht. unfold run_started. repeat split; assumption.
Qed.

(** ** The encoder interrupt against the main program *)

Lemma menu_read_statements_readMenuCounter (s : State) :
  run_statements s menu_read_statements = readMenuCounter s.
Proof. reflexivity. Qed.

Lemma reflow_edit_statements_calcParameters (s : State) :
  menuIndex s = 3 -> encSW s = true ->
  run_statements s reflow_edit_statements = calcParameters s.
Proof.
  destruct s. st. intros -> ->.
  unfold calcParameters. st. unfold calcReflowProfile. st. reflexivity.
Qed.

(** No statement of the edit disables interrupts. *)
Lemma reflow_edit_statements_interrupts (s : State) (k : nat) :
  interruptsEnabled
    (run_statements s (firstn k reflow_edit_statements))
  = interruptsEnabled s.
Proof.
  do 6 (destruct k as [|k]; [reflexivity|]). reflexivity.
Qed.

(** C9 (the code at the failing input). T1 is being edited, five steps
    up from 115, and the button is pressed to commit.  Without an
    interrupt [calcParameters] commits 120; with one more encoder step
    before it, 121.  With that step between the read of [selectCounter]
    (line 208) and its clearing (line 212), where interrupts are
    enabled, 120 is committed and the counter cleared: the step is lost.
    The same step raised inside the protected read of [menuCounter] in
    [loop()] is served after [interrupts()]: the value read is the one
    before the step and the step is kept. *)
Theorem encoder_step_lost_in_calcParameters :
  let s := set_encSW true (exec (edit_T1_by 5) (boot saved_defaults room)) in
  let m := exec [release 1000] (boot saved_defaults room) in
  let edge := isrEncCLK true false in
  let T1 x := arr_get 0 (parametersReflow x) 0 in
  interruptsEnabled s = true
  /\ (T1 (calcParameters s) = 120 /\ selectCounter (calcParameters s) = 0)
  /\ T1 (calcParameters (edge s)) = 121
  /\ (T1 (run_with_edge edge s reflow_edit_statements 1) = 120
      /\ selectCounter (run_with_edge edge s reflow_edit_statements 1) = 0)
  /\ (menuCounter m = 1
      /\ protectedMenuCounter (run_with_edge edge m menu_read_statements 1) = 1
      /\ menuCounter (run_with_edge edge m menu_read_statements 1) = 2).
Proof. vm_compute. repeat split. Qed.

(* ================================================================== *)
(** * Further properties *)
(* ================================================================== *)

(** The properties below are stated with every argument explicit. *)
Unset Implicit Arguments.

(** ** Case analysis, arithmetic and arrays *)

(** The innermost condition of the goal. *)

Ltac break_inner :=
  match goal with
  | |- context [if ?c then _ else _] =>
      lazymatch c with
      | context [if _ then _ else _] => fail
      | context [match _ with _ => _ end] => fail
      | _ => destruct c eqn:?
      end
  | |- context [match ?x with _ => _ end] =>
      lazymatch x with
      | context [if _ then _ else _] => fail
      | context [match _ with _ => _ end] => fail
      | _ => destruct x eqn:?
      end
  end.

Lemma nth_list_set_neq {A} (l : list A) (n m : nat) (v d : A) :
  n <> m -> nth m (list_set l n v) d = nth m l d.
Proof.
  revert n m. induction l as [|h t IH]; intros [|n] [|m] H; simpl;
    try reflexivity; try congruence. apply IH. congruence.
Qed.

Lemma arr_get_set_neq {A} (d : A) (l : list A) (i j : Z) (v : A) :
  i <> j -> arr_get d (arr_set l i v) j = arr_get d l j.
Proof.
  intros H. unfold arr_get. rewrite arr_set_length. unfold arr_set.
  destruct ((0 <=? j) && (j <? Z.of_nat (length l))) eqn:Ej; [|reflexivity].
  destruct ((0 <=? i) && (i <? Z.of_nat (length l))) eqn:Ei; [|reflexivity].
  apply andb_true_iff in Ej, Ei. destruct Ej as (Ej1 & Ej2), Ei as (Ei1 & Ei2).
  apply Z.leb_le in Ej1, Ei1. apply Z.ltb_lt in Ej2, Ei2.
  apply nth_list_set_neq. lia.
Qed.

Lemma arr_get_set (l : list Z) (i j v : Z) :
  arr_get 0 (arr_set l i v) j
  = if (j =? i) && (0 <=? j) && (j <? Z.of_nat (length l)) then v
    else arr_get 0 l j.
Proof.
  destruct (Z.eq_dec i j) as [->|N].
  - rewrite Z.eqb_refl. cbn [andb].
    destruct ((0 <=? j) && (j <? Z.of_nat (length l))) eqn:E.
    + apply arr_get_set_eq. apply andb_true_iff in E. destruct E as (E1 & E2).
      apply Z.leb_le in E1. apply Z.ltb_lt in E2. lia.
    + unfold arr_set. rewrite E. reflexivity.
  - rewrite arr_get_set_neq by exact N.
    replace (j =? i) with false by (symmetry; apply Z.eqb_neq; lia).
    reflexivity.
Qed.

Lemma arr_get_ext (l1 l2 : list Z) :
  length l1 = length l2 ->
  (forall j, 0 <= j < Z.of_nat (length l1) ->
             arr_get 0 l1 j = arr_get 0 l2 j) ->
  l1 = l2.
Proof.
  intros Hl H. apply (nth_ext l1 l2 0 0 Hl). intros n Hn.
  specialize (H (Z.of_nat n)). unfold arr_get in H. rewrite <- Hl in H.
  replace ((0 <=? Z.of_nat n) && (Z.of_nat n <? Z.of_nat (length l1)))
    with true in H
    by (symmetry; apply andb_true_iff; split;
        [apply Z.leb_le | apply Z.ltb_lt]; lia).
  rewrite Nat2Z.id in H. apply H. lia.
Qed.

Lemma arr_get_Forall (Pz : Z -> Prop) (l : list Z) (j : Z) :
  Forall Pz l -> 0 <= j < Z.of_nat (length l) -> Pz (arr_get 0 l j).
Proof.
  intros HF Hj. unfold arr_get.
  replace ((0 <=? j) && (j <? Z.of_nat (length l))) with true
    by (symmetry; apply andb_true_iff; split;
        [apply Z.leb_le | apply Z.ltb_lt]; lia).
  rewrite Forall_forall in HF. apply HF. apply nth_In. lia.
Qed.

(** Two bytes hold a 16-bit [int], high byte first, whatever its sign. *)
Lemma Qlt_bool_spec (x y : Q) :
  (Qlt_bool x y = true /\ (x < y)%Q) \/ (Qlt_bool x y = false /\ (y <= x)%Q).
Proof.
  unfold Qlt_bool. destruct (Qle_bool y x) eqn:E.
  - right. split; [reflexivity|]. apply Qle_bool_iff. exact E.
  - left. split; [reflexivity|]. apply Qnot_le_lt. intros H.
    apply Qle_bool_iff in H. congruence.
Qed.

Lemma Qlt_bool_true (x y : Q) : (x < y)%Q -> Qlt_bool x y = true.
Proof.
  intros H. destruct (Qlt_bool_spec x y) as [(E & _)|(_ & E)]; [exact E|].
  exfalso. exact (Qlt_not_le _ _ H E).
Qed.

Lemma inject_Z_sub_neq (a b : Z) :
  a <> b -> ~ (inject_Z a - inject_Z b == 0)%Q.
Proof.
  intros N H. apply N. unfold Qeq in H. cbn in H. lia.
Qed.

(** ** The arrays in EEPROM *)

(** The loops of the four array routines, from any index and address. *)

Lemma write_u8_loop (numbers : list Z) (n : nat) :
  forall i addr e a,
    snd (for_loop n i
           (fun i '(addressIndex, e) =>
              (addressIndex + 1,
               EEPROM_update addressIndex (arr_get 0 numbers i) e))
           (addr, e)) a
    = if (addr <=? a) && (a <? addr + Z.of_nat n)
      then u8 (arr_get 0 numbers (i + (a - addr)))
      else e a.
Proof.
  induction n as [|n IH]; intros i addr e a.
  - cbn [for_loop snd].
    replace (a <? addr + Z.of_nat 0) with (a <? addr) by (f_equal; lia).
    destruct (addr <=? a) eqn:E1, (a <? addr) eqn:E2; try reflexivity.
    apply Z.leb_le in E1. apply Z.ltb_lt in E2. lia.
  - cbn [for_loop]. rewrite IH. unfold EEPROM_update.
    destruct (addr + 1 <=? a) eqn:E1, (a <? addr + 1 + Z.of_nat n) eqn:E2,
             (addr <=? a) eqn:E3, (a <? addr + Z.of_nat (S n)) eqn:E4,
             (a =? addr) eqn:E5; cbn [andb];
      rewrite ?Z.leb_le, ?Z.leb_gt, ?Z.ltb_lt, ?Z.ltb_ge, ?Z.eqb_eq,
        ?Z.eqb_neq in *;
      try lia; try reflexivity.
    + do 2 f_equal. lia.
    + subst a. do 2 f_equal. lia.
Qed.

Lemma write_int_loop (numbers : list Z) (n : nat) :
  forall i addr e a,
    snd (for_loop n i
           (fun i '(addressIndex, e) =>
              let e := EEPROM_update addressIndex
                         (Z.shiftr (arr_get 0 numbers i) 8) e in
              let e := EEPROM_update (addressIndex + 1)
                         (Z.land (arr_get 0 numbers i) 255) e in
              (addressIndex + 2, e))
           (addr, e)) a
    = if (addr <=? a) && (a <? addr + 2 * Z.of_nat n)
      then if Z.even (a - addr)
           then u8 (Z.shiftr (arr_get 0 numbers (i + (a - addr) / 2)) 8)
           else u8 (Z.land (arr_get 0 numbers (i + (a - addr) / 2)) 255)
      else e a.
Proof.
  induction n as [|n IH]; intros i addr e a.
  - cbn [for_loop snd].
    replace (a <? addr + 2 * Z.of_nat 0) with (a <? addr) by (f_equal; lia).
    destruct (addr <=? a) eqn:E1, (a <? addr) eqn:E2; try reflexivity.
    apply Z.leb_le in E1. apply Z.ltb_lt in E2. lia.
  - cbn [for_loop]. cbv zeta. rewrite IH. unfold EEPROM_update.
    destruct (addr + 2 <=? a) eqn:E1, (a <? addr + 2 + 2 * Z.of_nat n) eqn:E2,
             (addr <=? a) eqn:E3, (a <? addr + 2 * Z.of_nat (S n)) eqn:E4,
             (a =? addr) eqn:E5, (a =? addr + 1) eqn:E6; cbn [andb];
      rewrite ?Z.leb_le, ?Z.leb_gt, ?Z.ltb_lt, ?Z.ltb_ge, ?Z.eqb_eq,
        ?Z.eqb_neq in *;
      try lia; try reflexivity.
    + replace (a - addr) with ((a - (addr + 2)) + 2 * 1) by lia.
      rewrite Z.even_add_mul_2.
      replace (a - (addr + 2) + 2 * 1) with ((a - (addr + 2)) + 1 * 2) by lia.
      rewrite Z.div_add by lia.
      replace (i + ((a - (addr + 2)) / 2 + 1))
        with (i + 1 + (a - (addr + 2)) / 2) by lia.
      reflexivity.
    + subst a. rewrite Z.sub_diag. change (0 / 2) with 0.
      rewrite Z.add_0_r. reflexivity.
    + subst a. rewrite Z.add_simpl_l. change (1 / 2) with 0.
      rewrite Z.add_0_r. reflexivity.
Qed.

Lemma read_loop (cell : Z -> Z) (stride : Z) (n : nat) :
  forall i addr numbers,
    let r := snd (for_loop n i
                    (fun i '(addressIndex, numbers) =>
                       (addressIndex + stride,
                        arr_set numbers i (cell addressIndex)))
                    (addr, numbers)) in
    length r = length numbers
    /\ forall j, arr_get 0 r j
         = if (i <=? j) && (j <? i + Z.of_nat n)
              && (0 <=? j) && (j <? Z.of_nat (length numbers))
           then cell (addr + stride * (j - i))
           else arr_get 0 numbers j.
Proof.
  induction n as [|n IH]; intros i addr numbers; cbv zeta.
  - cbn [for_loop snd]. split; [reflexivity|]. intros j.
    destruct (i <=? j) eqn:E1, (j <? i + Z.of_nat 0) eqn:E2; cbn [andb];
      rewrite ?Z.leb_le, ?Z.ltb_lt in *; try reflexivity; lia.
  - cbn [for_loop].
    destruct (IH (i + 1) (addr + stride) (arr_set numbers i (cell addr)))
      as (Hl & Hg).
    rewrite arr_set_length in Hl, Hg. split; [exact Hl|]. intros j.
    rewrite Hg, arr_get_set.
    destruct (i + 1 <=? j) eqn:E1, (j <? i + 1 + Z.of_nat n) eqn:E2,
             (i <=? j) eqn:E3, (j <? i + Z.of_nat (S n)) eqn:E4,
             (j =? i) eqn:E5, (0 <=? j) eqn:E6,
             (j <? Z.of_nat (length numbers)) eqn:E7; cbn [andb];
      rewrite ?Z.leb_le, ?Z.leb_gt, ?Z.ltb_lt, ?Z.ltb_ge, ?Z.eqb_eq,
        ?Z.eqb_neq in *;
      try lia; try reflexivity.
    + f_equal. lia.
    + subst j. f_equal. lia.
Qed.

(** X1. After [writeUInt8TArrayIntoEEPROM(address, numbers, n)] the
    cell [address + i] holds [numbers[i]] for [0 <= i < n], and every
    other cell holds what it held before. *)
Theorem writeUInt8TArrayIntoEEPROM_layout (address : Z) (numbers : list Z)
    (arraySize : nat) (e : Z -> Z) (a : Z) :
  in_EEPROM address (Z.of_nat arraySize) ->
  writeUInt8TArrayIntoEEPROM address numbers arraySize e a
  = if (address <=? a) && (a <? address + Z.of_nat arraySize)
    then u8 (arr_get 0 numbers (a - address))
    else e a.
Proof.
  intros _. unfold writeUInt8TArrayIntoEEPROM. rewrite write_u8_loop.
  rewrite Z.add_0_l. reflexivity.
Qed.

(** The third byte of the default profile, written from address 1. *)
Lemma writeUInt8TArrayIntoEEPROM_layout_witness :
  writeUInt8TArrayIntoEEPROM 1 profile_sn42 7 erased 3
  = (if (1 <=? 3) && (3 <? 1 + Z.of_nat 7)
     then u8 (arr_get 0 profile_sn42 (3 - 1))
     else erased 3).
Proof.
  apply (writeUInt8TArrayIntoEEPROM_layout 1 profile_sn42 7 erased 3).
  split; discriminate.
Defined.

(** X2. After [writeIntArrayIntoEEPROM(address, numbers, n)] the
    cells [address + 2 i] and [address + 2 i + 1] hold the high and the
    low byte of [numbers[i]] for [0 <= i < n], and every other cell
    holds what it held before. *)
Theorem writeIntArrayIntoEEPROM_layout (address : Z) (numbers : list Z)
    (arraySize : nat) (e : Z -> Z) (a : Z) :
  in_EEPROM address (2 * Z.of_nat arraySize) ->
  writeIntArrayIntoEEPROM address numbers arraySize e a
  = if (address <=? a) && (a <? address + 2 * Z.of_nat arraySize)
    then if Z.even (a - address)
         then u8 (Z.shiftr (arr_get 0 numbers ((a - address) / 2)) 8)
         else u8 (Z.land (arr_get 0 numbers ((a - address) / 2)) 255)
    else e a.
Proof.
  intros _. unfold writeIntArrayIntoEEPROM. rewrite write_int_loop.
  rewrite Z.add_0_l. reflexivity.
Qed.

(** The low byte of the second of six tuning constants, written from
    address 8. *)
Lemma writeIntArrayIntoEEPROM_layout_witness :
  writeIntArrayIntoEEPROM 8 [330; -2; 345; 330; 2; 345] 6 erased 11
  = (if (8 <=? 11) && (11 <? 8 + 2 * Z.of_nat 6)
     then if Z.even (11 - 8)
          then u8 (Z.shiftr
                     (arr_get 0 [330; -2; 345; 330; 2; 345] ((11 - 8) / 2)) 8)
          else u8 (Z.land
                     (arr_get 0 [330; -2; 345; 330; 2; 345] ((11 - 8) / 2)) 255)
     else erased 11).
Proof.
  apply (writeIntArrayIntoEEPROM_layout
           8 [330; -2; 345; 330; 2; 345] 6 erased 11).
  split; discriminate.
Defined.

(** X3. An array of bytes written with [writeUInt8TArrayIntoEEPROM]
    and read back from the same address with
    [readUInt8TArrayFromEEPROM] is returned unchanged, for every
    address and length within the EEPROM, whatever the EEPROM and the
    receiving buffer held. *)
Theorem uint8_array_roundtrip (address : Z) (numbers buffer : list Z)
    (e : Z -> Z) :
  in_EEPROM address (Z.of_nat (length numbers)) ->
  Forall is_uint8 numbers ->
  length buffer = length numbers ->
  readUInt8TArrayFromEEPROM address buffer (length numbers)
    (writeUInt8TArrayIntoEEPROM address numbers (length numbers) e)
  = numbers.
Proof.
  intros _ HF Hl. unfold readUInt8TArrayFromEEPROM.
  set (e' := writeUInt8TArrayIntoEEPROM address numbers (length numbers) e).
  destruct (read_loop e' 1 (length numbers) 0 address buffer) as (Hlen & Hget).
  apply arr_get_ext; [congruence|]. intros j Hj. rewrite Hlen, Hl in Hj.
  rewrite Hget, Hl.
  replace ((0 <=? j) && (j <? 0 + Z.of_nat (length numbers))
           && (0 <=? j) && (j <? Z.of_nat (length numbers))) with true
    by (symmetry; rewrite !andb_true_iff, !Z.leb_le, !Z.ltb_lt; lia).
  subst e'. unfold writeUInt8TArrayIntoEEPROM. rewrite write_u8_loop.
  replace ((address <=? address + 1 * (j - 0))
           && (address + 1 * (j - 0) <? address + Z.of_nat (length numbers)))
    with true by (symmetry; rewrite !andb_true_iff, !Z.leb_le, !Z.ltb_lt; lia).
  replace (0 + (address + 1 * (j - 0) - address)) with j by lia.
  apply u8_id. apply (arr_get_Forall _ _ _ HF). exact Hj.
Qed.

(** The default profile at address 1 of an erased EEPROM. *)
Lemma uint8_array_roundtrip_witness :
  readUInt8TArrayFromEEPROM 1 [0; 0; 0; 0; 0; 0; 0] (length profile_sn42)
    (writeUInt8TArrayIntoEEPROM 1 profile_sn42 (length profile_sn42) erased)
  = profile_sn42.
Proof.
  apply (uint8_array_roundtrip 1 profile_sn42 [0; 0; 0; 0; 0; 0; 0] erased).
  - split; discriminate.
  - repeat constructor; discriminate.
  - reflexivity.
Defined.

(** X4. An array of 16-bit [int]s, negative ones included, written
    with [writeIntArrayIntoEEPROM] (two bytes each, high byte first)
    and read back from the same address with [readIntArrayFromEEPROM]
    is returned unchanged. *)
Theorem int_array_roundtrip (address : Z) (numbers buffer : list Z)
    (e : Z -> Z) :
  in_EEPROM address (2 * Z.of_nat (length numbers)) ->
  Forall is_int16 numbers ->
  length buffer = length numbers ->
  readIntArrayFromEEPROM address buffer (length numbers)
    (writeIntArrayIntoEEPROM address numbers (length numbers) e)
  = numbers.
Proof.
  intros _ HF Hl. unfold readIntArrayFromEEPROM.
  set (e' := writeIntArrayIntoEEPROM address numbers (length numbers) e).
  destruct (read_loop (fun a => i16 (Z.shiftl (e' a) 8 + e' (a + 1))) 2
              (length numbers) 0 address buffer) as (Hlen & Hget).
  apply arr_get_ext; [congruence|]. intros j Hj. rewrite Hlen, Hl in Hj.
  rewrite Hget, Hl.
  replace ((0 <=? j) && (j <? 0 + Z.of_nat (length numbers))
           && (0 <=? j) && (j <? Z.of_nat (length numbers))) with true
    by (symmetry; rewrite !andb_true_iff, !Z.leb_le, !Z.ltb_lt; lia).
  subst e'. unfold writeIntArrayIntoEEPROM. rewrite !write_int_loop.
  replace ((address <=? address + 2 * (j - 0))
           && (address + 2 * (j - 0)
               <? address + 2 * Z.of_nat (length numbers)))
    with true by (symmetry; rewrite !andb_true_iff, !Z.leb_le, !Z.ltb_lt; lia).
  replace ((address <=? address + 2 * (j - 0) + 1)
           && (address + 2 * (j - 0) + 1
               <? address + 2 * Z.of_nat (length numbers)))
    with true by (symmetry; rewrite !andb_true_iff, !Z.leb_le, !Z.ltb_lt; lia).
  replace (address + 2 * (j - 0) - address) with (0 + j * 2) by lia.
  replace (address + 2 * (j - 0) + 1 - address) with (1 + j * 2) by lia.
  rewrite !Z.div_add by lia. rewrite (Z.mul_comm j 2), !Z.even_add_mul_2.
  change (Z.even 0) with true. change (Z.even 1) with false.
  change (0 / 2) with 0. change (1 / 2) with 0. cbv iota.
  rewrite !Z.add_0_l. rewrite int_bytes_signed.
  apply i16_id. apply (arr_get_Forall _ _ _ HF). exact Hj.
Qed.

(** Six [int]s at address 8, the two extreme values among them. *)
Lemma int_array_roundtrip_witness :
  readIntArrayFromEEPROM 8 [0; 0; 0; 0; 0; 0]
    (length [330; -2; 345; -32768; 32767; 0])
    (writeIntArrayIntoEEPROM 8 [330; -2; 345; -32768; 32767; 0]
       (length [330; -2; 345; -32768; 32767; 0]) erased)
  = [330; -2; 345; -32768; 32767; 0].
Proof.
  apply (int_array_roundtrip 8 [330; -2; 345; -32768; 32767; 0]
           [0; 0; 0; 0; 0; 0] erased).
  - split; discriminate.
  - repeat constructor; discriminate.
  - reflexivity.
Defined.

Lemma write_u8_outside (address : Z) (numbers : list Z) (n : nat)
    (e : Z -> Z) (a : Z) :
  a < address \/ address + Z.of_nat n <= a ->
  writeUInt8TArrayIntoEEPROM address numbers n e a = e a.
Proof.
  intros H. unfold writeUInt8TArrayIntoEEPROM. rewrite write_u8_loop.
  destruct (address <=? a) eqn:E1, (a <? address + Z.of_nat n) eqn:E2;
    cbn [andb]; rewrite ?Z.leb_le, ?Z.ltb_lt in *; try reflexivity; lia.
Qed.

Lemma write_int_outside (address : Z) (numbers : list Z) (n : nat)
    (e : Z -> Z) (a : Z) :
  a < address \/ address + 2 * Z.of_nat n <= a ->
  writeIntArrayIntoEEPROM address numbers n e a = e a.
Proof.
  intros H. unfold writeIntArrayIntoEEPROM. rewrite write_int_loop.
  destruct (address <=? a) eqn:E1, (a <? address + 2 * Z.of_nat n) eqn:E2;
    cbn [andb]; rewrite ?Z.leb_le, ?Z.ltb_lt in *; try reflexivity; lia.
Qed.

(** X5. "Save Configuration" writes the EEPROM addresses 1 to 19 and
    no other: every address outside them keeps its content.  The
    profile and the tuning constants in memory are not changed by the
    save. *)
Theorem saveConfiguration_footprint (s : State) (a : Z) :
  a < 1 \/ 19 < a ->
  EEPROM (saveConfiguration s) a = EEPROM s a
  /\ parametersReflow (saveConfiguration s) = parametersReflow s
  /\ parametersPID (saveConfiguration s) = parametersPID s.
Proof.
  intros H. unfold saveConfiguration. cbn [for_loop]. destruct s. st.
  split; [|split; reflexivity].
  rewrite write_int_outside by (cbn; lia).
  apply write_u8_outside. cbn; lia.
Qed.

(** Address 0 of an erased EEPROM across a save of the defaults. *)
Lemma saveConfiguration_footprint_witness :
  EEPROM (saveConfiguration (power_on erased)) 0 = 255
  /\ EEPROM (saveConfiguration (power_on erased)) 1 = 115
  /\ EEPROM (saveConfiguration (power_on erased)) 0 = EEPROM (power_on erased) 0
  /\ parametersReflow (saveConfiguration (power_on erased))
     = parametersReflow (power_on erased)
  /\ parametersPID (saveConfiguration (power_on erased))
     = parametersPID (power_on erased).
Proof.
  split; [vm_compute; reflexivity|]. split; [vm_compute; reflexivity|].
  apply (saveConfiguration_footprint (power_on erased) 0).
  left. lia.
Defined.

(** ** The encoder interrupt handlers *)

Lemma isr_body_menu (k : Z) (s : State) :
  selectFlag s = false ->
  selectIndexMax s < 256 ->
  on_menu s ->
  on_menu (isr_body k s)
  /\ selectIndexMax (isr_body k s) = selectIndexMax s
  /\ selectCounter (isr_body k s) = selectCounter s
  /\ Z.abs (menuCounter (isr_body k s) - menuCounter s) <= 1.
Proof.
  destruct s. unfold on_menu, isr_body. st. intros -> Hm (H1 & H2).
  repeat (match goal with
          | |- context [if ?c then _ else _] => destruct c eqn:?
          end; st);
    rewrite ?andb_true_iff, ?Z.ltb_lt in *;
    rewrite ?i16_id by lia; repeat split; lia.
Qed.

(** X6. While no item is selected for editing, an encoder edge keeps
    the cursor on the menu: from a cursor within [1, selectIndexMax],
    either interrupt handler, for any pin levels, leaves [menuCounter]
    within [1, selectIndexMax] (it stops at either end instead of
    wrapping), moves it by at most one item and does not touch
    [selectCounter]. *)
Theorem isr_cursor_stays_on_menu (readCLK readDT : bool) (s : State) :
  selectFlag s = false ->
  selectIndexMax s < 256 ->
  on_menu s ->
  (on_menu (isrEncCLK readCLK readDT s)
   /\ selectCounter (isrEncCLK readCLK readDT s) = selectCounter s
   /\ Z.abs (menuCounter (isrEncCLK readCLK readDT s) - menuCounter s) <= 1)
  /\ (on_menu (isrEncDT readCLK readDT s)
      /\ selectCounter (isrEncDT readCLK readDT s) = selectCounter s
      /\ Z.abs (menuCounter (isrEncDT readCLK readDT s) - menuCounter s) <= 1).
Proof.
  intros Hf Hm Ho. unfold isrEncCLK, isrEncDT. split.
  - destruct (@isr_body_menu (if negb (Bool.eqb readDT readCLK) then 1 else -1)
                s Hf Hm Ho) as (H1 & H2 & H3 & H4).
    exact (conj H1 (conj H3 H4)).
  - destruct (@isr_body_menu (if Bool.eqb readCLK readDT then 1 else -1)
                s Hf Hm Ho) as (H1 & H2 & H3 & H4).
    exact (conj H1 (conj H3 H4)).
Qed.

(** One step up on the main menu. *)
Lemma isr_cursor_stays_on_menu_witness :
  let s := exec [release 1000] (boot saved_defaults room) in
  selectIndexMax s = 3
  /\ on_menu (isrEncCLK true false s)
  /\ menuCounter (isrEncCLK true false s) = 2.
Proof.
  cbv zeta. split; [vm_compute; reflexivity|].
  split; [|vm_compute; reflexivity].
  apply (isr_cursor_stays_on_menu true false
           (exec [release 1000] (boot saved_defaults room))).
  - vm_compute; reflexivity.
  - vm_compute; reflexivity.
  - vm_compute. split; discriminate.
Defined.

(** ** The operator's side of [loop()] *)

(** *** Reading the bundles *)

Lemma nav_eq (a b : State) :
  nav a = nav b ->
  menuIndex a = menuIndex b /\ menuCounter a = menuCounter b
  /\ selectFlag a = selectFlag b
  /\ startConfirm a = startConfirm b /\ running a = running b
  /\ runningMode a = runningMode b.
Proof. unfold nav. intros H. injection H. intros. repeat split; assumption. Qed.

Lemma store_eq (a b : State) :
  store a = store b ->
  parametersReflow a = parametersReflow b /\ parametersPID a = parametersPID b
  /\ constTempSP a = constTempSP b /\ EEPROM a = EEPROM b.
Proof.
  unfold store. intros H. injection H. intros. repeat split; assumption.
Qed.

Lemma operator_vars_eq (a b : State) :
  operator_vars a = operator_vars b ->
  nav a = nav b /\ selectIndexMax a = selectIndexMax b
  /\ store a = store b /\ selectCounter a = selectCounter b.
Proof.
  unfold operator_vars. intros H. injection H. intros.
  unfold nav, store. repeat split; congruence.
Qed.

Lemma shown_eq (a b : State) :
  shown a = shown b ->
  nav a = nav b /\ store a = store b /\ selectCounter a = selectCounter b.
Proof.
  unfold shown. intros H. injection H. intros.
  unfold nav, store. repeat split; congruence.
Qed.

Lemma cursor_eq (a : State) (n : Z * Z * bool * bool * bool * bool) (m : Z) :
  cursor a = (n, m) -> nav a = n /\ selectIndexMax a = m.
Proof. unfold cursor. intros H. injection H. auto. Qed.

Lemma params_eq (a b : State) :
  store a = store b -> selectCounter a = selectCounter b ->
  params a = params b.
Proof.
  intros H1 H2. apply store_eq in H1. destruct H1 as (A & B & C & _).
  unfold params. congruence.
Qed.

Lemma params_parts (a b : State) :
  params a = params b ->
  parametersReflow a = parametersReflow b /\ parametersPID a = parametersPID b
  /\ constTempSP a = constTempSP b /\ selectCounter a = selectCounter b.
Proof. unfold params. intros H. injection H. auto. Qed.

Lemma prof_eq (a b : State) :
  prof a = prof b ->
  runningState a = runningState b
  /\ runningSecondCounter a = runningSecondCounter b
  /\ pid_Setpoint a = pid_Setpoint b.
Proof. unfold prof. intros H. injection H. auto. Qed.

(** *** Parameter edits *)

Lemma readMenuCounter_screen :
  forall s, screen_vars (readMenuCounter s) = screen_vars s.
Proof. unfold readMenuCounter. block_frame. Qed.

Lemma calcReflowProfile_screen :
  forall s, screen_vars (calcReflowProfile s) = screen_vars s.
Proof. unfold calcReflowProfile. block_frame. Qed.

Lemma calcTuning_screen :
  forall s, screen_vars (calcTuning s) = screen_vars s.
Proof. unfold calcTuning. block_frame. Qed.

Lemma calcConstTemp_screen :
  forall s, screen_vars (calcConstTemp s) = screen_vars s.
Proof. unfold calcConstTemp. block_frame. Qed.

Lemma calcParameters_screen (s : State) :
  screen_vars (calcParameters s) = screen_vars s.
Proof.
  unfold calcParameters. cbv zeta.
  repeat break_cond;
    rewrite ?calcConstTemp_screen, ?calcTuning_screen,
      ?calcReflowProfile_screen;
    reflexivity.
Qed.

Lemma edited_screen (inp : TickInput) (s : State) :
  screen_vars (edited inp s) = screen_vars s.
Proof.
  unfold edited. cbv zeta.
  break_cond; rewrite ?calcParameters_screen; rewrite readMenuCounter_screen;
    reflexivity.
Qed.

Lemma calcReflowProfile_released :
  forall s, encSW s = false -> staged (calcReflowProfile s) = staged s.
Proof.
  intros s. destruct s. unfold calcReflowProfile. st. intros ->. reflexivity.
Qed.

Lemma calcTuning_released :
  forall s, encSW s = false -> staged (calcTuning s) = staged s.
Proof.
  intros s. destruct s. unfold calcTuning. st. intros ->. reflexivity.
Qed.

Lemma calcConstTemp_released :
  forall s, encSW s = false -> staged (calcConstTemp s) = staged s.
Proof.
  intros s. destruct s. unfold calcConstTemp. st. intros ->. reflexivity.
Qed.

Lemma calc_encSW (s : State) :
  encSW (calcReflowProfile s) = encSW s
  /\ encSW (calcTuning s) = encSW s
  /\ encSW (calcConstTemp s) = encSW s.
Proof.
  pose proof (calcReflowProfile_frame s) as H1.
  pose proof (calcTuning_frame s) as H2.
  pose proof (calcConstTemp_frame s) as H3.
  unfold edit_frame in *.
  injection H1. injection H2. injection H3. intros. auto.
Qed.

Lemma calcParameters_released (s : State) :
  encSW s = false -> staged (calcParameters s) = staged s.
Proof.
  intros H. unfold calcParameters. cbv zeta.
  destruct (calc_encSW s) as (E1 & _).
  destruct (menuIndex s =? 3).
  - destruct (calc_encSW (calcReflowProfile s)) as (_ & E2 & _).
    destruct (menuIndex (calcReflowProfile s) =? 4).
    + destruct (calc_encSW (calcTuning (calcReflowProfile s))) as (_ & _ & E3).
      destruct (menuIndex (calcTuning (calcReflowProfile s)) =? 98).
      * rewrite calcConstTemp_released, calcTuning_released,
          calcReflowProfile_released by congruence. reflexivity.
      * rewrite calcTuning_released, calcReflowProfile_released by congruence.
        reflexivity.
    + destruct (menuIndex (calcReflowProfile s) =? 98).
      * rewrite calcConstTemp_released, calcReflowProfile_released
          by congruence.
        reflexivity.
      * rewrite calcReflowProfile_released by congruence. reflexivity.
  - destruct (calc_encSW s) as (_ & E2 & E3).
    destruct (menuIndex s =? 4).
    + destruct (calc_encSW (calcTuning s)) as (_ & _ & E4).
      destruct (menuIndex (calcTuning s) =? 98).
      * rewrite calcConstTemp_released, calcTuning_released by congruence.
        reflexivity.
      * rewrite calcTuning_released by congruence. reflexivity.
    + destruct (menuIndex s =? 98).
      * rewrite calcConstTemp_released by congruence. reflexivity.
      * reflexivity.
Qed.

Lemma edited_released (inp : TickInput) (s : State) :
  button inp = false -> staged (edited inp s) = staged s.
Proof.
  intros H. unfold edited. cbv zeta.
  break_cond; [rewrite calcParameters_released|]; try reflexivity.
  change (encSW (readMenuCounter (set_encSW (button inp) s))) with (button inp).
  exact H.
Qed.

Lemma edited_params_released (inp : TickInput) (s : State) :
  button inp = false -> params (edited inp s) = params s.
Proof.
  intros H. pose proof (edited_released inp s H) as E.
  apply pair_equal_spec in E. apply E.
Qed.

(** *** The run logic leaves the operator's side alone *)

Lemma startRun_operator :
  forall inp s, operator_vars (startRun inp s) = operator_vars s.
Proof. intros inp s. destruct s. reflexivity. Qed.

Lemma notRunning_operator :
  forall inp s, operator_vars (notRunning inp s) = operator_vars s.
Proof. intros inp. unfold notRunning, readThermistor. block_frame. Qed.

Lemma secondCounter_operator :
  forall now s, operator_vars (secondCounter now s) = operator_vars s.
Proof. intros now. unfold secondCounter. block_frame. Qed.

Lemma reflowSwitch_operator :
  forall s, operator_vars (reflowSwitch s) = operator_vars s.
Proof. unfold reflowSwitch. block_frame. Qed.

Lemma pidLoop1_operator :
  forall now s, operator_vars (pidLoop1 now s) = operator_vars s.
Proof. reflexivity. Qed.

Lemma pidLoop2_operator :
  forall now s, operator_vars (pidLoop2 now s) = operator_vars s.
Proof. reflexivity. Qed.

Lemma reflowRunning_operator (inp : TickInput) (s : State) :
  operator_vars (reflowRunning inp s) = operator_vars s.
Proof.
  unfold reflowRunning. cbv zeta.
  rewrite pidLoop2_operator, pidLoop1_operator, reflowSwitch_operator,
    secondCounter_operator.
  destruct s. reflexivity.
Qed.

Lemma constTempRunning_operator (inp : TickInput) (s : State) :
  operator_vars (constTempRunning inp s) = operator_vars s.
Proof.
  unfold constTempRunning. cbv zeta.
  rewrite pidLoop2_operator, pidLoop1_operator.
  destruct s. reflexivity.
Qed.

Lemma runPhase_operator (inp : TickInput) (s : State) :
  operator_vars (runPhase inp s) = operator_vars s.
Proof.
  unfold runPhase. cbv zeta.
  change (operator_vars (set_runningBuffer ?b ?x)) with (operator_vars x).
  repeat break_cond;
    rewrite ?reflowRunning_operator, ?constTempRunning_operator,
      ?notRunning_operator, ?startRun_operator; reflexivity.
Qed.

(** *** The display *)

Lemma updateDisplay_shown : forall s, shown (updateDisplay s) = shown s.
Proof. unfold updateDisplay. block_frame. Qed.

(** *** The menus *)

Lemma screen_cases (i : Z) :
  i = 0 \/ i = 1 \/ i = 2 \/ i = 3 \/ i = 4 \/ i = 5 \/ i = 98 \/ i = 99
  \/ no_screen i.
Proof.
  destruct i as [|p|p]; [auto | | do 8 right; intros A; reflexivity].
  do 7 (try destruct p as [p|p|]);
    first [ solve [repeat (first [left; reflexivity | right])]
          | do 8 right; intros A; intros; reflexivity ].
Qed.

Lemma saveConfiguration_menu (s : State) :
  (cursor (saveConfiguration s), params (saveConfiguration s))
  = (2, 1, selectFlag s, startConfirm s, running s, runningMode s,
     selectIndexMax s, params s).
Proof. unfold saveConfiguration. cbn [for_loop]. destruct s. reflexivity. Qed.

Lemma updateCursorPosition_menu (s : State) :
  (cursor (updateCursorPosition s), params (updateCursorPosition s))
  = (nav_step (encSW s) (nav s), selectIndexMax s, params s).
Proof.
  destruct s. unfold updateCursorPosition, cursor, nav, nav_step. st.
  match goal with
  | |- context [match ?i with _ => _ end] =>
      destruct (screen_cases i)
        as [->|[->|[->|[->|[->|[->|[->|[->|H]]]]]]]]
  end.
  9: rewrite !H; reflexivity.
  all: unfold confirmNo, confirmYes, runScreen; st.
  all: try match goal with
           | |- context [saveConfiguration] => apply saveConfiguration_menu
           end.
  all: repeat (break_inner; st); reflexivity.
Qed.

Lemma updateCursorPosition_EEPROM (s : State) :
  menuIndex s <> 5 -> EEPROM (updateCursorPosition s) = EEPROM s.
Proof.
  destruct s. unfold updateCursorPosition. st. intros N.
  match goal with
  | |- context [match ?i with _ => _ end] =>
      destruct (screen_cases i)
        as [->|[->|[->|[->|[->|[->|[->|[->|H]]]]]]]]
  end.
  9: rewrite !H; reflexivity.
  6: congruence.
  all: unfold confirmNo, confirmYes, runScreen; st.
  all: repeat (break_inner; st); reflexivity.
Qed.

(** *** One iteration of [loop()] *)

Lemma uiPhase_menu (inp : TickInput) (s : State) :
  nav (uiPhase inp s) = nav_step (button inp) (nav s)
  /\ selectIndexMax (updateCursorPosition (edited inp s)) = selectIndexMax s
  /\ params (uiPhase inp s) = params (edited inp s).
Proof.
  rewrite uiPhase_edited.
  pose proof (updateDisplay_shown (updateCursorPosition (edited inp s))) as Hd.
  pose proof (updateCursorPosition_menu (edited inp s)) as Hm.
  pose proof (edited_screen inp s) as He.
  destruct (edited_frame inp s) as (_ & _ & _ & _ & Hb).
  apply shown_eq in Hd. destruct Hd as (Hd1 & Hd2 & Hd3).
  apply pair_equal_spec in Hm. destruct Hm as (Hm1 & Hm2).
  apply cursor_eq in Hm1. destruct Hm1 as (Hm1 & Hm3).
  apply pair_equal_spec in He. destruct He as (He1 & _).
  apply cursor_eq in He1. destruct He1 as (He1 & He2).
  split; [|split].
  - rewrite Hd1, Hm1, Hb, He1. reflexivity.
  - rewrite Hm3. exact He2.
  - rewrite (params_eq _ _ Hd2 Hd3). exact Hm2.
Qed.

Lemma loop_menu (inp : TickInput) (s : State) :
  nav (loop inp s) = nav_step (button inp) (nav s)
  /\ params (loop inp s) = params (edited inp s).
Proof.
  rewrite loop_phases.
  pose proof (runPhase_operator inp (uiPhase inp s)) as H.
  apply operator_vars_eq in H. destruct H as (H1 & H2 & H3 & H4).
  destruct (uiPhase_menu inp s) as (E1 & E2 & E3).
  split.
  - rewrite H1. exact E1.
  - rewrite (params_eq _ _ H3 H4). exact E3.
Qed.

Lemma loop_EEPROM (inp : TickInput) (s : State) :
  menuIndex s <> 5 -> EEPROM (loop inp s) = EEPROM s.
Proof.
  intros N. rewrite loop_phases.
  pose proof (runPhase_operator inp (uiPhase inp s)) as H.
  apply operator_vars_eq in H. destruct H as (_ & _ & H3 & _).
  apply store_eq in H3. destruct H3 as (_ & _ & _ & ->).
  rewrite uiPhase_edited.
  pose proof (updateDisplay_shown (updateCursorPosition (edited inp s))) as Hd.
  apply shown_eq in Hd. destruct Hd as (_ & Hd2 & _).
  apply store_eq in Hd2. destruct Hd2 as (_ & _ & _ & ->).
  pose proof (edited_screen inp s) as He.
  apply pair_equal_spec in He. destruct He as (He1 & He2).
  apply cursor_eq in He1. destruct He1 as (He1 & _).
  apply nav_eq in He1. destruct He1 as (He1 & _).
  rewrite updateCursorPosition_EEPROM by congruence. exact He2.
Qed.

Lemma loop_operator (inp : TickInput) (s : State) :
  running (loop inp s) = running (uiPhase inp s)
  /\ runningMode (loop inp s) = runningMode (uiPhase inp s)
  /\ constTempSP (loop inp s) = constTempSP (uiPhase inp s).
Proof.
  rewrite loop_phases.
  pose proof (runPhase_operator inp (uiPhase inp s)) as E.
  apply operator_vars_eq in E. destruct E as (E1 & _ & E2 & _).
  apply nav_eq in E1. destruct E1 as (_ & _ & _ & _ & E1 & E1').
  apply store_eq in E2. destruct E2 as (_ & _ & E2 & _).
  auto.
Qed.

(** *** The menu transitions *)

Lemma nav_step_released (n : Z * Z * bool * bool * bool * bool) :
  fst (fst (fst (fst (fst n)))) <> 5 -> nav_step false n = n.
Proof.
  destruct n as [[[[[i c] f] sc] r] md]. cbn [fst]. intros N.
  unfold nav_step.
  destruct (screen_cases i) as [->|[->|[->|[->|[->|[->|[->|[->|H]]]]]]]];
    try reflexivity; [congruence | apply H].
Qed.

Lemma nav_step_cursor (b : bool) (i c : Z) (f sc r md : bool)
    (i' c' : Z) (f' sc' r' md' : bool) :
  nav_step b (i, c, f, sc, r, md) = (i', c', f', sc', r', md') ->
  i' <> i -> c' = 1.
Proof.
  unfold nav_step.
  destruct (screen_cases i) as [->|[->|[->|[->|[->|[->|[->|[->|H]]]]]]]].
  9: rewrite H; intros E; injection E; intros; congruence.
  all: cbv iota beta zeta.
  all: repeat break_inner; intros E; injection E; intros; congruence.
Qed.

Lemma nav_step_running (b : bool) (i c : Z) (f sc r md : bool)
    (i' c' : Z) (f' sc' r' md' : bool) :
  nav_step b (i, c, f, sc, r, md) = (i', c', f', sc', r', md') ->
  r' <> r ->
  i = 1 /\ b = true
  /\ ((c = 1 /\ r' = negb sc) \/ (c = 2 /\ r' = sc)).
Proof.
  unfold nav_step.
  destruct (screen_cases i) as [->|[->|[->|[->|[->|[->|[->|[->|H]]]]]]]].
  9: rewrite H; intros E; injection E; intros; congruence.
  all: cbv iota beta zeta.
  all: repeat break_inner; intros E; injection E; intros; subst;
    try congruence.
  all: rewrite ?Z.eqb_eq in *; subst; auto.
Qed.

Lemma is_screen_false (i : Z) : is_screen i = false -> no_screen i.
Proof.
  intros H.
  destruct (screen_cases i) as [->|[->|[->|[->|[->|[->|[->|[->|N]]]]]]]];
    try discriminate H. exact N.
Qed.

Lemma nav_step_no_screen (b : bool) (n : Z * Z * bool * bool * bool * bool) :
  is_screen (fst (fst (fst (fst (fst n))))) = false -> nav_step b n = n.
Proof.
  destruct n as [[[[[i c] f] sc] r] md]. cbn [fst]. intros H.
  unfold nav_step. apply (is_screen_false _ H).
Qed.

(** The same facts on states. *)

Lemma nav_cursor (b : bool) (s s' : State) :
  nav s' = nav_step b (nav s) ->
  menuIndex s' <> menuIndex s -> menuCounter s' = 1.
Proof.
  destruct s, s'. unfold nav. st. intros H N. symmetry in H.
  exact (@nav_step_cursor _ _ _ _ _ _ _ _ _ _ _ _ _ H N).
Qed.

Lemma nav_running (b : bool) (s s' : State) :
  nav s' = nav_step b (nav s) ->
  running s' <> running s ->
  menuIndex s = 1 /\ b = true
  /\ ((menuCounter s = 1 /\ running s' = negb (startConfirm s))
      \/ (menuCounter s = 2 /\ running s' = startConfirm s)).
Proof.
  destruct s, s'. unfold nav. st. intros H N. symmetry in H.
  exact (@nav_step_running _ _ _ _ _ _ _ _ _ _ _ _ _ H N).
Qed.

Lemma nav_released (s s' : State) :
  nav s' = nav_step false (nav s) -> menuIndex s <> 5 -> nav s' = nav s.
Proof.
  destruct s, s'. unfold nav. st. intros H N. rewrite H.
  apply nav_step_released. exact N.
Qed.

Lemma nav_no_screen (b : bool) (s s' : State) :
  nav s' = nav_step b (nav s) ->
  is_screen (menuIndex s) = false -> nav s' = nav s.
Proof.
  destruct s, s'. unfold nav. st. intros H N. rewrite H.
  apply nav_step_no_screen. exact N.
Qed.

(** X7. Without a button press an iteration of [loop()] changes
    nothing on the operator's side, the save screen apart: the screen,
    the cursor, the edit mode and the run flags, the profile, the
    tuning constants and the constant-temperature setpoint in memory,
    the pending encoder steps and the EEPROM are what they were.  An
    edit is staged in the working variables until the button is
    pressed, and a run neither starts nor stops by itself. *)
Theorem loop_released_changes_nothing (inp : TickInput) (s : State) :
  button inp = false ->
  menuIndex s <> 5 ->
  nav (loop inp s) = nav s
  /\ params (loop inp s) = params s
  /\ EEPROM (loop inp s) = EEPROM s.
Proof.
  intros Hb N. destruct (loop_menu inp s) as (Hn & Hp).
  split; [|split].
  - rewrite Hb in Hn. exact (nav_released _ _ Hn N).
  - rewrite Hp. apply edited_params_released. exact Hb.
  - apply loop_EEPROM. exact N.
Qed.

(** An edit of T1 in progress, 150 steps pending. *)
Lemma loop_released_changes_nothing_witness :
  let inp := tick false 1800 room in
  let s := exec edit_T1 (boot saved_defaults room) in
  selectFlag s = true
  /\ nav (loop inp s) = nav s
  /\ params (loop inp s) = params s
  /\ EEPROM (loop inp s) = EEPROM s.
Proof.
  cbv zeta. split; [vm_compute; reflexivity|].
  apply (@loop_released_changes_nothing (tick false 1800 room)
           (exec edit_T1 (boot saved_defaults room))).
  - reflexivity.
  - vm_compute. discriminate.
Defined.

(** X8. [loop()] changes [running] only from the confirm dialog and
    only with the button pressed: on NO it becomes the negation of
    [startConfirm] (a start request is dropped, a stop request leaves
    the run on), on YES it becomes [startConfirm] (a start request
    starts the run, a stop request stops it). *)
Theorem running_changes_only_in_confirm (inp : TickInput) (s : State) :
  running (loop inp s) <> running s ->
  menuIndex s = 1
  /\ button inp = true
  /\ ((menuCounter s = 1 /\ running (loop inp s) = negb (startConfirm s))
      \/ (menuCounter s = 2 /\ running (loop inp s) = startConfirm s)).
Proof.
  intros H. destruct (loop_menu inp s) as (Hn & _).
  exact (nav_running _ _ _ Hn H).
Qed.

(** YES on the confirm dialog of "Start Reflow". *)
Lemma running_changes_only_in_confirm_witness :
  let inp := tick true 1600 room in
  let s := exec (removelast start_reflow) (boot saved_defaults room) in
  running s = false
  /\ running (loop inp s) = true
  /\ menuIndex s = 1
  /\ button inp = true
  /\ ((menuCounter s = 1 /\ running (loop inp s) = negb (startConfirm s))
      \/ (menuCounter s = 2 /\ running (loop inp s) = startConfirm s)).
Proof.
  cbv zeta. split; [vm_compute; reflexivity|].
  split; [vm_compute; reflexivity|].
  apply (@running_changes_only_in_confirm (tick true 1600 room)
           (exec (removelast start_reflow) (boot saved_defaults room))).
  vm_compute. discriminate.
Defined.

(** X9. Whenever an iteration of [loop()] changes the screen, it
    leaves the cursor on the first item. *)
Theorem screen_change_resets_cursor (inp : TickInput) (s : State) :
  menuIndex (loop inp s) <> menuIndex s ->
  menuCounter (loop inp s) = 1.
Proof.
  intros H. destruct (loop_menu inp s) as (Hn & _).
  exact (nav_cursor _ _ _ Hn H).
Qed.

(** "Configuration", the third item of the main menu. *)
Lemma screen_change_resets_cursor_witness :
  let inp := tick true 1200 room in
  let s := exec ([release 1000] ++ turns 2) (boot saved_defaults room) in
  menuCounter s = 3
  /\ menuIndex s = 0
  /\ menuIndex (loop inp s) = 2
  /\ menuCounter (loop inp s) = 1.
Proof.
  cbv zeta. do 3 (split; [vm_compute; reflexivity|]).
  apply (@screen_change_resets_cursor (tick true 1200 room)
           (exec ([release 1000] ++ turns 2) (boot saved_defaults room))).
  vm_compute. discriminate.
Defined.

(** X10. A screen number that is none of the eight screens is
    absorbing: no iteration of [loop()], with the button pressed or
    released, changes the screen, the cursor, the edit mode or the run
    flags again.  Such a number is reached in [back_under_fault]: while
    a thermistor failure is displayed [selectIndexMax] keeps the item
    count of the screen shown before, and the configuration menu
    computes the next screen from the cursor. *)
Theorem unknown_screen_is_absorbing (inp : TickInput) (s : State) :
  is_screen (menuIndex s) = false ->
  nav (loop inp s) = nav s.
Proof.
  intros H. destruct (loop_menu inp s) as (Hn & _).
  exact (nav_no_screen _ _ _ Hn H).
Qed.

(** Screen 7, reached under a displayed thermistor failure. *)
Lemma unknown_screen_is_absorbing_witness :
  let s := exec back_under_fault (boot saved_defaults room) in
  menuIndex s = 7
  /\ nav (loop (tick true 12800 room) s) = nav s.
Proof.
  cbv zeta. split; [vm_compute; reflexivity|].
  apply (unknown_screen_is_absorbing (tick true 12800 room)
           (exec back_under_fault (boot saved_defaults room))).
  vm_compute. reflexivity.
Defined.

(** *** Tuning edits *)

(** X12. A committed edit of a PID tuning constant never stores a
    negative value: a sum below 0 is replaced by 0.  The commit clears
    the pending encoder steps. *)
Theorem tuning_commit_never_negative (s : State) :
  menuIndex s = 4 ->
  encSW s = true ->
  1 <= menuCounter s <= Z.of_nat (length (parametersPID s)) ->
  (0 <= arr_get 0%Q (parametersPID (calcParameters s)) (menuCounter s - 1))%Q
  /\ selectCounter (calcParameters s) = 0.
Proof.
  destruct s. st. intros -> -> Hc.
  unfold calcParameters. st. unfold calcTuning. st.
  rewrite arr_get_set_eq by lia.
  split; [|reflexivity].
  match goal with
  | |- context [Qlt_bool ?x 0] =>
      destruct (Qlt_bool_spec x 0) as [(-> & H)|(-> & H)]
  end; [discriminate | exact H].
Qed.

(** Kp1 = 3.30 turned down by 400 steps and committed. *)
Lemma tuning_commit_never_negative_witness :
  let s := set_encSW true
             (exec (edit_Kp1_down 400) (boot saved_defaults room)) in
  (0 <= arr_get 0%Q (parametersPID (calcParameters s)) (menuCounter s - 1))%Q
  /\ selectCounter (calcParameters s) = 0.
Proof.
  cbv zeta.
  apply (tuning_commit_never_negative
           (set_encSW true
              (exec (edit_Kp1_down 400) (boot saved_defaults room)))).
  - vm_compute; reflexivity.
  - vm_compute; reflexivity.
  - vm_compute. split; discriminate.
Defined.

(** ** The heaters *)

(** *** Not running *)

Lemma runPhase_idle (inp : TickInput) (s : State) :
  running s = false -> heaters_off (runPhase inp s).
Proof.
  intros H. unfold runPhase. cbv zeta.
  replace (if running s && negb (runningBuffer s) then startRun inp s else s)
    with s by (rewrite H; reflexivity).
  rewrite H. cbn [negb]. cbv iota.
  apply heaters_off_set_runningBuffer.
  destruct (notRunning_off inp s) as (Hoff & Hrun).
  rewrite Hrun, H. cbn [andb]. cbv iota. exact Hoff.
Qed.

(** X13. Every iteration of [loop()] that ends with [running] cleared
    ends with the heaters off: setpoint 0, both PID loops in MANUAL,
    both PID outputs 0 and both PWM duty cycles written as 0.  This
    includes the iteration in which the operator stops a run. *)
Theorem loop_idle_heaters_off (inp : TickInput) (s : State) :
  running (loop inp s) = false -> heaters_off (loop inp s).
Proof.
  rewrite loop_phases. intros H. apply runPhase_idle.
  pose proof (runPhase_operator inp (uiPhase inp s)) as E.
  apply operator_vars_eq in E. destruct E as (E & _).
  apply nav_eq in E. destruct E as (_ & _ & _ & _ & E & _).
  rewrite <- E. exact H.
Qed.

(** A reflow run stopped with YES on the confirm dialog. *)
Lemma loop_idle_heaters_off_witness :
  let inp := tick true 2000 room in
  let s := exec (start_reflow ++ [release 1800; press 1900] ++ turns 1)
             (boot saved_defaults room) in
  running s = true /\ heaters_off (loop inp s).
Proof.
  cbv zeta. split; [vm_compute; reflexivity|].
  apply (@loop_idle_heaters_off (tick true 2000 room)
           (exec (start_reflow ++ [release 1800; press 1900] ++ turns 1)
              (boot saved_defaults room))).
  vm_compute. reflexivity.
Defined.

Lemma isr_body_idle (k : Z) :
  forall s, (menuIndex (isr_body k s), running (isr_body k s))
            = (menuIndex s, running s).
Proof. unfold isr_body. block_frame. Qed.

Lemma loop_released_idle (inp : TickInput) (s : State) :
  button inp = false ->
  menuIndex s = 0 /\ running s = false ->
  menuIndex (loop inp s) = 0 /\ running (loop inp s) = false.
Proof.
  intros Hb (Hi & Hr). destruct (loop_menu inp s) as (Hn & _).
  rewrite Hb in Hn.
  assert (N : menuIndex s <> 5) by (rewrite Hi; discriminate).
  pose proof (nav_released _ _ Hn N) as E. apply nav_eq in E.
  destruct E as (E1 & _ & _ & _ & E2 & _). rewrite E1, E2. auto.
Qed.

Lemma exec_released_idle (evs : list Event) :
  forallb released evs = true ->
  forall s, menuIndex s = 0 /\ running s = false ->
            menuIndex (exec evs s) = 0 /\ running (exec evs s) = false.
Proof.
  induction evs as [|ev evs IH]; intros Hall s H; [exact H|].
  cbn [forallb] in Hall. apply andb_true_iff in Hall.
  destruct Hall as (Hev & Hall).
  cbn [exec fold_left]. apply (IH Hall). destruct ev; cbn [step released] in *.
  - apply loop_released_idle; [|exact H].
    destruct (button inp); [discriminate|reflexivity].
  - unfold isrEncCLK.
    pose proof (isr_body_idle
                  (if negb (Bool.eqb readDT readCLK) then 1 else -1) s) as E.
    apply pair_equal_spec in E. destruct E as (-> & ->). exact H.
  - unfold isrEncDT.
    pose proof (isr_body_idle
                  (if Bool.eqb readCLK readDT then 1 else -1) s) as E.
    apply pair_equal_spec in E. destruct E as (-> & ->). exact H.
Qed.

Lemma boot_idle (eeprom : Z -> Z) (a : Acquisition) :
  menuIndex (boot eeprom a) = 0 /\ running (boot eeprom a) = false.
Proof. split; reflexivity. Qed.

Lemma uiPhase_stays_idle (inp : TickInput) (s : State) :
  menuIndex s = 0 -> running s = false -> running (uiPhase inp s) = false.
Proof.
  intros Hi Hr. destruct (uiPhase_menu inp s) as (Hn & _).
  destruct (running (uiPhase inp s)) eqn:E; [|reflexivity].
  assert (N : running (uiPhase inp s) <> running s) by congruence.
  destruct (nav_running _ _ _ Hn N) as (H1 & _). congruence.
Qed.

(** X14. From power-on, after any number of [loop()] iterations with
    the button released and any encoder rotation, the first iteration
    that finds the button pressed still ends with the heaters off. *)
Theorem first_press_keeps_heaters_off (evs : list Event) (inp : TickInput)
    (eeprom : Z -> Z) (a : Acquisition) :
  forallb released evs = true ->
  heaters_off (loop inp (exec evs (boot eeprom a))).
Proof.
  intros Hall.
  destruct (exec_released_idle evs Hall _ (boot_idle eeprom a)) as (Hi & Hr).
  rewrite loop_phases. apply runPhase_idle.
  apply uiPhase_stays_idle; assumption.
Qed.

(** The first press, after two encoder steps. *)
Lemma first_press_keeps_heaters_off_witness :
  heaters_off
    (loop (tick true 1200 room)
       (exec ([release 1000] ++ turns 2) (boot saved_defaults room))).
Proof.
  apply (first_press_keeps_heaters_off ([release 1000] ++ turns 2)
           (tick true 1200 room) saved_defaults room).
  reflexivity.
Defined.

(** *** The duty cycle *)

Lemma clamp_range (p : PID.t) (x : Q) :
  PID.outMin p = 0%Q -> PID.outMax p = 255%Q ->
  (0 <= PID.clamp p x)%Q /\ (PID.clamp p x <= 255)%Q.
Proof.
  intros Hmin Hmax. unfold PID.clamp. rewrite Hmin, Hmax.
  destruct (Qlt_bool_spec 255 x) as [(-> & H1)|(-> & H1)].
  - split; [discriminate | apply Qle_refl].
  - destruct (Qlt_bool_spec x 0) as [(-> & H2)|(-> & H2)].
    + split; [apply Qle_refl | discriminate].
    + split; assumption.
Qed.

Lemma double_to_int_range (q : Q) :
  (0 <= q)%Q -> (q <= 255)%Q -> 0 <= double_to_int q <= 255.
Proof.
  destruct q as [n d]. unfold Qle, double_to_int, Qtrunc. cbn.
  intros H0 H1.
  assert (Hq : 0 <= n ÷ Z.pos d <= 255).
  { rewrite Z.quot_div_nonneg by lia. split.
    - apply Z.div_pos; lia.
    - apply Z.div_le_upper_bound; lia. }
  rewrite i16_id by lia. exact Hq.
Qed.

Lemma Compute_ok (now : Z) (input setpoint out : Q) (p : PID.t) (pwm : Z) :
  plate_ok p out pwm ->
  plate_ok (fst (PID.Compute now input setpoint out p))
    (snd (PID.Compute now input setpoint out p))
    (double_to_int (snd (PID.Compute now input setpoint out p))).
Proof.
  intros (Hmin & Hmax & H0 & H1 & Hp). unfold PID.Compute.
  destruct (negb (PID.inAuto p));
    [|destruct (PID.SampleTime p <=? u32 (now - PID.lastTime p))];
    cbn [fst snd PID.outMin PID.outMax].
  - repeat split; try assumption; apply double_to_int_range; assumption.
  - cbv zeta.
    repeat split; try assumption;
      try apply double_to_int_range;
      first [ apply (proj1 (clamp_range _ _ Hmin Hmax))
            | apply (proj2 (clamp_range _ _ Hmin Hmax)) ].
  - repeat split; try assumption; apply double_to_int_range; assumption.
Qed.

Lemma SetMode_ok (b : bool) (input output : Q) (p : PID.t) (out : Q) (pwm : Z) :
  plate_ok p out pwm -> plate_ok (PID.SetMode b input output p) out pwm.
Proof.
  intros (Hmin & Hmax & H). unfold PID.SetMode, PID.Initialize.
  destruct (b && negb (PID.inAuto p)); cbn [PID.outMin PID.outMax];
    repeat split; try assumption; apply H.
Qed.

Lemma plate_ok_zero (p : PID.t) (out : Q) (pwm : Z) :
  plate_ok p out pwm -> plate_ok p 0%Q 0 /\ plate_ok p 0%Q pwm.
Proof.
  intros (Hmin & Hmax & _ & _ & Hp).
  repeat split; try assumption; try discriminate; lia.
Qed.

Lemma drive_inv_control (a b : State) :
  control a = control b -> drive_inv a -> drive_inv b.
Proof.
  intros H. 
  pose proof (f_equal c_pid1 H) as H1. pose proof (f_equal c_pid2 H) as H2.
  pose proof (f_equal c_pwm H) as H3. cbn [control c_pid1 c_pid2 c_pwm] in *.
  apply pair_equal_spec in H1, H2, H3.
  destruct H1 as (H1 & H1p), H2 as (H2 & H2p), H3 as (H3 & H3').
  apply pair_equal_spec in H1, H2. destruct H1 as (_ & H1o), H2 as (_ & H2o).
  unfold drive_inv. rewrite H1p, H2p, H1o, H2o, H3, H3'. auto.
Qed.

Lemma setMode1_drive (b : bool) (s : State) :
  drive_inv s -> drive_inv (setMode1 b s).
Proof.
  destruct s. unfold drive_inv. st. intros (H1 & H2).
  split; [apply SetMode_ok; exact H1 | exact H2].
Qed.

Lemma setMode2_drive (b : bool) (s : State) :
  drive_inv s -> drive_inv (setMode2 b s).
Proof.
  destruct s. unfold drive_inv. st. intros (H1 & H2).
  split; [exact H1 | apply SetMode_ok; exact H2].
Qed.

Lemma pidLoop1_drive (now : Z) (s : State) :
  drive_inv s -> drive_inv (pidLoop1 now s).
Proof.
  destruct s. unfold drive_inv, pidLoop1. st. intros (H1 & H2).
  split; [|exact H2]. eapply Compute_ok. exact H1.
Qed.

Lemma pidLoop2_drive (now : Z) (s : State) :
  drive_inv s -> drive_inv (pidLoop2 now s).
Proof.
  destruct s. unfold drive_inv, pidLoop2. st. intros (H1 & H2).
  split; [exact H1|]. eapply Compute_ok. exact H2.
Qed.

Lemma readThermistor_drive (a : Acquisition) (s : State) :
  drive_inv s -> drive_inv (readThermistor a s).
Proof. destruct s. intros H. exact H. Qed.

Lemma secondCounter_drive (now : Z) (s : State) :
  drive_inv s -> drive_inv (secondCounter now s).
Proof.
  destruct s. unfold drive_inv, secondCounter. st. intros H.
  repeat (break_inner; st); exact H.
Qed.

Lemma reflowSwitch_drive (s : State) :
  drive_inv s -> drive_inv (reflowSwitch s).
Proof.
  destruct s. unfold drive_inv, reflowSwitch. st. intros (H1 & H2).
  pose proof (proj2 (plate_ok_zero _ _ _ H1)) as Z1.
  pose proof (proj2 (plate_ok_zero _ _ _ H2)) as Z2.
  repeat (break_inner; st); split; assumption.
Qed.

Lemma reflowRunning_drive (inp : TickInput) (s : State) :
  drive_inv s -> drive_inv (reflowRunning inp s).
Proof.
  intros H. unfold reflowRunning. cbv zeta.
  apply pidLoop2_drive, pidLoop1_drive, reflowSwitch_drive,
    secondCounter_drive, setMode2_drive, setMode1_drive, readThermistor_drive.
  exact H.
Qed.

Lemma constTempRunning_drive (inp : TickInput) (s : State) :
  drive_inv s -> drive_inv (constTempRunning inp s).
Proof.
  intros H. unfold constTempRunning. cbv zeta.
  apply pidLoop2_drive, pidLoop1_drive.
  change (drive_inv (setMode2 true (setMode1 true
            (set_pid_Setpoint
               (inject_Z (constTempSP (readThermistor (acq_run inp) s)))
               (readThermistor (acq_run inp) s))))).
  apply setMode2_drive, setMode1_drive.
  change (drive_inv (readThermistor (acq_run inp) s)).
  apply readThermistor_drive. exact H.
Qed.

Lemma startRun_drive (inp : TickInput) (s : State) :
  drive_inv s -> drive_inv (startRun inp s).
Proof. destruct s. intros H. exact H. Qed.

Lemma notRunning_drive (inp : TickInput) (s : State) :
  drive_inv s -> drive_inv (notRunning inp s).
Proof.
  destruct s. unfold drive_inv, notRunning, readThermistor. st.
  intros (H1 & H2).
  pose proof (proj1 (plate_ok_zero _ _ _ H1)) as Z1.
  pose proof (proj1 (plate_ok_zero _ _ _ H2)) as Z2.
  repeat (break_inner; st); (split; apply SetMode_ok; assumption).
Qed.

Lemma runPhase_drive (inp : TickInput) (s : State) :
  drive_inv s -> drive_inv (runPhase inp s).
Proof.
  intros H. unfold runPhase. cbv zeta.
  change (drive_inv (set_runningBuffer ?b ?x)) with (drive_inv x).
  set (s1 := if running s && negb (runningBuffer s) then startRun inp s else s).
  assert (H1 : drive_inv s1).
  { subst s1. destruct (running s && negb (runningBuffer s));
      [apply startRun_drive|]; exact H. }
  clearbody s1.
  set (s2 := if negb (running s1) then notRunning inp s1 else s1).
  assert (H2 : drive_inv s2).
  { subst s2.
    destruct (negb (running s1)); [apply notRunning_drive|]; exact H1. }
  clearbody s2.
  destruct (running s2 && runningMode s2);
    [apply reflowRunning_drive; exact H2|].
  destruct (running s2 && negb (runningMode s2));
    [apply constTempRunning_drive|]; exact H2.
Qed.

Lemma loop_drive (inp : TickInput) (s : State) :
  drive_inv s -> drive_inv (loop inp s).
Proof.
  intros H. rewrite loop_phases. apply runPhase_drive.
  apply (drive_inv_control s); [|exact H].
  symmetry. apply uiPhase_control.
Qed.

Lemma isr_body_control (k : Z) :
  forall s, control (isr_body k s) = control s.
Proof. unfold isr_body. block_frame. Qed.

Lemma boot_drive (eeprom : Z -> Z) (a : Acquisition) :
  drive_inv (boot eeprom a).
Proof.
  unfold drive_inv, plate_ok. cbn.
  repeat split; try reflexivity; try discriminate; lia.
Qed.

Lemma exec_drive (evs : list Event) :
  forall s, drive_inv s -> drive_inv (exec evs s).
Proof.
  induction evs as [|ev evs IH]; intros s H; [exact H|].
  cbn [exec fold_left]. apply IH. destruct ev; cbn [step].
  - apply loop_drive. exact H.
  - apply (drive_inv_control s); [|exact H]. symmetry. apply isr_body_control.
  - apply (drive_inv_control s); [|exact H]. symmetry. apply isr_body_control.
Qed.

(** X15. In every state reached from power-on by [loop()] iterations
    and encoder interrupts, for every input, the duty cycle last
    written to either PWM pin lies within 0..255: the PID outputs stay
    within the output limits of the PID objects, and the conversion to
    [int] keeps them there.  The executions are those in which no ramp
    of the profile in memory ever has the duration zero, as it has on
    an erased EEPROM: [reflowRunning] divides by the durations, and the
    division by zero of the floating-point code is not modelled. *)
Theorem pwm_duty_always_in_range (evs : list Event) (eeprom : Z -> Z)
    (a : Acquisition) :
  always ramps_timed (boot eeprom a) evs = true ->
  0 <= pwm1 (exec evs (boot eeprom a)) <= 255
  /\ 0 <= pwm2 (exec evs (boot eeprom a)) <= 255.
Proof.
  intros _.
  destruct (exec_drive evs _ (boot_drive eeprom a)) as (H1 & H2).
  split; [apply H1 | apply H2].
Qed.

(** The first control ticks of a reflow run of the saved defaults. *)
Lemma pwm_duty_always_in_range_witness :
  0 <= pwm1 (exec reflow_then_fault (boot saved_defaults room)) <= 255
  /\ 0 <= pwm2 (exec reflow_then_fault (boot saved_defaults room)) <= 255.
Proof.
  apply (pwm_duty_always_in_range reflow_then_fault saved_defaults room).
  vm_compute. reflexivity.
Defined.

(** *** Constant-temperature mode *)

Lemma Compute_inAuto (now : Z) (input setpoint out : Q) (p : PID.t) :
  PID.inAuto (fst (PID.Compute now input setpoint out p)) = PID.inAuto p.
Proof.
  unfold PID.Compute.
  destruct (negb (PID.inAuto p));
    [|destruct (PID.SampleTime p <=? u32 (now - PID.lastTime p))];
    reflexivity.
Qed.

Lemma constTempRunning_setpoint (inp : TickInput) (s : State) :
  pid_Setpoint (constTempRunning inp s) = inject_Z (constTempSP s)
  /\ PID.inAuto (hotPlate1PID (constTempRunning inp s)) = true
  /\ PID.inAuto (hotPlate2PID (constTempRunning inp s)) = true.
Proof.
  unfold constTempRunning. cbv zeta.
  split; [reflexivity|]. split.
  - match goal with
    | |- PID.inAuto (hotPlate1PID (pidLoop2 ?n2 (pidLoop1 ?n1 ?x))) = true =>
        change (PID.inAuto
                  (fst (PID.Compute n1 (steinhart1 x) (pid_Setpoint x)
                          (pid1_Output x) (hotPlate1PID x))) = true)
    end.
    rewrite Compute_inAuto. reflexivity.
  - match goal with
    | |- PID.inAuto (hotPlate2PID (pidLoop2 ?n2 ?x)) = true =>
        change (PID.inAuto
                  (fst (PID.Compute n2 (steinhart2 x) (pid_Setpoint x)
                          (pid2_Output x) (hotPlate2PID x))) = true)
    end.
    rewrite Compute_inAuto. reflexivity.
Qed.

Lemma runPhase_constTemp (inp : TickInput) (s : State) :
  running s = true ->
  runningMode s = false ->
  pid_Setpoint (runPhase inp s) = inject_Z (constTempSP s)
  /\ PID.inAuto (hotPlate1PID (runPhase inp s)) = true
  /\ PID.inAuto (hotPlate2PID (runPhase inp s)) = true.
Proof.
  intros Hr Hm. unfold runPhase.
  set (s1 := if running s && negb (runningBuffer s) then startRun inp s else s).
  assert (H1 : running s1 = true /\ runningMode s1 = false
                /\ constTempSP s1 = constTempSP s).
  { subst s1. break_cond; repeat split; assumption. }
  destruct H1 as (H1 & H2 & H3). clearbody s1.
  cbv zeta. rewrite H1. cbn [negb]. cbv iota. rewrite H1, H2. cbn [andb negb].
  cbv iota. rewrite <- H3.
  change (pid_Setpoint (constTempRunning inp s1) = inject_Z (constTempSP s1)
          /\ PID.inAuto (hotPlate1PID (constTempRunning inp s1)) = true
          /\ PID.inAuto (hotPlate2PID (constTempRunning inp s1)) = true).
  apply constTempRunning_setpoint.
Qed.

(** X16. Every iteration of [loop()] that ends with a
    constant-temperature run active leaves the PID setpoint equal to
    [constTempSP] as it stands at the end of the iteration (an edit
    committed in the same iteration included) and both PID loops in
    AUTOMATIC. *)
Theorem loop_constant_mode_setpoint (inp : TickInput) (s : State) :
  running (loop inp s) = true ->
  runningMode (loop inp s) = false ->
  pid_Setpoint (loop inp s) = inject_Z (constTempSP (loop inp s))
  /\ PID.inAuto (hotPlate1PID (loop inp s)) = true
  /\ PID.inAuto (hotPlate2PID (loop inp s)) = true.
Proof.
  destruct (loop_operator inp s) as (-> & -> & ->).
  rewrite loop_phases. apply runPhase_constTemp.
Qed.

(** A control tick of a constant-temperature run at 35 degrees. *)
Lemma loop_constant_mode_setpoint_witness :
  let inp := tick false 4200 room in
  let s := exec (removelast edit_Kp1_then_run) (boot saved_defaults room) in
  pid_Setpoint (loop inp s) = inject_Z (constTempSP (loop inp s))
  /\ PID.inAuto (hotPlate1PID (loop inp s)) = true
  /\ PID.inAuto (hotPlate2PID (loop inp s)) = true.
Proof.
  cbv zeta.
  apply (loop_constant_mode_setpoint (tick false 4200 room)
           (exec (removelast edit_Kp1_then_run) (boot saved_defaults room)));
    vm_compute; reflexivity.
Defined.

(** *** Readings below the range *)

(** X17. During a run, a reading below -20 degrees raises the failure
    flag of its thermistor in the same iteration of [loop()], whatever
    the local counter of [readThermistor] holds. *)
Theorem loop_flags_reading_below_range (inp : TickInput) (s : State) :
  running (loop inp s) = true ->
  ((temp1 (acq_run inp) < -20)%Q -> thermistor1Fail (loop inp s) = true)
  /\ ((temp2 (acq_run inp) < -20)%Q -> thermistor2Fail (loop inp s) = true).
Proof.
  destruct (loop_operator inp s) as (-> & _). rewrite loop_phases. intros H.
  pose proof (runPhase_sensed inp _ H) as Hs.
  apply sensed_eq in Hs. destruct Hs as (-> & -> & _).
  unfold fault_of.
  split; intros Ht; rewrite (Qlt_bool_true _ _ Ht); reflexivity.
Qed.

(** Thermistor 1 reads open circuit on the third tick of a reflow run. *)
Lemma loop_flags_reading_below_range_witness :
  let inp := tick false 2000 open_circuit1 in
  let s := exec (removelast reflow_then_fault) (boot saved_defaults room) in
  thermistor1Fail s = false /\ thermistor1Fail (loop inp s) = true.
Proof.
  cbv zeta. split; [vm_compute; reflexivity|].
  apply (loop_flags_reading_below_range (tick false 2000 open_circuit1)
           (exec (removelast reflow_then_fault) (boot saved_defaults room))).
  - vm_compute; reflexivity.
  - vm_compute; reflexivity.
Defined.

(** ** The reflow state machine on any profile *)

(** What the state machine finds when a control tick reaches it. *)

Lemma before_switch (inp : TickInput) (s : State) :
  let x := secondCounter (ms_timer inp)
             (setMode2 true (setMode1 true (readThermistor (acq_run inp) s))) in
  machine x = machine s
  /\ (runningSecondCounter x = runningSecondCounter s
      \/ (runningSecondCounter x = i16 (runningSecondCounter s + 1)
          /\ runningState s < 5
          /\ 1000 < u32 (ms_timer inp - time_now s))).
Proof.
  destruct s. unfold machine, secondCounter, readThermistor. st.
  repeat (break_inner; st); split; try reflexivity; auto.
  right. split; [reflexivity|].
  split; [apply Z.ltb_lt|apply Z.ltb_lt]; assumption.
Qed.

Lemma reflowSwitch_counter :
  forall s, runningSecondCounter (reflowSwitch s) = runningSecondCounter s.
Proof. unfold reflowSwitch. block_frame. Qed.

Lemma reflowSwitch_state (s : State) :
  runningState (reflowSwitch s) = runningState s
  \/ (runningState (reflowSwitch s) = runningState s + 1
      /\ 1 <= runningState s <= 4).
Proof.
  destruct s. unfold reflowSwitch. st.
  repeat (break_inner; st);
    first [ left; reflexivity | right; split; [reflexivity | lia] ].
Qed.

Lemma reflowSwitch_snapshot :
  forall s, initTempSnapshot (reflowSwitch s) = initTempSnapshot s.
Proof. unfold reflowSwitch. block_frame. Qed.

Lemma reflowSwitch_segment (s : State) (t0 : Z) (T0 : Q) (t1 : Z) (T1 : Q) :
  segment s = Some (t0, T0, t1, T1) ->
  t1 <> t0 ->
  runningSecondCounter s = t0 ->
  (pid_Setpoint (reflowSwitch s) == T0)%Q.
Proof.
  destruct s. unfold segment, P. st. intros H N Hc.
  apply inject_Z_sub_neq in N.
  repeat match type of H with
         | match ?p with _ => _ end = _ => destruct p; try discriminate H
         end;
    injection H; intros; subst; clear H;
    unfold reflowSwitch, P; st;
    break_inner; st; change (inject_Z 0) with 0%Q in *;
    field; intros E; apply N; lra.
Qed.

Lemma reflowRunning_progress (inp : TickInput) (s : State) :
  (runningState (reflowRunning inp s) = runningState s
   \/ (runningState (reflowRunning inp s) = runningState s + 1
       /\ 1 <= runningState s <= 4))
  /\ (runningSecondCounter (reflowRunning inp s) = runningSecondCounter s
      \/ (runningSecondCounter (reflowRunning inp s)
            = i16 (runningSecondCounter s + 1)
          /\ runningState s < 5
          /\ 1000 < u32 (ms_timer inp - time_now s)))
  /\ initTempSnapshot (reflowRunning inp s) = initTempSnapshot s.
Proof.
  pose proof (reflowRunning_prof inp s) as H.
  pose proof (prof_eq _ _ H) as (E1 & E2 & _).
  apply prof_inv in H. destruct H as (_ & E3 & _).
  rewrite E1, E2, E3, reflowSwitch_counter, reflowSwitch_snapshot.
  destruct (before_switch inp s) as (Hm & Hc).
  unfold machine in Hm. apply pair_equal_spec in Hm. destruct Hm as (Hm & Hs).
  apply pair_equal_spec in Hm. destruct Hm as (_ & Hi).
  split; [|split; [exact Hc | exact Hi]].
  rewrite <- Hs. apply reflowSwitch_state.
Qed.

(** X18. For every profile, one control tick of [reflowRunning] leaves
    the state of the reflow state machine where it was or advances it
    by exactly one, and only from the states 1 to 4: the machine never
    goes back, never skips a state and stays in COOLING (5) once
    there. *)
Theorem reflow_state_only_advances (inp : TickInput) (s : State) :
  runningState (reflowRunning inp s) = runningState s
  \/ (runningState (reflowRunning inp s) = runningState s + 1
      /\ 1 <= runningState s <= 4).
Proof. apply reflowRunning_progress. Qed.

(** X19. One control tick of [reflowRunning] leaves the second counter
    where it was or adds one to it, and adds one only before COOLING
    and only when more than 1000 ms have passed since the timer was
    last restarted. *)
Theorem reflow_counter_steps (inp : TickInput) (s : State) :
  runningSecondCounter (reflowRunning inp s) = runningSecondCounter s
  \/ (runningSecondCounter (reflowRunning inp s)
        = i16 (runningSecondCounter s + 1)
      /\ runningState s < 5
      /\ 1000 < u32 (ms_timer inp - time_now s)).
Proof. apply reflowRunning_progress. Qed.

(** X20. In each heating state of the reflow state machine (RAMP,
    SOAK, REFLOW RAMP), for every profile whose ramp has a duration
    other than zero, a control tick that ends with the second counter
    at the start time of the ramp leaves the setpoint at the start
    temperature of the ramp: the snapshot of the plate temperature for
    RAMP, the target of the ramp before it for SOAK and REFLOW RAMP. *)
Theorem reflow_setpoint_at_ramp_start (inp : TickInput) (s : State)
    (t0 : Z) (T0 : Q) (t1 : Z) (T1 : Q) :
  segment s = Some (t0, T0, t1, T1) ->
  t1 <> t0 ->
  runningSecondCounter (reflowRunning inp s) = t0 ->
  (pid_Setpoint (reflowRunning inp s) == T0)%Q.
Proof.
  intros Hs N Hc.
  pose proof (reflowRunning_prof inp s) as H. apply prof_eq in H.
  destruct H as (_ & Ec & ->). rewrite Ec, reflowSwitch_counter in Hc.
  apply (reflowSwitch_segment _ t0 T0 t1 T1); [|exact N|exact Hc].
  destruct (before_switch inp s) as (Hm & _). rewrite <- Hs.
  unfold machine in Hm. apply pair_equal_spec in Hm. destruct Hm as (Hm & E3).
  apply pair_equal_spec in Hm. destruct Hm as (E1 & E2).
  unfold segment, P. rewrite E1, E2, E3. reflexivity.
Qed.

(** The first control tick of a run from 25 degrees, taken before the
    timer has elapsed. *)
Lemma reflow_setpoint_at_ramp_start_witness :
  (pid_Setpoint (reflowRunning (tick false 500 room) started)
   == initTempSnapshot started)%Q.
Proof.
  apply (reflow_setpoint_at_ramp_start (tick false 500 room) started
           0 (initTempSnapshot started) 100 115).
  - vm_compute. reflexivity.
  - discriminate.
  - vm_compute. reflexivity.
Defined.

(** *** The initialisation of a run *)

Lemma constTempRunning_machine (inp : TickInput) (s : State) :
  runningState (constTempRunning inp s) = runningState s
  /\ runningSecondCounter (constTempRunning inp s) = runningSecondCounter s
  /\ initTempSnapshot (constTempRunning inp s) = initTempSnapshot s.
Proof. repeat split; reflexivity. Qed.

Lemma startRun_init (inp : TickInput) (s : State) :
  runningState (startRun inp s) = 1
  /\ runningSecondCounter (startRun inp s) = 0
  /\ initTempSnapshot (startRun inp s)
     = ((temp1 (acq_loop inp) + temp2 (acq_loop inp)) / 2)%Q
  /\ running (startRun inp s) = running s
  /\ runningMode (startRun inp s) = runningMode s.
Proof. repeat split; reflexivity. Qed.

Lemma runPhase_start (inp : TickInput) (s : State) :
  running s = true ->
  runningBuffer s = false ->
  initTempSnapshot (runPhase inp s)
  = ((temp1 (acq_loop inp) + temp2 (acq_loop inp)) / 2)%Q
  /\ (runningState (runPhase inp s) = 1 \/ runningState (runPhase inp s) = 2)
  /\ (runningSecondCounter (runPhase inp s) = 0
      \/ runningSecondCounter (runPhase inp s) = 1).
Proof.
  intros Hr Hb. unfold runPhase.
  replace (if running s && negb (runningBuffer s) then startRun inp s else s)
    with (startRun inp s) by (rewrite Hr, Hb; reflexivity).
  destruct (startRun_init inp s) as (E1 & E2 & E3 & E4 & E5).
  rewrite Hr in E4. set (s1 := startRun inp s) in *. clearbody s1.
  cbv zeta. rewrite E4. cbn [negb]. cbv iota. rewrite E4. cbn [andb].
  change (initTempSnapshot (set_runningBuffer ?b ?x)) with (initTempSnapshot x).
  change (runningState (set_runningBuffer ?b ?x)) with (runningState x).
  change (runningSecondCounter (set_runningBuffer ?b ?x))
    with (runningSecondCounter x).
  destruct (runningMode s1); cbn [negb]; cbv iota.
  - destruct (reflowRunning_progress inp s1) as (Hs & Hc & ->).
    rewrite E1, E2 in *. split; [exact E3|]. split.
    + destruct Hs as [->|(-> & _)]; auto.
    + destruct Hc as [->|(-> & _)]; auto.
  - destruct (constTempRunning_machine inp s1) as (-> & -> & ->).
    rewrite E1, E2. auto.
Qed.

(** X21. The iteration of [loop()] in which a run becomes active, in
    either mode, takes the snapshot of the initial temperature as the
    mean of the two readings of that iteration and restarts the state
    machine: at its end the state is RAMP (or SOAK, for a profile whose
    ramp time has already passed) and the second counter is 0 or 1. *)
Theorem run_start_initialisation (inp : TickInput) (s : State) :
  runningBuffer s = false ->
  running (loop inp s) = true ->
  initTempSnapshot (loop inp s)
  = ((temp1 (acq_loop inp) + temp2 (acq_loop inp)) / 2)%Q
  /\ (runningState (loop inp s) = 1 \/ runningState (loop inp s) = 2)
  /\ (runningSecondCounter (loop inp s) = 0
      \/ runningSecondCounter (loop inp s) = 1).
Proof.
  intros Hb. destruct (loop_operator inp s) as (-> & _).
  rewrite loop_phases. intros Hr. apply runPhase_start; [exact Hr|].
  pose proof (uiPhase_control inp s) as Hc.
  apply (f_equal c_runningBuffer) in Hc. exact (eq_trans Hc Hb).
Qed.

(** A reflow run confirmed with the plates at 30 and 50 degrees. *)
Lemma run_start_initialisation_witness :
  let inp := tick true 1600 uneven in
  let s := exec (removelast start_reflow) (boot saved_defaults room) in
  (initTempSnapshot (loop inp s) == 40)%Q
  /\ initTempSnapshot (loop inp s)
     = ((temp1 (acq_loop inp) + temp2 (acq_loop inp)) / 2)%Q
  /\ (runningState (loop inp s) = 1 \/ runningState (loop inp s) = 2)
  /\ (runningSecondCounter (loop inp s) = 0
      \/ runningSecondCounter (loop inp s) = 1).
Proof.
  cbv zeta. split; [vm_compute; reflexivity|].
  apply (run_start_initialisation (tick true 1600 uneven)
           (exec (removelast start_reflow) (boot saved_defaults room)));
    vm_compute; reflexivity.
Defined.

(* ================================================================== *)
(** * The reflow profile through the iterations of [loop()] *)
(* ================================================================== *)

Lemma prof_parts (a b : State) :
  prof a = prof b ->
  parametersReflow a = parametersReflow b
  /\ initTempSnapshot a = initTempSnapshot b
  /\ runningState a = runningState b
  /\ runningSecondCounter a = runningSecondCounter b
  /\ time_now a = time_now b
  /\ pid_Setpoint a = pid_Setpoint b.
Proof. intros H. exact (@prof_inv a _ _ _ _ _ _ H). Qed.

Lemma control_prof (a b : State) :
  control a = control b ->
  parametersReflow a = parametersReflow b ->
  prof a = prof b /\ runningBuffer a = runningBuffer b.
Proof.
  intros H Hp. unfold prof. rewrite Hp.
  pose proof (f_equal c_runningBuffer H) as E0.
  pose proof (f_equal c_runningState H) as E1.
  pose proof (f_equal c_runningSecondCounter H) as E2.
  pose proof (f_equal c_time_now H) as E3.
  pose proof (f_equal c_initTempSnapshot H) as E4.
  pose proof (f_equal c_pid_Setpoint H) as E5.
  cbn [control c_runningBuffer c_runningState c_runningSecondCounter
       c_time_now c_initTempSnapshot c_pid_Setpoint] in *.
  rewrite E1, E2, E3, E4, E5. split; [reflexivity | exact E0].
Qed.

Lemma run_inv_prof (a b : State) : prof a = prof b -> run_inv b -> run_inv a.
Proof.
  intros E H. destruct (prof_parts a b E) as (E1 & E2 & E3 & E4 & _).
  unfold run_inv, stage_ok in *. rewrite E1, E2, E3, E4. exact H.
Qed.

Lemma setpoint_by_counter_prof (a b : State) :
  prof a = prof b -> setpoint_by_counter b -> setpoint_by_counter a.
Proof.
  intros E H. destruct (prof_parts a b E) as (_ & _ & _ & E4 & _ & E6).
  unfold setpoint_by_counter in *. rewrite E4, E6. exact H.
Qed.

(** The run logic of an iteration that finds a reflow run requested:
    the run is initialised if it was not active before, and one control
    tick of [reflowRunning] is taken. *)
Lemma runPhase_reflow (inp : TickInput) (s : State) :
  running s = true ->
  runningMode s = true ->
  prof (runPhase inp s)
  = prof (reflowRunning inp (if runningBuffer s then s else startRun inp s))
  /\ runningBuffer (runPhase inp s) = true.
Proof.
  intros Hr Hm. unfold runPhase.
  replace (if running s && negb (runningBuffer s) then startRun inp s else s)
    with (if runningBuffer s then s else startRun inp s)
    by (rewrite Hr; destruct (runningBuffer s); reflexivity).
  set (s1 := if runningBuffer s then s else startRun inp s).
  assert (H1 : running s1 = true /\ runningMode s1 = true).
  { subst s1. destruct (runningBuffer s); split; assumption. }
  destruct H1 as (H1 & H2). clearbody s1.
  cbv zeta. rewrite H1. cbn [negb]. cbv iota. rewrite H1, H2. cbn [andb].
  cbv iota.
  change (prof (reflowRunning inp s1) = prof (reflowRunning inp s1)
          /\ running (reflowRunning inp s1) = true).
  split; [reflexivity|].
  pose proof (reflowRunning_operator inp s1) as E.
  apply operator_vars_eq in E. destruct E as (E & _).
  apply nav_eq in E. destruct E as (_ & _ & _ & _ & E & _).
  rewrite E. exact H1.
Qed.

Lemma edited_off_screen (inp : TickInput) (s : State) :
  menuIndex s = 1 -> parametersReflow (edited inp s) = parametersReflow s.
Proof.
  intros H. unfold edited. cbv zeta.
  destruct (selectFlag (readMenuCounter (set_encSW (button inp) s)));
    [|reflexivity].
  unfold calcParameters. cbv zeta.
  do 3 (change (menuIndex (readMenuCounter (set_encSW (button inp) s)))
          with (menuIndex s);
        rewrite H; cbn [Z.eqb Pos.eqb]; cbv iota).
  reflexivity.
Qed.

Lemma fired_time_now (inp : TickInput) (a b : State) :
  time_now a = time_now b ->
  fired inp a = fired inp b /\ restarted inp a = restarted inp b.
Proof. intros E. unfold restarted, fired. rewrite E. split; reflexivity. Qed.

(** The iteration in which the operator confirms the run. *)
Lemma loop_start (inp : TickInput) (s : State) :
  confirming_reflow s ->
  button inp = true ->
  ((temp1 (acq_loop inp) + temp2 (acq_loop inp)) / 2 == 25)%Q ->
  active_reflow (loop inp s)
  /\ run_inv (loop inp s)
  /\ setpoint_by_counter (loop inp s)
  /\ runningSecondCounter (loop inp s) = (if fired inp s then 1 else 0)
  /\ time_now (loop inp s) = restarted inp s.
Proof.
  intros (Hi & Hc & Hsc & Hm & Hr & Hb & Hp) Hbtn Ht.
  rewrite loop_phases.
  destruct (uiPhase_menu inp s) as (Hn & _ & Hpar).
  pose proof (uiPhase_control inp s) as Hctl.
  apply params_parts in Hpar. destruct Hpar as (Hpar & _).
  rewrite (edited_off_screen inp s Hi) in Hpar.
  destruct (control_prof _ _ Hctl Hpar) as (Eprof & Ebuf).
  unfold nav at 2 in Hn. rewrite Hbtn, Hi, Hc, Hsc, Hm in Hn.
  cbn [nav_step Z.eqb Pos.eqb] in Hn.
  assert (Hu : menuIndex (uiPhase inp s) = 99
               /\ running (uiPhase inp s) = true
               /\ runningMode (uiPhase inp s) = true).
  { unfold nav in Hn. injection Hn. auto. }
  clear Hn. destruct Hu as (Hui & Hur & Hum).
  rewrite Hb in Ebuf. rewrite Hp in Hpar.
  destruct (prof_parts _ _ Eprof) as (_ & _ & _ & _ & Etn & _).
  set (u := uiPhase inp s) in *. clearbody u.
  destruct (runPhase_reflow inp u Hur Hum) as (Er & Erb).
  rewrite Ebuf in Er.
  pose proof (runPhase_operator inp u) as Eo.
  apply operator_vars_eq in Eo. destruct Eo as (Eo & _).
  apply nav_eq in Eo. destruct Eo as (Eoi & _ & _ & _ & Eor & Eom).
  pose proof (@startRun_run_started inp u Hpar Ht) as Hst.
  pose proof (@run_started_inv (startRun inp u) Hst) as Hinv.
  destruct Hst as (_ & Hst1 & Hst0 & _).
  destruct (@tick_step inp (startRun inp u) Hinv) as (Ti & Tsp & Tc & Tt & _).
  rewrite Hst1, Hst0 in Tc. rewrite Hst1 in Tt.
  change (1 <? 5) with true in Tc, Tt. cbv iota in Tc, Tt.
  assert (Etn' : time_now (startRun inp u) = time_now s) by exact Etn.
  destruct (fired_time_now inp _ _ Etn') as (Ef & Ers).
  rewrite Ef in Tc. rewrite Ers in Tt.
  destruct (prof_parts _ _ Er) as (_ & _ & _ & Ec & Et2 & _).
  split; [|split; [|split; [|split]]].
  - unfold active_reflow. rewrite Eor, Eom, Eoi. auto.
  - exact (run_inv_prof _ _ Er Ti).
  - exact (setpoint_by_counter_prof _ _ Er Tsp).
  - rewrite Ec. exact Tc.
  - rewrite Et2. exact Tt.
Qed.

(** A later iteration of an active reflow run, the button released. *)
Lemma loop_tick (inp : TickInput) (s : State) :
  active_reflow s ->
  run_inv s ->
  button inp = false ->
  active_reflow (loop inp s)
  /\ run_inv (loop inp s)
  /\ setpoint_by_counter (loop inp s)
  /\ runningSecondCounter (loop inp s)
     = (if runningState s <? 5 then
          if fired inp s then runningSecondCounter s + 1
          else runningSecondCounter s
        else runningSecondCounter s)
  /\ time_now (loop inp s)
     = (if runningState s <? 5 then restarted inp s else time_now s)
  /\ (runningState s = 5 ->
      runningState (loop inp s) = 5 /\ (pid_Setpoint (loop inp s) == 0)%Q).
Proof.
  intros (Hr & Hb & Hm & Hi) Hinv Hbtn.
  rewrite loop_phases.
  destruct (uiPhase_menu inp s) as (Hn & _ & Hpar).
  pose proof (uiPhase_control inp s) as Hctl.
  rewrite (edited_params_released inp s Hbtn) in Hpar.
  apply params_parts in Hpar. destruct Hpar as (Hpar & _).
  destruct (control_prof _ _ Hctl Hpar) as (Eprof & Ebuf).
  rewrite Hbtn in Hn.
  apply nav_released in Hn; [|rewrite Hi; discriminate].
  apply nav_eq in Hn. destruct Hn as (Hui & _ & _ & _ & Hur & Hum).
  rewrite Hi in Hui. rewrite Hr in Hur. rewrite Hm in Hum. rewrite Hb in Ebuf.
  pose proof (run_inv_prof _ _ Eprof Hinv) as Hinvu.
  destruct (prof_parts _ _ Eprof) as (_ & _ & Est & Ecn & Etn & _).
  destruct (fired_time_now inp _ _ Etn) as (Ef & Ers).
  set (u := uiPhase inp s) in *. clearbody u.
  destruct (runPhase_reflow inp u Hur Hum) as (Er & Erb).
  rewrite Ebuf in Er.
  pose proof (runPhase_operator inp u) as Eo.
  apply operator_vars_eq in Eo. destruct Eo as (Eo & _).
  apply nav_eq in Eo. destruct Eo as (Eoi & _ & _ & _ & Eor & Eom).
  destruct (@tick_step inp u Hinvu) as (Ti & Tsp & Tc & Tt & Tcool).
  rewrite Est, Ef, Ecn in Tc. rewrite Est, Ers, Etn in Tt.
  rewrite Est in Tcool.
  destruct (prof_parts _ _ Er) as (_ & _ & Es2 & Ec & Et2 & Esp).
  split; [|split; [|split; [|split; [|split]]]].
  - unfold active_reflow. rewrite Eor, Eom, Eoi. auto.
  - exact (run_inv_prof _ _ Er Ti).
  - exact (setpoint_by_counter_prof _ _ Er Tsp).
  - rewrite Ec. exact Tc.
  - rewrite Et2. exact Tt.
  - intros H5. rewrite Es2, Esp. exact (Tcool H5).
Qed.

Lemma loops_app (l1 l2 : list TickInput) (s : State) :
  loops s (l1 ++ l2) = loops (loops s l1) l2.
Proof.
  revert s. induction l1 as [|inp l1 IH]; intros s; [reflexivity|].
  cbn [app loops]. apply IH.
Qed.

Lemma state_at_succ (s0 : State) (sched : nat -> TickInput) (t : nat) :
  state_at s0 sched (S t) = loop (sched (S t)) (state_at s0 sched t).
Proof.
  unfold state_at. rewrite (seq_S (S t)), map_app, loops_app.
  reflexivity.
Qed.

(** The run stays active and on its profile in every iteration. *)
Lemma state_at_inv (s0 : State) (sched : nat -> TickInput) :
  confirming_reflow s0 ->
  confirmed_at_25 sched ->
  forall t : nat,
    active_reflow (state_at s0 sched t)
    /\ run_inv (state_at s0 sched t)
    /\ setpoint_by_counter (state_at s0 sched t).
Proof.
  intros H0 (Hb & Ht & Hk) t. induction t as [|t IH].
  - destruct (loop_start (sched O) s0 H0 Hb Ht) as (Ha & Hi & Hsp & _).
    unfold state_at. cbn [seq map loops]. auto.
  - destruct IH as (Ha & Hi & _). rewrite state_at_succ.
    destruct (loop_tick (sched (S t)) _ Ha Hi (Hk t)) as (Ha' & Hi' & Hsp & _).
    auto.
Qed.

(** With one iteration per elapsed timer period the counter follows
    the iterations up to the end of the hold, and stops there. *)
Lemma state_at_counter (s0 : State) (sched : nat -> TickInput) :
  confirming_reflow s0 ->
  confirmed_at_25 sched ->
  one_tick_per_second s0 sched ->
  (runningSecondCounter (state_at s0 sched 0) = 0
   \/ runningSecondCounter (state_at s0 sched 0) = 1)
  /\ forall t : nat,
       runningSecondCounter (state_at s0 sched t)
       = Z.min (runningSecondCounter (state_at s0 sched 0) + Z.of_nat t) 215
       /\ (runningSecondCounter (state_at s0 sched t) < 215 ->
           fired (sched (S t)) (state_at s0 sched t) = true).
Proof.
  intros H0 Hsched (H1 & Hk).
  pose proof (state_at_inv s0 sched H0 Hsched) as Hinv.
  destruct Hsched as (Hb & Ht & Hrel).
  destruct (loop_start (sched O) s0 H0 Hb Ht) as (_ & _ & _ & Hc0 & Ht0).
  change (loop (sched O) s0) with (state_at s0 sched 0) in Hc0, Ht0.
  assert (Hfirst : runningSecondCounter (state_at s0 sched 0) = 0
                   \/ runningSecondCounter (state_at s0 sched 0) = 1).
  { rewrite Hc0. destruct (fired (sched O) s0); auto. }
  split; [exact Hfirst|].
  intros t. induction t as [|t IH].
  - split; [lia|]. intros _. unfold fired at 1. rewrite Ht0.
    apply Z.ltb_lt. unfold restarted.
    destruct (fired (sched O) s0); [apply (Hk O) | exact H1].
  - destruct IH as (Hc & Hf). rewrite state_at_succ.
    destruct (Hinv t) as (Ha & Hi & _).
    destruct (loop_tick (sched (S t)) _ Ha Hi (Hrel t))
      as (_ & _ & _ & Hc' & Ht' & _).
    pose proof (@stage_cases _ (proj2 (proj2 Hi))) as Hcase.
    cbv zeta in Hcase.
    destruct (Z.lt_ge_cases (runningSecondCounter (state_at s0 sched t)) 215)
      as [Hlt|Hge].
    + assert (Hst : (runningState (state_at s0 sched t) <? 5) = true)
        by (apply Z.ltb_lt; lia).
      rewrite Hst, (Hf Hlt) in Hc'. rewrite Hst in Ht'.
      unfold restarted in Ht'. rewrite (Hf Hlt) in Ht'.
      split; [rewrite Hc'; lia|].
      intros _. unfold fired. rewrite Ht'. apply Z.ltb_lt. apply (Hk (S t)).
    + assert (Hst : (runningState (state_at s0 sched t) <? 5) = false)
        by (apply Z.ltb_ge; lia).
      rewrite Hst in Hc'. split; [rewrite Hc'; lia | rewrite Hc'; lia].
Qed.

(** C4. A reflow run of the default profile, confirmed with the plates
    at a mean of 25 degrees and then left alone, follows the profile in
    the iterations of [loop()].  At any rate of iteration, the setpoint
    left by an iteration is 25 when the second counter (the elapsed
    seconds of the run) reads 0, 115 at 100, 145 at 155, 185 at 180 and
    185 while it reads 180 to 214.  With one iteration per elapsed
    timer period the counter starts at 0 or 1, depending on whether the
    first iteration finds the timer elapsed, advances by one per
    iteration and stops at 215, where COOLING is entered; from the
    iteration 216 on the setpoint is 0 with the state machine in
    COOLING. *)
Theorem reflow_setpoint_profile (s0 : State) (sched : nat -> TickInput) :
  confirming_reflow s0 ->
  confirmed_at_25 sched ->
  (forall t, setpoint_by_counter (state_at s0 sched t))
  /\ (one_tick_per_second s0 sched ->
      (runningSecondCounter (state_at s0 sched 0) = 0
       \/ runningSecondCounter (state_at s0 sched 0) = 1)
      /\ (forall t : nat,
            runningSecondCounter (state_at s0 sched t)
            = Z.min (runningSecondCounter (state_at s0 sched 0) + Z.of_nat t)
                215)
      /\ (forall t, (216 <= t)%nat ->
            (pid_Setpoint (state_at s0 sched t) == 0)%Q
            /\ runningState (state_at s0 sched t) = 5)).
Proof.
  intros H0 Hsched.
  pose proof (state_at_inv s0 sched H0 Hsched) as Hinv.
  split; [intros t; apply (Hinv t)|].
  intros Hsec.
  destruct (state_at_counter s0 sched H0 Hsched Hsec) as (Hfirst & Hc).
  split; [exact Hfirst|]. split; [intros t; apply (Hc t)|].
  intros [|t] Ht; [lia|]. rewrite state_at_succ.
  destruct (Hinv t) as (Ha & Hi & _).
  destruct Hsched as (_ & _ & Hrel).
  destruct (loop_tick (sched (S t)) _ Ha Hi (Hrel t))
    as (_ & _ & _ & _ & _ & Hcool).
  destruct (Hc t) as (Hct & _).
  pose proof (@stage_cases _ (proj2 (proj2 Hi))) as Hcase. cbv zeta in Hcase.
  assert (H5 : runningState (state_at s0 sched t) = 5) by lia.
  destruct (Hcool H5) as (E5 & Esp). split; assumption.
Qed.

Lemma confirm_reflow_confirming :
  confirming_reflow (exec confirm_reflow (boot saved_defaults room)).
Proof. unfold confirming_reflow. vm_compute. repeat split. Qed.

Lemma yes_then_every_second_schedule :
  confirmed_at_25 yes_then_every_second
  /\ one_tick_per_second (exec confirm_reflow (boot saved_defaults room))
       yes_then_every_second.
Proof.
  split.
  - split; [reflexivity|]. split; [vm_compute; reflexivity|]. reflexivity.
  - split; [vm_compute; reflexivity|].
    intros k. unfold yes_then_every_second, tick, ms_timer.
    replace (1600 + 1001 * Z.of_nat (S k) - (1600 + 1001 * Z.of_nat k))
      with 1001 by lia.
    reflexivity.
Qed.

Lemma reflow_setpoint_profile_witness :
  let s0 := exec confirm_reflow (boot saved_defaults room) in
  setpoint_by_counter (state_at s0 yes_then_every_second 100)
  /\ (pid_Setpoint (state_at s0 yes_then_every_second 216) == 0)%Q
  /\ runningState (state_at s0 yes_then_every_second 216) = 5.
Proof.
  cbv zeta.
  destruct (reflow_setpoint_profile
              (exec confirm_reflow (boot saved_defaults room))
              yes_then_every_second confirm_reflow_confirming
              (proj1 yes_then_every_second_schedule)) as (HA & HB).
  split; [apply HA|].
  destruct (HB (proj2 yes_then_every_second_schedule)) as (_ & _ & Hcool).
  apply Hcool. lia.
Defined.
